(** * PDFSwifter-api: a shallow embedding of [main.py]

    The service is a thin FastAPI layer: sanitise names, persist uploads in
    chunks, call an external converter, clean up, answer.  The embedding
    follows the file top to bottom.  Python text is a list of code points,
    the file system is a finite map from paths to nodes, handlers run in a
    state-and-exception monad over a [World], and everything that main.py
    imports from third-party packages (pdfplumber, pandas, pdf2docx, fitz,
    yt_dlp) or reads from the Unicode Character Database is a parameter.

    What the model leaves out: a request runs from start to end without
    another one in between ([await] and [asyncio.to_thread] are plain
    calls); paths are POSIX paths; the five storage folders, made when the
    module is imported, are there, so that a write fails only when its
    target is a directory; and the only exceptions are subclasses of
    [Exception]. *)

From Stdlib Require Import NArith ZArith List Bool Lia ZifyBool ZifyN String Ascii.
From Stdlib.Strings Require Import Byte.
From Stdlib Require Import DecimalN DecimalFacts.
From stdpp Require Import gmap list.
From Equations Require Import Equations.
Import ListNotations.

Local Open Scope N_scope.

(** ** Python text *)

(** A [str] is a sequence of Unicode code points. *)
Definition codepoint := N.
Abbreviation pystr := (list N).

(** String literals of the source (all of them ASCII). *)
Fixpoint lit (s : string) : pystr :=
  match s with
  | EmptyString => []
  | String a r => N_of_ascii a :: lit r
  end.
Arguments lit : simpl never.

(** [s.startswith(p)] and [s.endswith(p)]. *)
Fixpoint startswith (s p : pystr) {struct p} : bool :=
  match p with
  | [] => true
  | b :: p' =>
      match s with
      | [] => false
      | a :: s' => (a =? b) && startswith s' p'
      end
  end.

Definition endswith (s p : pystr) : bool := startswith (rev s) (rev p).

(** [s.rfind(c)] for a one-character needle: the highest index, or -1. *)
Fixpoint rfind_from (c : codepoint) (s : pystr) (i : nat) (last : Z) : Z :=
  match s with
  | [] => last
  | x :: r => rfind_from c r (S i) (if x =? c then Z.of_nat i else last)
  end.

Definition rfind (s : pystr) (c : codepoint) : Z := rfind_from c s 0 (-1)%Z.

(** Slices [s[i:]], [s[:i]] and [s[i:j]] for indices that are not negative. *)
Definition slice_from (s : pystr) (i : Z) : pystr := drop (Z.to_nat i) s.
Definition slice_to (s : pystr) (i : Z) : pystr := take (Z.to_nat i) s.
Definition slice (s : pystr) (i j : Z) : pystr := slice_from (slice_to s j) i.

(** [str(n)] for a non-negative integer, as f-strings format it. *)
Fixpoint uint_digits (d : Decimal.uint) : pystr :=
  match d with
  | Decimal.Nil => []
  | Decimal.D0 r => 48 :: uint_digits r
  | Decimal.D1 r => 49 :: uint_digits r
  | Decimal.D2 r => 50 :: uint_digits r
  | Decimal.D3 r => 51 :: uint_digits r
  | Decimal.D4 r => 52 :: uint_digits r
  | Decimal.D5 r => 53 :: uint_digits r
  | Decimal.D6 r => 54 :: uint_digits r
  | Decimal.D7 r => 55 :: uint_digits r
  | Decimal.D8 r => 56 :: uint_digits r
  | Decimal.D9 r => 57 :: uint_digits r
  end.

Definition str_int (n : N) : pystr := uint_digits (N.to_uint n).

(** ** Unicode *)

(** The per-character data that [unicodedata.normalize] and [str.lower]
    read from the Unicode Character Database.  The database is not part of
    the repository, so it is a parameter of everything below. *)
Record UnicodeData := {
  (** full compatibility decomposition of a character that is not a Hangul
      syllable; the character itself when it has none *)
  ucd_decomposition : codepoint -> list codepoint;
  (** canonical combining class *)
  ucd_combining : codepoint -> N;
  (** full lower-case mapping, SpecialCasing included *)
  ucd_lower : codepoint -> list codepoint;
  ucd_cased : codepoint -> bool;
  ucd_case_ignorable : codepoint -> bool
}.

Module Hangul.
Definition SBase := 0xAC00.
Definition LBase := 0x1100.
Definition VBase := 0x1161.
Definition TBase := 0x11A7.
Definition TCount := 28.
Definition NCount := 588.
Definition SCount := 11172.

Definition is_syllable (c : codepoint) : bool :=
  (SBase <=? c) && (c <? SBase + SCount).

Definition decompose (c : codepoint) : list codepoint :=
  let SIndex := c - SBase in
  let L := LBase + SIndex / NCount in
  let V := VBase + (SIndex mod NCount) / TCount in
  let T := TBase + SIndex mod TCount in
  if T =? TBase then [L; V] else [L; V; T].
End Hangul.

Section Unicode.
Variable U : UnicodeData.

Definition decompose (c : codepoint) : list codepoint :=
  if Hangul.is_syllable c then Hangul.decompose c else ucd_decomposition U c.

(** Canonical ordering: a combining mark moves left past the marks of a
    strictly higher class, never past a starter (class 0).  [racc] is the
    text already ordered, last character first. *)
Fixpoint bubble (c : codepoint) (racc : list codepoint) : list codepoint :=
  match racc with
  | [] => [c]
  | p :: rest =>
      if (ucd_combining U p =? 0) || (ucd_combining U p <=? ucd_combining U c)
      then c :: racc
      else p :: bubble c rest
  end.

Definition place (racc : list codepoint) (c : codepoint) : list codepoint :=
  if ucd_combining U c =? 0 then c :: racc else bubble c racc.

Definition canonical_order (s : pystr) : pystr := rev (fold_left place s []).

(** [unicodedata.normalize("NFKD", s)] *)
Definition normalize_NFKD (s : pystr) : pystr :=
  canonical_order (flat_map decompose s).

(** [str.lower]: every character maps through the full lower-case
    mapping, except capital sigma, whose image depends on whether it ends
    a word. *)
Fixpoint skip_ignorable (s : list codepoint) : list codepoint :=
  match s with
  | c :: r => if ucd_case_ignorable U c then skip_ignorable r else s
  | [] => []
  end.

Definition final_sigma (before_rev after : list codepoint) : bool :=
  match skip_ignorable before_rev with
  | c :: _ =>
      ucd_cased U c &&
      match skip_ignorable after with
      | [] => true
      | d :: _ => negb (ucd_cased U d)
      end
  | [] => false
  end.

Fixpoint do_lower (before_rev s : list codepoint) : list codepoint :=
  match s with
  | [] => []
  | c :: r =>
      (if c =? 0x3A3
       then [if final_sigma before_rev r then 0x3C2 else 0x3C3]
       else ucd_lower U c) ++ do_lower (c :: before_rev) r
  end.

Definition str_lower (s : pystr) : pystr := do_lower [] s.

(** ** Utility functions *)

(** [.encode("ASCII", "ignore").decode("ASCII")]: characters outside
    ASCII are dropped. *)
Definition is_ascii (c : codepoint) : bool := c <? 128.
Definition encode_ascii_ignore (s : pystr) : pystr := List.filter is_ascii s.

(** The character class [A-Za-z0-9._-]. *)
Definition allowed (c : codepoint) : bool :=
  ((65 <=? c) && (c <=? 90)) || ((97 <=? c) && (c <=? 122)) ||
  ((48 <=? c) && (c <=? 57)) || (c =? 46) || (c =? 95) || (c =? 45).

Definition underscore : codepoint := 95.

(** [re.sub(r"[^A-Za-z0-9._-]", "_", s)] *)
Definition re_sub_disallowed (s : pystr) : pystr :=
  map (fun c => if allowed c then c else underscore) s.

Definition ascii_filename (filename : pystr) : pystr :=
  let nfkd := normalize_NFKD filename in
  let only_ascii := encode_ascii_ignore nfkd in
  re_sub_disallowed only_ascii.
End Unicode.

(** ** os.path (POSIX flavour) *)

Definition sep : codepoint := 47.
Definition extsep : codepoint := 46.

Definition basename (p : pystr) : pystr :=
  let i := (rfind p sep + 1)%Z in
  slice_from p i.

(** [genericpath._splitext]: the extension starts at the last dot of the
    last component, unless that component has only dots before it. *)
Definition splitext (p : pystr) : pystr * pystr :=
  let sepIndex := rfind p sep in
  let dotIndex := rfind p extsep in
  if (sepIndex <? dotIndex)%Z &&
     existsb (fun c => negb (c =? extsep)) (slice p (sepIndex + 1) dotIndex)
  then (slice_to p dotIndex, slice_from p dotIndex)
  else (p, []).

Definition path_join (a b : pystr) : pystr :=
  if startswith b [sep] then b
  else if (match a with [] => true | _ => false end) || endswith a [sep] then a ++ b
  else a ++ sep :: b.

Section Stem.
Variable U : UnicodeData.

(** [sanitized or "file"] *)
Definition safe_stem (filename : pystr) : pystr :=
  let stem := fst (splitext (basename filename)) in
  let sanitized := ascii_filename U stem in
  match sanitized with
  | [] => lit "file"
  | _ => sanitized
  end.
End Stem.

(** An excerpt of the Unicode Character Database, exact on ASCII and on the
    code points listed; a code point outside the excerpt is treated as
    having no mapping of its own.  It is used to run the model on concrete
    names. *)
Module Excerpt.
Definition decomposition (c : codepoint) : list codepoint :=
  if c =? 0xC9 then [0x45; 0x301]          (* E with acute *)
  else if c =? 0xE9 then [0x65; 0x301]     (* e with acute *)
  else if c =? 0xE7 then [0x63; 0x327]     (* c with cedilla *)
  else if c =? 0x130 then [0x49; 0x307]    (* I with dot above *)
  else if c =? 0x1EA1 then [0x61; 0x323]   (* a with dot below *)
  else if c =? 0x2460 then [0x31]          (* circled digit one *)
  else if c =? 0xFB01 then [0x66; 0x69]    (* ligature fi *)
  else [c].

Definition combining (c : codepoint) : N :=
  if (c =? 0x301) || (c =? 0x307) then 230  (* acute, dot above *)
  else if c =? 0x323 then 220               (* dot below *)
  else if c =? 0x327 then 202               (* cedilla *)
  else 0.

Definition lower (c : codepoint) : list codepoint :=
  if (65 <=? c) && (c <=? 90) then [c + 32]
  else if c =? 0xC9 then [0xE9]
  else if c =? 0x130 then [0x69; 0x307]
  else if c =? 0x3A3 then [0x3C3]
  else [c].

Definition cased (c : codepoint) : bool :=
  ((65 <=? c) && (c <=? 90)) || ((97 <=? c) && (c <=? 122)) ||
  (c =? 0xC9) || (c =? 0xE9) || (c =? 0xE7) || (c =? 0x130) ||
  (c =? 0x3A3) || (c =? 0x3C2) || (c =? 0x3C3) || (c =? 0x1EA1) || (c =? 0xFB01).

Definition case_ignorable (c : codepoint) : bool :=
  (c =? 0x27) || (c =? 0x2E) || (c =? 0x3A) || (c =? 0x5E) || (c =? 0x60) ||
  (c =? 0x301) || (c =? 0x307) || (c =? 0x323) || (c =? 0x327).

Definition ucd : UnicodeData :=
  {| ucd_decomposition := decomposition;
     ucd_combining := combining;
     ucd_lower := lower;
     ucd_cased := cased;
     ucd_case_ignorable := case_ignorable |}.
End Excerpt.

(** ** The world: files, clock, deletion threads, randomness *)

(** [pd.DataFrame(rows, columns=header)] once built. *)
Abbreviation row := (list (option pystr)).
Abbreviation table := (list (list (option pystr))).

Record DataFrame := { columns : row; data : list row }.

(** What a file holds.  Uploads, documents and images are byte strings; a
    workbook is its sheets and a zip archive its entries, in order. *)
Record Sheet := { sheet_name : pystr; frame : DataFrame }.

Inductive FileData :=
  | Bytes (b : list byte)
  | Workbook (sheets : list Sheet)
  | Archive (entries : list ZipEntry)
with ZipEntry :=
  | zip_entry (arcname : pystr) (content : FileData).

Inductive Node :=
  | File (d : FileData)
  | Dir.

(** The exceptions that matter to the handlers, all of them subclasses of
    [Exception]: a [ValueError] (or a subclass of it), the
    [FileNotFoundError] that [download_video] raises, another [OSError],
    and any other.  Each carries the text that [str(e)] gives. *)
Inductive exn :=
  | ValueError (msg : pystr)
  | FileNotFoundError (msg : pystr)
  | OSError (msg : pystr)
  | Exception (msg : pystr).

(** [str(e)] *)
Definition str_exn (e : exn) : pystr :=
  match e with
  | ValueError m | FileNotFoundError m | OSError m | Exception m => m
  end.

(** A daemon thread started by [delete_file_later] at time [started]: it
    sleeps for [delay] seconds and then deletes [target]. *)
Record Thread := { target : pystr; started : Z; delay : Z }.

Record World := {
  files : gmap pystr Node;
  clock : Z;                 (* seconds *)
  threads : list Thread;
  urandom : nat -> N;        (* the successive 16-byte draws of os.urandom *)
  drawn : nat
}.

Definition set_files (f : gmap pystr Node -> gmap pystr Node) (w : World) : World :=
  {| files := f (files w); clock := clock w; threads := threads w;
     urandom := urandom w; drawn := drawn w |}.

Definition set_threads (f : list Thread -> list Thread) (w : World) : World :=
  {| files := files w; clock := clock w; threads := f (threads w);
     urandom := urandom w; drawn := drawn w |}.

Definition set_clock (f : Z -> Z) (w : World) : World :=
  {| files := files w; clock := f (clock w); threads := threads w;
     urandom := urandom w; drawn := drawn w |}.

Definition set_drawn (f : nat -> nat) (w : World) : World :=
  {| files := files w; clock := clock w; threads := threads w;
     urandom := urandom w; drawn := f (drawn w) |}.

(** Computations that read and change the world and may raise. *)
Definition M (A : Type) : Type := World -> (exn + A) * World.

Definition ret {A} (a : A) : M A := fun w => (inr a, w).
Definition raise {A} (e : exn) : M A := fun w => (inl e, w).
Definition bind {A B} (m : M A) (k : A -> M B) : M B :=
  fun w => match m w with
           | (inl e, w') => (inl e, w')
           | (inr a, w') => k a w'
           end.

(** [try: m except ... as e], with the handler left to the caller. *)
Definition try {A} (m : M A) : M (exn + A) :=
  fun w => let (r, w') := m w in (inr r, w').

Definition lift {A} (r : exn + A) : M A := fun w => (r, w).
Definition gets {A} (f : World -> A) : M A := fun w => (inr (f w), w).
Definition modify (f : World -> World) : M unit := fun w => (inr tt, f w).

Declare Scope py_scope.
Delimit Scope py_scope with py.
Notation "x <- m ;; k" := (bind m (fun x => k))
  (at level 100, m at next level, right associativity) : py_scope.
Notation "m ;;; k" := (bind m (fun _ => k))
  (at level 100, right associativity) : py_scope.
Local Open Scope py_scope.

(** *** File system calls *)

Definition os_path_exists (p : pystr) : M bool :=
  gets (fun w => match files w !! p with Some _ => true | None => false end).

Definition os_remove (p : pystr) : M unit :=
  node <- gets (fun w => files w !! p) ;;
  match node with
  | None => raise (FileNotFoundError (lit "[Errno 2] No such file or directory: " ++ p))
  | Some Dir => raise (OSError (lit "[Errno 21] Is a directory: " ++ p))
  | Some (File _) => modify (set_files (delete p))
  end.

(** [q] lies below directory [p]. *)
Definition below (p q : pystr) : bool := startswith q (p ++ [47]).

Definition remove_tree (p : pystr) (fs : gmap pystr Node) : gmap pystr Node :=
  delete p (filter (fun kv => below p (fst kv) = false) fs).

(** [shutil.rmtree(p, ignore_errors=True)]: a directory goes with all it
    holds; anything else is an error, which is ignored. *)
Definition shutil_rmtree_ignore_errors (p : pystr) : M unit :=
  node <- gets (fun w => files w !! p) ;;
  match node with
  | Some Dir => modify (set_files (remove_tree p))
  | _ => ret tt
  end.

(** [os.makedirs(p, exist_ok=True)] *)
Definition os_makedirs_exist_ok (p : pystr) : M unit :=
  node <- gets (fun w => files w !! p) ;;
  match node with
  | Some (File _) => raise (OSError (lit "[Errno 17] File exists: " ++ p))
  | Some Dir => ret tt
  | None => modify (set_files (insert p Dir))
  end.

(** Create or replace the file at [p]. *)
Definition write_file (p : pystr) (d : FileData) : M unit :=
  node <- gets (fun w => files w !! p) ;;
  match node with
  | Some Dir => raise (OSError (lit "[Errno 21] Is a directory: " ++ p))
  | _ => modify (set_files (insert p (File d)))
  end.

(** [open(p, "wb")] creates or truncates; [buffer.write(chunk)] appends. *)
Definition open_wb (p : pystr) : M unit := write_file p (Bytes []).

Definition buffer_write (p : pystr) (chunk : list byte) : M unit :=
  modify (set_files (alter (fun node =>
    match node with
    | File (Bytes b) => File (Bytes (b ++ chunk))
    | other => other
    end) p)).

(** *** uuid *)

(** [uuid.uuid4()]: 16 random bytes with the variant and version bits
    overwritten (RFC 4122, version 4). *)
Definition uuid4_int (random : N) : N :=
  let int := random mod 2 ^ 128 in
  let int := N.ldiff int (N.shiftl 0xc000 48) in
  let int := N.lor int (N.shiftl 0x8000 48) in
  let int := N.ldiff int (N.shiftl 0xf000 64) in
  N.lor int (N.shiftl 4 76).

Definition hexdigit (d : N) : codepoint := if d <? 10 then 48 + d else 87 + d.

Fixpoint hex_digits (n : nat) (u : N) : pystr :=
  match n with
  | O => []
  | S k => hex_digits k (u / 16) ++ [hexdigit (u mod 16)]
  end.

(** [UUID.hex]: ['%032x' % self.int] *)
Definition UUID_hex (int : N) : pystr := hex_digits 32 int.

Definition uuid4 : M N :=
  fun w => (inr (uuid4_int (urandom w (drawn w))), set_drawn S w).

(** *** Deferred deletion *)

(** The body of the inner function [delete()], from the point where
    [time.sleep(delay)] has returned. *)
Definition delete_after_sleep (file_path : pystr) : M unit :=
  there <- os_path_exists file_path ;;
  if there then os_remove file_path else ret tt.

Definition delete_file_later (file_path : pystr) (delay : Z) : M unit :=
  fun w => (inr tt,
            set_threads (fun ts => ts ++ [{| target := file_path;
                                              started := clock w;
                                              delay := delay |}]) w).

Definition default_delay : Z := 300.

(** [time.sleep(delay)] in a thread started at [started], seen at time
    [now]: it raises on a negative delay, has returned once the delay has
    passed, and is still asleep otherwise. *)
Definition time_sleep (started delay now : Z) : option (exn + unit) :=
  if (delay <? 0)%Z
  then Some (inl (ValueError (lit "sleep length must be non-negative")))
  else if (started + delay <=? now)%Z then Some (inr tt)
  else None.

(** Thread [i] runs to its end, if its sleep is over.  The thread leaves
    the list; an exception ends it and goes nowhere. *)
Definition fire (i : nat) (w : World) : option ((exn + unit) * World) :=
  match threads w !! i with
  | Some t =>
      let w' := set_threads (fun ts => take i ts ++ drop (S i) ts) w in
      match time_sleep (started t) (delay t) (clock w) with
      | Some (inr _) => Some (delete_after_sleep (target t) w')
      | Some (inl e) => Some (inl e, w')
      | None => None
      end
  | None => None
  end.

(** What can happen between two steps of a request: time passes, a
    deletion thread runs to its end, or somebody else removes a path. *)
Inductive step : World -> World -> Prop :=
  | step_sleep w d : (0 <= d)%Z -> step w (set_clock (fun t => (t + d)%Z) w)
  | step_fire w i r w' : fire i w = Some (r, w') -> step w w'
  | step_removed w p : step w (set_files (delete p) w).

(** ** App and constants *)

Definition DOWNLOAD_FOLDER : pystr := lit "downloads".
Definition PDF_DOWNLOAD_FOLDER : pystr := lit "pdf_uploads".
Definition EXCEL_DOWNLOAD_FOLDER : pystr := lit "excel_outputs".
Definition WORD_DOWNLOAD_FOLDER : pystr := lit "word_outputs".
Definition IMAGE_DOWNLOAD_FOLDER : pystr := lit "image_outputs".

Definition CHUNK_SIZE : nat := (1024 * 1024)%nat.
Arguments CHUNK_SIZE : simpl never.

(** ** Uploads *)

(** Starlette's [UploadFile]: a name and a file object with a cursor. *)
Record UploadFile := { filename : pystr; payload : list byte; cursor : nat }.

(** [await upload_file.read(size)] *)
Definition upload_read (f : UploadFile) (size : nat) : list byte * UploadFile :=
  let chunk := take size (drop (cursor f) (payload f)) in
  (chunk, {| filename := filename f; payload := payload f;
             cursor := (cursor f + length chunk)%nat |}).

(** [await upload_file.seek(pos)] *)
Definition upload_seek (f : UploadFile) (pos : nat) : UploadFile :=
  {| filename := filename f; payload := payload f; cursor := pos |}.

Definition inspect {A} (a : A) : {b : A | a = b} := exist _ a eq_refl.

(** The [while True] loop of [save_upload_file]: read a chunk, stop when
    it is empty, else append it to the open file.  Every round but the
    last moves the cursor forward, which is why the loop ends. *)
Equations? copy_chunks (size : nat) (upload_file : UploadFile) (file_path : pystr)
    (w : World) : (exn + UploadFile) * World
  by wf (length (payload upload_file) - cursor upload_file)%nat lt :=
  copy_chunks size upload_file file_path w
    with inspect (fst (upload_read upload_file size)) := {
    | exist _ nil _ => (inr (snd (upload_read upload_file size)), w)
    | exist _ (cons c chunk) H =>
        match buffer_write file_path (c :: chunk) w with
        | (inl e, w') => (inl e, w')
        | (inr _, w') =>
            copy_chunks size (snd (upload_read upload_file size)) file_path w'
        end }.
Proof.
  simpl in *. rewrite H. simpl.
  assert (L : (length (take size (drop (cursor upload_file) (payload upload_file)))
               <= length (payload upload_file) - cursor upload_file)%nat).
  { rewrite length_take, length_drop. lia. }
  rewrite H in L. simpl in L. lia.
Qed.

Section Service.
Variable U : UnicodeData.

Definition save_upload_file (upload_file : UploadFile) (destination_folder : pystr)
  : M (pystr * UploadFile) :=
  let ext := snd (splitext (filename upload_file)) in
  u <- uuid4 ;;
  let unique_name :=
    UUID_hex u ++ (match ext with [] => [] | _ => str_lower U ext end) in
  let file_path := path_join destination_folder unique_name in
  open_wb file_path ;;;
  upload_file <- copy_chunks CHUNK_SIZE upload_file file_path ;;
  let upload_file := upload_seek upload_file 0 in
  ret (file_path, upload_file).

(** ** Collaborators *)

(** A value of a [yt_dlp] option. *)
Inductive opt :=
  | OStr (s : pystr)
  | OBool (b : bool)
  | OInt (n : Z).

(** The third-party packages, as far as main.py uses them.  Each one is
    given what is at the path it is asked to open. *)
Record Collaborators := {
  (** [pdfplumber.open(path).pages], each page as the outcome of its
      [extract_table()] *)
  pdfplumber_open : option Node -> exn + list (exn + option table);
  (** [pd.DataFrame(rows, columns=header)] *)
  pd_DataFrame : list row -> row -> exn + DataFrame;
  (** [df.to_excel(writer, sheet_name=..., index=False)]: what it raises *)
  to_excel : DataFrame -> pystr -> option exn;
  (** [Converter(path)]: what it raises *)
  Converter_init : option Node -> option exn;
  (** [cv.convert(word_path, start=0, end=None)]: the bytes it leaves at
      [word_path], if any, and what it raises *)
  Converter_convert : option Node -> option (list byte) * option exn;
  (** [fitz.open(path)]: the pages, each as the outcome of
      [load_page], [get_pixmap] and the PNG encoding of [pix.save] *)
  fitz_open : option Node -> exn + list (exn + list byte);
  (** [YoutubeDL(opts)]: [extract_info(url)] changes the disk, then
      [prepare_filename(info)] names the file *)
  YoutubeDL : gmap pystr opt -> pystr -> gmap pystr Node ->
              gmap pystr Node * (exn + pystr)
}.

Variable C : Collaborators.

(** ** Conversions *)

(** The [for page in pdf.pages] loop. *)
Fixpoint extract_tables (pages : list (exn + option table)) : exn + list DataFrame :=
  match pages with
  | [] => inr []
  | page :: rest =>
      match page with
      | inl e => inl e
      | inr (Some (header :: rows)) =>
          match pd_DataFrame C rows header with
          | inl e => inl e
          | inr df =>
              match extract_tables rest with
              | inl e => inl e
              | inr all_tables => inr (df :: all_tables)
              end
          end
      | inr _ => extract_tables rest
      end
  end.

(** The [for i, df in enumerate(all_tables)] loop: the sheets written
    before the first exception, and that exception. *)
Fixpoint write_sheets (i : nat) (all_tables : list DataFrame) : list Sheet * option exn :=
  match all_tables with
  | [] => ([], None)
  | df :: rest =>
      let name := lit "Sheet" ++ str_int (N.of_nat i + 1) in
      match to_excel C df name with
      | Some e => ([], Some e)
      | None =>
          let (sheets, err) := write_sheets (S i) rest in
          ({| sheet_name := name; frame := df |} :: sheets, err)
      end
  end.

Definition convert_pdf_tables_to_excel (pdf_path excel_path : pystr) : M unit :=
  pdf <- gets (fun w => files w !! pdf_path) ;;
  pages <- lift (pdfplumber_open C pdf) ;;
  all_tables <- lift (extract_tables pages) ;;
  match all_tables with
  | [] => raise (ValueError (lit "No tables found in PDF."))
  | _ =>
      let (sheets, err) := write_sheets 0 all_tables in
      (* leaving the [with] block saves the workbook, exception or not *)
      write_file excel_path (Workbook sheets) ;;;
      match err with
      | Some e => raise e
      | None => ret tt
      end
  end.

Definition convert_pdf_to_docx (pdf_path word_path : pystr) : M unit :=
  pdf <- gets (fun w => files w !! pdf_path) ;;
  match Converter_init C pdf with
  | Some e => raise e
  | None =>
      let (written, err) := Converter_convert C pdf in
      match written with
      | Some b => write_file word_path (Bytes b)
      | None => ret tt
      end ;;;
      (* [finally: cv.close()] changes nothing that is modelled *)
      match err with
      | Some e => raise e
      | None => ret tt
      end
  end.

(** The [for page_index in range(doc.page_count)] loop. *)
Fixpoint render_pages (doc : list (exn + list byte)) (page_index : nat)
    (session_folder base_name : pystr) : M (list pystr) :=
  match doc with
  | [] => ret []
  | page :: rest =>
      pix <- lift page ;;
      let image_path :=
        path_join session_folder
          (base_name ++ lit "_page_" ++ str_int (N.of_nat page_index + 1) ++ lit ".png") in
      write_file image_path (Bytes pix) ;;;
      image_paths <- render_pages rest (S page_index) session_folder base_name ;;
      ret (image_path :: image_paths)
  end.

(** The [for image_path in image_paths] loop: [zip_file.write] stores a
    file under its arcname, a directory as an empty entry, and raises
    when nothing is there. *)
Fixpoint zip_write_all (fs : gmap pystr Node) (image_paths : list pystr)
  : list ZipEntry * option exn :=
  match image_paths with
  | [] => ([], None)
  | image_path :: rest =>
      let arcname := basename image_path in
      match fs !! image_path with
      | None =>
          ([], Some (FileNotFoundError
                       (lit "[Errno 2] No such file or directory: " ++ image_path)))
      | Some node =>
          let entry := match node with
                       | File d => zip_entry arcname d
                       | Dir => zip_entry (arcname ++ [sep]) (Bytes [])
                       end in
          let (entries, err) := zip_write_all fs rest in
          (entry :: entries, err)
      end
  end.

Definition create_images_zip (pdf_path session_folder zip_path base_name : pystr)
  : M unit :=
  pdf <- gets (fun w => files w !! pdf_path) ;;
  doc <- lift (fitz_open C pdf) ;;
  match doc with
  | [] => raise (ValueError (lit "No pages found in PDF."))
  | _ =>
      image_paths <- render_pages doc 0 session_folder base_name ;;
      write_file zip_path (Archive []) ;;;
      fs <- gets files ;;
      let (entries, err) := zip_write_all fs image_paths in
      (* leaving the [with] block closes the archive, exception or not *)
      write_file zip_path (Archive entries) ;;;
      match err with
      | Some e => raise e
      | None => ret tt
      end
  end.

Definition ydl_opts (output_template : pystr)
    (custom_options : option (gmap pystr opt)) : gmap pystr opt :=
  let ydl_opts : gmap pystr opt :=
    list_to_map
      [ (lit "format", OStr (lit "bestvideo[ext=mp4]+bestaudio[ext=m4a]/best[ext=mp4]"));
        (lit "outtmpl", OStr output_template);
        (lit "merge_output_format", OStr (lit "mp4"));
        (lit "noplaylist", OBool true);
        (lit "quiet", OBool true) ] in
  match custom_options with
  | Some custom => custom ∪ ydl_opts      (* dict.update *)
  | None => ydl_opts
  end.

Definition download_video (url output_template : pystr)
    (custom_options : option (gmap pystr opt)) : M pystr :=
  let ydl_opts := ydl_opts output_template custom_options in
  filename <- (fun w => let (fs, r) := YoutubeDL C ydl_opts url (files w) in
                        (r, set_files (fun _ => fs) w)) ;;
  let filename :=
    if negb (endswith (str_lower U filename) (lit ".mp4"))
    then fst (splitext filename) ++ lit ".mp4"
    else filename in
  there <- os_path_exists filename ;;
  if negb there then raise (FileNotFoundError (lit "Failed to download video."))
  else ret filename.

(** ** Endpoints *)

(** What FastAPI sends back: a JSON object with the one key ["error"],
    or a file with its download name and headers. *)
Inductive Response :=
  | JSON_error (message : pystr)
  | FileResponse (path : pystr) (filename : pystr) (headers : list (pystr * pystr)).

Definition content_disposition (safe_filename : pystr) : list (pystr * pystr) :=
  [ (lit "Content-Disposition",
     lit "attachment; filename=" ++ [34] ++ safe_filename ++ [34]) ].

Definition send_file (path : pystr) : Response :=
  let safe_filename := ascii_filename U (basename path) in
  FileResponse path safe_filename (content_disposition safe_filename).

Definition download_youtube (url : pystr) : M Response :=
  let output_template := path_join DOWNLOAD_FOLDER (lit "%(id)s_%(title)s.%(ext)s") in
  r <- try (download_video url output_template None) ;;
  match r with
  | inl e => ret (JSON_error (lit "Failed to download video: " ++ str_exn e))
  | inr filename =>
      delete_file_later filename default_delay ;;;
      ret (send_file filename)
  end.

Definition download_tiktok (url : pystr) : M Response :=
  let output_template :=
    path_join DOWNLOAD_FOLDER
      (lit "tiktok_%(id)s_%(upload_date)s_%(timestamp)s.%(ext)s") in
  let custom_options : gmap pystr opt :=
    list_to_map [ (lit "retries", OInt 5); (lit "fragment_retries", OInt 5);
                  (lit "skip_unavailable_fragments", OBool true) ] in
  r <- try (download_video url output_template (Some custom_options)) ;;
  match r with
  | inl e => ret (JSON_error (lit "Failed to download TikTok video: " ++ str_exn e))
  | inr filename =>
      delete_file_later filename default_delay ;;;
      ret (send_file filename)
  end.

(** [if os.path.exists(p): os.remove(p)] *)
Definition remove_if_exists (p : pystr) : M unit :=
  there <- os_path_exists p ;;
  if there then os_remove p else ret tt.

Definition pdf_to_excel (file : UploadFile) : M Response :=
  if negb (endswith (str_lower U (filename file)) (lit ".pdf"))
  then ret (JSON_error (lit "Please upload a PDF file."))
  else
    saved <- save_upload_file file PDF_DOWNLOAD_FOLDER ;;
    let pdf_path := fst saved in
    let base_name := safe_stem U (filename file) in
    u <- uuid4 ;;
    let unique_id := UUID_hex u in
    let excel_filename := base_name ++ lit "_" ++ unique_id ++ lit ".xlsx" in
    let excel_path := path_join EXCEL_DOWNLOAD_FOLDER excel_filename in
    r <- try (convert_pdf_tables_to_excel pdf_path excel_path) ;;
    match r with
    | inl (ValueError _ as e) =>
        remove_if_exists excel_path ;;;
        delete_file_later pdf_path default_delay ;;;
        ret (JSON_error (str_exn e))
    | inl e =>
        remove_if_exists excel_path ;;;
        delete_file_later pdf_path default_delay ;;;
        ret (JSON_error (lit "Failed to convert PDF: " ++ str_exn e))
    | inr _ =>
        delete_file_later pdf_path default_delay ;;;
        delete_file_later excel_path 600 ;;;
        ret (send_file excel_path)
    end.

Definition pdf_to_word (file : UploadFile) : M Response :=
  if negb (endswith (str_lower U (filename file)) (lit ".pdf"))
  then ret (JSON_error (lit "Please upload a PDF file."))
  else
    saved <- save_upload_file file PDF_DOWNLOAD_FOLDER ;;
    let pdf_path := fst saved in
    let base_name := safe_stem U (filename file) in
    u <- uuid4 ;;
    let unique_id := UUID_hex u in
    let word_filename := base_name ++ lit "_" ++ unique_id ++ lit ".docx" in
    let word_path := path_join WORD_DOWNLOAD_FOLDER word_filename in
    r <- try (convert_pdf_to_docx pdf_path word_path) ;;
    match r with
    | inl e =>
        remove_if_exists word_path ;;;
        delete_file_later pdf_path default_delay ;;;
        ret (JSON_error (lit "Failed to convert PDF: " ++ str_exn e))
    | inr _ =>
        delete_file_later pdf_path default_delay ;;;
        delete_file_later word_path 600 ;;;
        ret (send_file word_path)
    end.

Definition pdf_to_image (file : UploadFile) : M Response :=
  if negb (endswith (str_lower U (filename file)) (lit ".pdf"))
  then ret (JSON_error (lit "Please upload a PDF file."))
  else
    saved <- save_upload_file file PDF_DOWNLOAD_FOLDER ;;
    let pdf_path := fst saved in
    let base_name := safe_stem U (filename file) in
    u <- uuid4 ;;
    let unique_id := UUID_hex u in
    let session_folder :=
      path_join IMAGE_DOWNLOAD_FOLDER (base_name ++ lit "_" ++ unique_id) in
    os_makedirs_exist_ok session_folder ;;;
    let zip_path :=
      path_join IMAGE_DOWNLOAD_FOLDER (base_name ++ lit "_" ++ unique_id ++ lit ".zip") in
    r <- try (create_images_zip pdf_path session_folder zip_path base_name) ;;
    match r with
    | inl (ValueError _ as e) =>
        shutil_rmtree_ignore_errors session_folder ;;;
        remove_if_exists zip_path ;;;
        delete_file_later pdf_path default_delay ;;;
        ret (JSON_error (str_exn e))
    | inl e =>
        shutil_rmtree_ignore_errors session_folder ;;;
        remove_if_exists zip_path ;;;
        delete_file_later pdf_path default_delay ;;;
        ret (JSON_error (lit "Failed to convert PDF: " ++ str_exn e))
    | inr _ =>
        shutil_rmtree_ignore_errors session_folder ;;;
        delete_file_later pdf_path default_delay ;;;
        delete_file_later zip_path 600 ;;;
        ret (send_file zip_path)
    end.
End Service.

(** ** A test double *)

(** Stand-ins for the collaborators, to run the handlers on concrete
    requests.  Every byte of an upload stands for one page: [x00] is a page
    without a table, [xff] a page the library chokes on, any other byte a
    page with a one-column table.  An upload of no bytes at all is a PDF
    without pages.  The video fetcher stores its download under the text of
    the URL and reports that name. *)
Module Sample.
Definition page_table (b : byte) : exn + option table :=
  match b with
  | x00 => inr None
  | xff => inl (Exception (lit "broken page"))
  | _ => inr (Some [[Some (lit "name")]; [Some [Byte.to_N b]]])
  end.

Definition page_png (b : byte) : exn + list byte :=
  match b with
  | xff => inl (Exception (lit "broken page"))
  | _ => inr [x89; x50; x4e; x47; b]
  end.

Definition collaborators : Collaborators :=
  {| pdfplumber_open node :=
       match node with
       | Some (File (Bytes b)) => inr (map page_table b)
       | _ => inl (Exception (lit "not a PDF"))
       end;
     pd_DataFrame rows header := inr {| columns := header; data := rows |};
     to_excel _ _ := None;
     Converter_init node :=
       match node with
       | Some (File (Bytes _)) => None
       | _ => Some (Exception (lit "not a PDF"))
       end;
     Converter_convert node :=
       match node with
       | Some (File (Bytes (b :: r))) =>
           if existsb (fun x => Byte.eqb x xff) (b :: r)
           then (Some [b], Some (Exception (lit "broken page")))
           else (Some (b :: r), None)
       | _ => (None, Some (ValueError (lit "empty document")))
       end;
     fitz_open node :=
       match node with
       | Some (File (Bytes b)) => inr (map page_png b)
       | _ => inl (Exception (lit "not a PDF"))
       end;
     YoutubeDL opts url fs :=
       match url with
       | [] => (fs, inl (Exception (lit "unsupported URL")))
       | _ => let name := path_join DOWNLOAD_FOLDER url in
              (<[name := File (Bytes [x00])]> fs, inr name)
       end |}.

(** An empty disk at time 0, with a fixed supply of random numbers. *)
Definition world : World :=
  {| files := ∅; clock := 0; threads := [];
     urandom n := nth n [0x0123456789abcdef0123456789abcdef;
                       0x1123456789abcdef0123456789abcdf0;
                       0x2123456789abcdef0123456789abcdf1]
                      0x3123456789abcdef0123456789abcdf2;
     drawn := 0 |}.

Definition upload (name : string) (bytes : list byte) : UploadFile :=
  {| filename := lit name; payload := bytes; cursor := 0 |}.

(** Three pages, the second one broken. *)
Definition broken_report : UploadFile := upload "report.PDF" [x01; xff; x02].

(** No page at all. *)
Definition empty_pdf : UploadFile := upload "empty.pdf" [].

(** Three pages under a name with an accent, a space and an upper-case
    extension. *)
Definition statement : UploadFile :=
  {| filename := lit "Relev" ++ [0xE9] ++ lit " 2024.PDF";
     payload := [x01; x02; x03]; cursor := 0 |}.

(** Its pages as the stand-in for [fitz] renders them. *)
Definition statement_pages : list (list byte) :=
  [[x89; x50; x4e; x47; x01]; [x89; x50; x4e; x47; x02]; [x89; x50; x4e; x47; x03]].
End Sample.

Abbreviation sample_U := Excerpt.ucd.
Abbreviation sample_C := Sample.collaborators.
Abbreviation sample_w := Sample.world.
Abbreviation broken_file := Sample.broken_report.
Abbreviation empty_file := Sample.empty_pdf.
Abbreviation statement_file := Sample.statement.
Abbreviation statement_pages := Sample.statement_pages.
Abbreviation broken_page := (Exception (lit "broken page")).

(** ** Notions used in the statements *)

(** What the Unicode standard promises for ASCII and every version of the
    database keeps: an ASCII character has no decomposition and is a
    starter. *)
Definition ascii_compatible (U : UnicodeData) : Prop :=
  forall c, c < 128 -> ucd_decomposition U c = [c] /\ ucd_combining U c = 0.

(** What one character of the input becomes in [ascii_filename]. *)
Definition sanitized_char (U : UnicodeData) (c : codepoint) : pystr :=
  re_sub_disallowed (encode_ascii_ignore (decompose U c)).

(** The chunks of the spec's words, "fixed-size chunks until exhausted":
    [size] bytes each, the last one as long as what is left, none empty.
    The loop of [save_upload_file] is compared with it below. *)
Equations? fixed_size_chunks (size : nat) (rest : list byte) : list (list byte)
  by wf (length rest) lt :=
  fixed_size_chunks size rest with inspect (take size rest) := {
    | exist _ nil _ => []
    | exist _ (cons c chunk) H => (c :: chunk) :: fixed_size_chunks size (drop size rest) }.
Proof.
  destruct size, rest; simpl in *; try discriminate.
  rewrite length_drop. lia.
Qed.

(** The path that [save_upload_file] allocates in world [w]. *)
Definition upload_path (U : UnicodeData) (upload_file : UploadFile)
    (destination_folder : pystr) (w : World) : pystr :=
  let ext := snd (splitext (filename upload_file)) in
  path_join destination_folder
    (UUID_hex (uuid4_int (urandom w (drawn w))) ++
     match ext with [] => [] | _ => str_lower U ext end).

(** The names a PDF endpoint derives for a request that arrives in world
    [w]: the stored upload, the identifier of the output (the second UUID
    drawn), and the output paths. *)
Section Request.
Variable U : UnicodeData.
Variable file : UploadFile.
Variable w : World.

Definition pdf_path : pystr := upload_path U file PDF_DOWNLOAD_FOLDER w.
Definition unique_id : pystr := UUID_hex (uuid4_int (urandom w (S (drawn w)))).
Definition base_name : pystr := safe_stem U (filename file).

Definition excel_path : pystr :=
  path_join EXCEL_DOWNLOAD_FOLDER (base_name ++ lit "_" ++ unique_id ++ lit ".xlsx").
Definition word_path : pystr :=
  path_join WORD_DOWNLOAD_FOLDER (base_name ++ lit "_" ++ unique_id ++ lit ".docx").
Definition session_folder : pystr :=
  path_join IMAGE_DOWNLOAD_FOLDER (base_name ++ lit "_" ++ unique_id).
Definition zip_path : pystr :=
  path_join IMAGE_DOWNLOAD_FOLDER (base_name ++ lit "_" ++ unique_id ++ lit ".zip").

(** The world once the upload is stored and the identifier drawn. *)
Definition uploaded : World :=
  set_drawn S
    (set_files (insert pdf_path (File (Bytes (drop (cursor file) (payload file)))))
       (set_drawn S w)).

(** The same, with the session folder of the image endpoint made. *)
Definition session_ready : World := snd (os_makedirs_exist_ok session_folder uploaded).

(** The thread that will delete the stored upload. *)
Definition upload_deletion : Thread :=
  {| target := pdf_path; started := clock w; delay := default_delay |}.
End Request.

(** The image of page [page_index] (counted from 0): its name, its path
    in the session folder, and the archive a document of pages rendered
    as [pngs] must become. *)
Definition page_name (base_name : pystr) (page_index : nat) : pystr :=
  base_name ++ lit "_page_" ++ str_int (N.of_nat page_index + 1) ++ lit ".png".

Definition page_image_path (session_folder base_name : pystr) (page_index : nat) : pystr :=
  path_join session_folder (page_name base_name page_index).

Definition page_entries (base_name : pystr) (pngs : list (list byte)) : list ZipEntry :=
  imap (fun i png => zip_entry (page_name base_name i) (Bytes png)) pngs.

(** [w'] differs from [w] at most by files written at paths that satisfy
    [P]: what a conversion may do to the world. *)
Definition wrote_files (P : pystr -> Prop) (w w' : World) : Prop :=
  clock w' = clock w /\ threads w' = threads w /\
  urandom w' = urandom w /\ drawn w' = drawn w /\
  forall q, files w' !! q = files w !! q \/
            (P q /\ exists d, files w' !! q = Some (File d)).

(** A page on which [extract_table()] finds nothing: [None], or a table
    without rows, which is just as false to [if table:]. *)
Definition no_table (page : exn + option table) : Prop :=
  page = inr None \/ page = inr (Some []).

(** The answer to a failed conversion: the message of a [ValueError] as it
    is, any other message behind a fixed prefix. *)
Definition failure_message (e : exn) : pystr :=
  match e with
  | ValueError m => m
  | _ => lit "Failed to convert PDF: " ++ str_exn e
  end.

(** ** Further notions *)

(** The five storage folders, in the order in which the module makes
    them. *)
Definition storage_folders : list pystr :=
  [DOWNLOAD_FOLDER; PDF_DOWNLOAD_FOLDER; EXCEL_DOWNLOAD_FOLDER;
   WORD_DOWNLOAD_FOLDER; IMAGE_DOWNLOAD_FOLDER].

(** The [os.makedirs(..., exist_ok=True)] calls that run when the module is
    imported, in the order of the file. *)
Definition startup : M unit :=
  os_makedirs_exist_ok DOWNLOAD_FOLDER ;;;
  os_makedirs_exist_ok PDF_DOWNLOAD_FOLDER ;;;
  os_makedirs_exist_ok EXCEL_DOWNLOAD_FOLDER ;;;
  os_makedirs_exist_ok WORD_DOWNLOAD_FOLDER ;;;
  os_makedirs_exist_ok IMAGE_DOWNLOAD_FOLDER.

(** Lower case on ASCII, and a database whose lower-case mapping agrees
    with it there, as every version of the Unicode database does. *)
Definition ascii_lower_char (c : codepoint) : codepoint :=
  if (65 <=? c) && (c <=? 90) then c + 32 else c.

Definition ascii_lower_compatible (U : UnicodeData) : Prop :=
  forall c, c < 128 -> ucd_lower U c = [ascii_lower_char c].

(** No character other than the slash lower-cases to something with a
    slash in it. *)
Definition lower_makes_no_separator (U : UnicodeData) : Prop :=
  forall c, c <> sep -> Forall (fun d => d <> sep) (ucd_lower U c).

(** The tables that the page loop of [convert_pdf_tables_to_excel] keeps,
    each as its header and its rows: a page without a table, or with an
    empty one, gives none. *)
Definition found_tables (tables : list (option table)) : list (row * list row) :=
  flat_map (fun t => match t with
                     | Some (header :: rows) => [(header, rows)]
                     | _ => []
                     end) tables.

(** The sheet that holds the [i]-th kept table (counted from 0). *)
Definition sheet_of (i : nat) (df : DataFrame) : Sheet :=
  {| sheet_name := lit "Sheet" ++ str_int (N.of_nat i + 1); frame := df |}.

(** A response that sends a file names it by the sanitized last component
    of its path, in the one header it sets. *)
Definition names_its_file (U : UnicodeData) (r : Response) : Prop :=
  match r with
  | JSON_error _ => True
  | FileResponse path name headers =>
      name = ascii_filename U (basename path) /\
      headers = [(lit "Content-Disposition",
                  lit "attachment; filename=" ++ [34] ++ name ++ [34])] /\
      Forall (fun c => allowed c = true) name
  end.

(** The name that [download_video] settles on for a file that the fetcher
    reported as [name]. *)
Definition final_name (U : UnicodeData) (name : pystr) : pystr :=
  if endswith (str_lower U name) (lit ".mp4") then name
  else fst (splitext name) ++ lit ".mp4".

(** The extra options of the TikTok endpoint. *)
Definition tiktok_options : gmap pystr opt :=
  list_to_map [ (lit "retries", OInt 5); (lit "fragment_retries", OInt 5);
                (lit "skip_unavailable_fragments", OBool true) ].

(** The world in which the spreadsheet endpoint leaves the test double
    after the three-page statement. *)
Abbreviation statement_converted :=
  (snd (pdf_to_excel sample_U sample_C statement_file sample_w)).

(** The world in which the image endpoint leaves the test double after
    the report with a broken page. *)
Abbreviation report_given_up :=
  (snd (pdf_to_image sample_U sample_C broken_file sample_w)).

(** The thread that [delete_file_later(path, delay)] starts in world [w]. *)
Definition deletion (path : pystr) (delay : Z) (w : World) : Thread :=
  {| target := path; started := clock w; delay := delay |}.

(** The thread list without its [i]-th thread. *)
Definition without_thread (i : nat) (w : World) : World :=
  set_threads (fun ts => take i ts ++ drop (S i) ts) w.

(** * Properties *)

(** ** Text *)

Lemma startswith_app (p r : pystr) : startswith (p ++ r) p = true.
Proof.
  induction p as [|c p IH]; simpl; [reflexivity|].
  rewrite N.eqb_refl. exact IH.
Qed.

Lemma startswith_inv (s p : pystr) :
  startswith s p = true -> exists r, s = p ++ r.
Proof.
  revert s. induction p as [|b p IH]; intros s H; simpl in *.
  - exists s. reflexivity.
  - destruct s as [|a s]; [discriminate|].
    apply andb_true_iff in H as [Hab Hs]. apply N.eqb_eq in Hab. subst b.
    destruct (IH _ Hs) as [r ->]. exists r. reflexivity.
Qed.

Lemma endswith_app (a p : pystr) : endswith (a ++ p) p = true.
Proof. unfold endswith. rewrite rev_app_distr. apply startswith_app. Qed.

Lemma endswith_inv (s p : pystr) :
  endswith s p = true -> exists a, s = a ++ p.
Proof.
  unfold endswith. intros H. apply startswith_inv in H as [r Hr].
  exists (rev r). apply (f_equal (@rev N)) in Hr.
  rewrite rev_involutive, rev_app_distr, rev_involutive in Hr. exact Hr.
Qed.

Lemma startswith_head_neq (c d : codepoint) (s : pystr) :
  c <> d -> startswith (c :: s) [d] = false.
Proof. intros H. simpl. apply N.eqb_neq in H. rewrite H. reflexivity. Qed.

Lemma endswith_last_neq (s : pystr) (c d : codepoint) :
  c <> d -> endswith (s ++ [c]) [d] = false.
Proof.
  intros H. unfold endswith. rewrite rev_app_distr. simpl.
  apply N.eqb_neq in H. rewrite H. reflexivity.
Qed.

(** [rfind] finds the last occurrence. *)
Lemma rfind_from_app c a b i last :
  rfind_from c (a ++ b) i last = rfind_from c b (i + length a) (rfind_from c a i last).
Proof.
  revert i last. induction a as [|x a IH]; intros i last; simpl.
  - rewrite Nat.add_0_r. reflexivity.
  - rewrite IH. f_equal. lia.
Qed.

Lemma rfind_from_absent c s i last :
  Forall (fun x => x <> c) s -> rfind_from c s i last = last.
Proof.
  revert i last. induction s as [|x s IH]; intros i last H; simpl; [reflexivity|].
  inversion H as [|? ? Hx Hs]; subst.
  apply N.eqb_neq in Hx. rewrite Hx. apply IH, Hs.
Qed.

Lemma rfind_last c a n :
  Forall (fun x => x <> c) n -> rfind (a ++ c :: n) c = Z.of_nat (length a).
Proof.
  intros H. unfold rfind. rewrite rfind_from_app. simpl.
  rewrite N.eqb_refl. rewrite rfind_from_absent by exact H. reflexivity.
Qed.

Lemma rfind_absent c s : Forall (fun x => x <> c) s -> rfind s c = (-1)%Z.
Proof. apply rfind_from_absent. Qed.

Lemma basename_join (a n : pystr) :
  Forall (fun x => x <> sep) n -> basename (a ++ sep :: n) = n.
Proof.
  intros H. unfold basename, slice_from. rewrite rfind_last by exact H.
  replace (Z.to_nat (Z.of_nat (length a) + 1)) with (length (a ++ [sep])) 
    by (rewrite length_app; simpl; lia).
  change (a ++ sep :: n) with (a ++ [sep] ++ n). rewrite app_assoc.
  apply drop_app_length.
Qed.

(** ** The sanitizer *)

Lemma allowed_lt (c : codepoint) : allowed c = true -> c < 128.
Proof. unfold allowed. intros H. lia. Qed.

Lemma allowed_is_ascii (c : codepoint) : allowed c = true -> is_ascii c = true.
Proof. intros H. apply allowed_lt in H. unfold is_ascii. lia. Qed.

Lemma allowed_ne_sep (c : codepoint) : allowed c = true -> c <> sep.
Proof. unfold allowed, sep. intros H. lia. Qed.

Lemma re_sub_disallowed_allowed (s : pystr) :
  Forall (fun c => allowed c = true) (re_sub_disallowed s).
Proof.
  induction s as [|c s IH]; simpl; constructor; [|exact IH].
  destruct (allowed c) eqn:E; [exact E | reflexivity].
Qed.

Lemma re_sub_disallowed_id (s : pystr) :
  Forall (fun c => allowed c = true) s -> re_sub_disallowed s = s.
Proof.
  induction 1 as [|c s Hc _ IH]; simpl; [reflexivity|].
  rewrite Hc, IH. reflexivity.
Qed.

Lemma re_sub_disallowed_app (a b : pystr) :
  re_sub_disallowed (a ++ b) = re_sub_disallowed a ++ re_sub_disallowed b.
Proof. apply map_app. Qed.

Lemma encode_ascii_ignore_id (s : pystr) :
  Forall (fun c => is_ascii c = true) s -> encode_ascii_ignore s = s.
Proof.
  induction 1 as [|c s Hc _ IH]; simpl; [reflexivity|].
  rewrite Hc. f_equal. exact IH.
Qed.

Lemma ascii_filename_allowed (U : UnicodeData) (s : pystr) :
  Forall (fun c => allowed c = true) (ascii_filename U s).
Proof. apply re_sub_disallowed_allowed. Qed.

Section Sanitizer.
Variable U : UnicodeData.
Hypothesis HU : ascii_compatible U.

Lemma ascii_starter (c : codepoint) : is_ascii c = true -> ucd_combining U c = 0.
Proof. unfold is_ascii. intros H. apply HU. lia. Qed.

Lemma decompose_ascii (c : codepoint) : is_ascii c = true -> decompose U c = [c].
Proof.
  unfold is_ascii, decompose. intros H.
  replace (Hangul.is_syllable c) with false.
  - apply HU. lia.
  - unfold Hangul.is_syllable, Hangul.SBase. lia.
Qed.

(** Ordering the marks never touches the ASCII characters. *)
Lemma encode_bubble (c : codepoint) (racc : list codepoint) :
  is_ascii c = false ->
  encode_ascii_ignore (bubble U c racc) = encode_ascii_ignore racc.
Proof.
  intros Hc. induction racc as [|p rest IH]; simpl.
  - rewrite Hc. reflexivity.
  - destruct (_ || _); simpl.
    + rewrite Hc. reflexivity.
    + rewrite IH. reflexivity.
Qed.

Lemma encode_place (racc : list codepoint) (c : codepoint) :
  encode_ascii_ignore (place U racc c) =
  encode_ascii_ignore [c] ++ encode_ascii_ignore racc.
Proof.
  unfold place. destruct (ucd_combining U c =? 0) eqn:E.
  { simpl. destruct (is_ascii c); reflexivity. }
  destruct (is_ascii c) eqn:Hc.
  - apply ascii_starter in Hc. apply N.eqb_neq in E. contradiction.
  - rewrite encode_bubble by exact Hc. simpl. rewrite Hc. reflexivity.
Qed.

Lemma encode_fold_place (s racc : list codepoint) :
  encode_ascii_ignore (fold_left (place U) s racc) =
  rev (encode_ascii_ignore s) ++ encode_ascii_ignore racc.
Proof.
  revert racc. induction s as [|c s IH]; intros racc; simpl; [reflexivity|].
  rewrite IH, encode_place. simpl.
  destruct (is_ascii c); simpl; [|reflexivity].
  rewrite <- app_assoc. reflexivity.
Qed.

Lemma encode_canonical_order (s : pystr) :
  encode_ascii_ignore (canonical_order U s) = encode_ascii_ignore s.
Proof.
  unfold canonical_order, encode_ascii_ignore.
  rewrite List.filter_rev. fold (encode_ascii_ignore (fold_left (place U) s [])).
  rewrite encode_fold_place. simpl. rewrite app_nil_r. apply rev_involutive.
Qed.

(** The sanitizer works character by character. *)
Lemma ascii_filename_flat_map (s : pystr) :
  ascii_filename U s = flat_map (sanitized_char U) s.
Proof.
  unfold ascii_filename, normalize_NFKD. rewrite encode_canonical_order.
  induction s as [|c s IH]; simpl; [reflexivity|].
  unfold encode_ascii_ignore in *. rewrite List.filter_app, re_sub_disallowed_app.
  rewrite IH. reflexivity.
Qed.

Lemma sanitized_char_ascii (c : codepoint) :
  is_ascii c = true ->
  sanitized_char U c = [if allowed c then c else underscore].
Proof.
  intros Hc. unfold sanitized_char. rewrite decompose_ascii by exact Hc.
  simpl. rewrite Hc. reflexivity.
Qed.

Lemma ascii_filename_fixed (s : pystr) :
  Forall (fun c => allowed c = true) s -> ascii_filename U s = s.
Proof.
  intros Hs. rewrite ascii_filename_flat_map.
  induction Hs as [|c s Hc _ IH]; simpl; [reflexivity|].
  rewrite sanitized_char_ascii by (apply allowed_is_ascii, Hc).
  rewrite Hc, IH. reflexivity.
Qed.
End Sanitizer.

Lemma excerpt_ascii_compatible : ascii_compatible Excerpt.ucd.
Proof.
  intros c Hc. simpl. unfold Excerpt.decomposition, Excerpt.combining.
  repeat match goal with
         | |- context [c =? ?k] => replace (c =? k) with false by lia
         end.
  split; reflexivity.
Qed.

(** C4, as the spec words it, fails: a character outside ASCII is not
    replaced with ['_'].  NFKD splits ['é'] into ['e'] and a combining
    accent, the accent is dropped by the ASCII encoding, and the ['e']
    stays; the sanitized name holds no ['_'] at all. *)
Lemma ascii_filename_e_acute_is_e :
  ascii_filename Excerpt.ucd (lit "caf" ++ [0xE9] ++ lit ".pdf") = lit "cafe.pdf" /\
  ~ In underscore (ascii_filename Excerpt.ucd (lit "caf" ++ [0xE9] ++ lit ".pdf")).
Proof.
  split; [reflexivity|].
  vm_compute. intros H. repeat destruct H as [H|H]; try discriminate H. exact H.
Qed.

(** A character without any decomposition is dropped the same way. *)
Example ascii_filename_drops_cjk :
  ascii_filename Excerpt.ucd (lit "a" ++ [0x4E2D] ++ lit "b") = lit "ab".
Proof. reflexivity. Qed.

(** C4, amended: the output of [ascii_filename] holds only letters, digits,
    ['.'], ['_'] and ['-'].  It is built character by character: an ASCII
    character of the set is kept, an ASCII character outside the set
    becomes ['_'], and a character outside ASCII becomes the ASCII part of
    its compatibility decomposition, sanitized the same way, which is
    nothing when that decomposition has no ASCII character. *)
Theorem ascii_filename_charset (U : UnicodeData) (HU : ascii_compatible U) (s : pystr) :
  Forall (fun c => allowed c = true) (ascii_filename U s) /\
  ascii_filename U s = flat_map (sanitized_char U) s /\
  (forall c, is_ascii c = true ->
             sanitized_char U c = [if allowed c then c else underscore]) /\
  (forall c, Forall (fun d => is_ascii d = false) (decompose U c) ->
             sanitized_char U c = []).
Proof.
  split; [apply ascii_filename_allowed|].
  split; [apply ascii_filename_flat_map, HU|].
  split; [intros c; apply sanitized_char_ascii, HU|].
  intros c Hc. unfold sanitized_char.
  induction Hc as [|d l Hd _ IH]; simpl; [reflexivity|].
  rewrite Hd. exact IH.
Qed.

Lemma ascii_filename_charset_witness :
  ascii_compatible Excerpt.ucd /\
  ascii_filename Excerpt.ucd (lit "my caf" ++ [0xE9; 0x4E2D]) =
  flat_map (sanitized_char Excerpt.ucd) (lit "my caf" ++ [0xE9; 0x4E2D]).
Proof.
  split; [exact excerpt_ascii_compatible|].
  exact (proj1 (proj2 (ascii_filename_charset Excerpt.ucd excerpt_ascii_compatible
                         (lit "my caf" ++ [0xE9; 0x4E2D])))).
Defined.

(** C10: [ascii_filename] is idempotent, and a name that holds only
    characters of the allowed set passes through unchanged. *)
Theorem ascii_filename_idempotent (U : UnicodeData) (HU : ascii_compatible U) (s : pystr) :
  ascii_filename U (ascii_filename U s) = ascii_filename U s /\
  (Forall (fun c => allowed c = true) s -> ascii_filename U s = s).
Proof.
  split.
  - apply ascii_filename_fixed; [exact HU | apply ascii_filename_allowed].
  - apply ascii_filename_fixed, HU.
Qed.

Lemma ascii_filename_idempotent_witness :
  ascii_compatible Excerpt.ucd /\
  ascii_filename Excerpt.ucd (ascii_filename Excerpt.ucd (lit "r" ++ [0xE9] ++ lit "sum" ++ [0xE9] ++ lit " (1).pdf")) =
  ascii_filename Excerpt.ucd (lit "r" ++ [0xE9] ++ lit "sum" ++ [0xE9] ++ lit " (1).pdf").
Proof.
  split; [exact excerpt_ascii_compatible|].
  exact (proj1 (ascii_filename_idempotent Excerpt.ucd excerpt_ascii_compatible
                  (lit "r" ++ [0xE9] ++ lit "sum" ++ [0xE9] ++ lit " (1).pdf"))).
Defined.

Lemma safe_stem_allowed (U : UnicodeData) (filename : pystr) :
  Forall (fun c => allowed c = true) (safe_stem U filename).
Proof.
  unfold safe_stem. cbv zeta.
  pose proof (ascii_filename_allowed U (fst (splitext (basename filename)))) as H.
  destruct (ascii_filename U _); [repeat constructor | exact H].
Qed.

Lemma safe_stem_nonempty (U : UnicodeData) (filename : pystr) :
  safe_stem U filename <> [].
Proof.
  unfold safe_stem. cbv zeta. destruct (ascii_filename U _); discriminate.
Qed.

(** C5, as the spec words it, fails for [ascii_filename], the sanitizer
    of the download names: it has no fallback.  The empty name, and a name
    whose characters are all outside ASCII and have no decomposition, come
    back as the empty string. *)
Lemma ascii_filename_may_be_empty :
  ascii_filename Excerpt.ucd [] = [] /\ ascii_filename Excerpt.ucd [0x4E2D; 0x6587] = [].
Proof. split; reflexivity. Qed.

Lemma filter_nil_iff {A} (f : A -> bool) (l : list A) :
  List.filter f l = [] <-> Forall (fun x => f x = false) l.
Proof.
  induction l as [|x l IH]; simpl.
  - split; [constructor | reflexivity].
  - destruct (f x) eqn:E.
    + split; [discriminate|]. intros H. inversion H; congruence.
    + rewrite IH. split; [intros H; constructor; assumption|].
      intros H. inversion H; assumption.
Qed.

Lemma ascii_filename_empty_iff (U : UnicodeData) (s : pystr) :
  ascii_filename U s = [] <->
  Forall (fun c => is_ascii c = false) (normalize_NFKD U s).
Proof.
  unfold ascii_filename, re_sub_disallowed, encode_ascii_ignore. cbv zeta.
  rewrite <- filter_nil_iff.
  destruct (List.filter is_ascii (normalize_NFKD U s)) as [|c r]; cbn [map];
    split; intros H; try reflexivity; discriminate H.
Qed.

(** C5, amended: the fallback is [safe_stem]'s alone.  [safe_stem] is a
    total function that never returns the empty string: it returns the
    sanitized stem, and the placeholder ["file"] when sanitizing leaves
    nothing; its result holds only characters of the allowed set.
    [ascii_filename] is total as well but falls back on nothing: it
    returns the empty string exactly when the NFKD form of its input holds
    no ASCII character, as that of the empty string does. *)
Theorem only_safe_stem_falls_back (U : UnicodeData) (filename : pystr) :
  let sanitized := ascii_filename U (fst (splitext (basename filename))) in
  (safe_stem U filename <> [] /\
   (sanitized = [] -> safe_stem U filename = lit "file") /\
   (sanitized <> [] -> safe_stem U filename = sanitized) /\
   Forall (fun c => allowed c = true) (safe_stem U filename)) /\
  (ascii_filename U filename = [] <->
   Forall (fun c => is_ascii c = false) (normalize_NFKD U filename)) /\
  ascii_filename U (lit "") = lit "".
Proof.
  intros sanitized. split; [|split; [apply ascii_filename_empty_iff | reflexivity]].
  unfold safe_stem. cbv zeta. fold sanitized.
  assert (Hs : Forall (fun c => allowed c = true) sanitized)
    by apply ascii_filename_allowed.
  destruct sanitized as [|c r].
  - split; [discriminate|]. split; [reflexivity|]. split; [congruence|].
    repeat constructor.
  - split; [discriminate|]. split; [discriminate|]. split; [reflexivity|].
    exact Hs.
Qed.

Example safe_stem_examples :
  safe_stem Excerpt.ucd (lit "dir/r" ++ [0xE9] ++ lit "sum" ++ [0xE9] ++ lit ".final.PDF") = lit "resume.final" /\
  safe_stem Excerpt.ucd ([0x4E2D; 0x6587] ++ lit ".pdf") = lit "file" /\
  safe_stem Excerpt.ucd (lit "") = lit "file" /\
  safe_stem Excerpt.ucd (lit ".pdf") = lit ".pdf".
Proof. repeat split; reflexivity. Qed.

(** ** The world *)

Ltac run :=
  unfold bind, ret, raise, try, lift, gets, modify in *; cbv beta iota zeta in *.

Lemma set_files_same (w : World) (fs : gmap pystr Node) :
  fs = files w -> set_files (fun _ => fs) w = w.
Proof. intros ->. destruct w. reflexivity. Qed.

Lemma set_files_insert_same (w : World) (p : pystr) (node : Node) :
  files w !! p = Some node -> set_files (insert p node) w = w.
Proof.
  intros H. destruct w as [fs ? ? ? ?]. unfold set_files. simpl in *.
  rewrite insert_id by exact H. reflexivity.
Qed.

Lemma set_files_insert_twice (w : World) (p : pystr) (a b : Node) :
  set_files (insert p b) (set_files (insert p a) w) = set_files (insert p b) w.
Proof. unfold set_files. simpl. rewrite insert_insert_eq. reflexivity. Qed.

Lemma take_nil_inv {A} (n : nat) (l : list A) :
  (0 < n)%nat -> take n l = [] -> l = [].
Proof. destruct n, l; simpl; intros; try lia; congruence. Qed.

Lemma drop_length_take {A} (n : nat) (l : list A) :
  drop (length (take n l)) l = drop n l.
Proof.
  rewrite length_take. destruct (Nat.le_gt_cases n (length l)) as [Hle|Hgt].
  - rewrite Nat.min_l by exact Hle. reflexivity.
  - rewrite Nat.min_r by lia. rewrite !drop_ge by lia. reflexivity.
Qed.

Lemma buffer_write_appends (p : pystr) (chunk b0 : list byte) (w : World) :
  files w !! p = Some (File (Bytes b0)) ->
  buffer_write p chunk w = (inr tt, set_files (insert p (File (Bytes (b0 ++ chunk)))) w).
Proof.
  intros H. unfold buffer_write, modify. f_equal.
  unfold set_files. simpl. f_equal.
  apply map_eq. intros q. destruct (decide (p = q)) as [<-|Hne].
  - rewrite lookup_alter_eq, lookup_insert_eq, H. reflexivity.
  - rewrite lookup_alter_ne, lookup_insert_ne by exact Hne. reflexivity.
Qed.

Lemma copy_chunks_spec (size : nat) (f : UploadFile) (path : pystr) (w : World)
    (b0 : list byte) :
  (0 < size)%nat ->
  files w !! path = Some (File (Bytes b0)) ->
  copy_chunks size f path w =
    (inr {| filename := filename f; payload := payload f;
            cursor := (cursor f + length (drop (cursor f) (payload f)))%nat |},
     set_files (insert path (File (Bytes (b0 ++ drop (cursor f) (payload f))))) w).
Proof.
  intros Hsize. revert b0.
  funelim (copy_chunks size f path w).
  all: intros b0 Hb0.
  - clear H Heqcall. simpl in e.
    pose proof (take_nil_inv _ _ Hsize e) as Hrest.
    unfold upload_read. simpl. rewrite e, Hrest. simpl.
    rewrite app_nil_r, set_files_insert_same by exact Hb0. reflexivity.
  - clear H1 Heqcall.
    rewrite (buffer_write_appends _ _ b0) by exact Hb0.
    rewrite (H0 (inr tt) _ tt Hsize (b0 ++ c :: chunk))
      by (simpl; apply lookup_insert_eq).
    rewrite set_files_insert_twice. unfold upload_read in *. simpl in *.
    set (rest := drop (cursor upload_file) (payload upload_file)) in *.
    assert (Hrest : drop (cursor upload_file + length (take size rest))
                      (payload upload_file) = drop size rest).
    { rewrite <- drop_drop. fold rest. apply drop_length_take. }
    rewrite Hrest, <- H, <- app_assoc, take_drop.
    rewrite <- Nat.add_assoc, <- length_app, take_drop. reflexivity.
Qed.

(** ** Identifiers *)

Lemma lor_below (a b n : N) : a < 2 ^ n -> b < 2 ^ n -> N.lor a b < 2 ^ n.
Proof.
  intros Ha Hb.
  destruct (N.eq_dec (N.lor a b) 0) as [E|E].
  { rewrite E. apply N.neq_0_lt_0, N.pow_nonzero. discriminate. }
  assert (Hn : 0 < n).
  { apply N.neq_0_lt_0. intros ->. simpl in *.
    apply E. assert (a = 0) by lia. assert (b = 0) by lia. subst. reflexivity. }
  assert (L : forall x, x < 2 ^ n -> N.log2 x < n).
  { intros x Hx. destruct (N.eq_dec x 0) as [->|Hx0]; [exact Hn|].
    apply N.log2_lt_pow2; lia. }
  apply N.log2_lt_pow2; [lia|].
  rewrite N.log2_lor. apply N.max_lub_lt; apply L; assumption.
Qed.

Lemma uuid4_int_below (random : N) : uuid4_int random < 2 ^ 128.
Proof.
  unfold uuid4_int.
  assert (H0 : random mod 2 ^ 128 < 2 ^ 128) by (apply N.mod_lt; discriminate).
  set (x0 := random mod 2 ^ 128) in *.
  assert (H1 : N.ldiff x0 (N.shiftl 0xc000 48) < 2 ^ 128).
  { eapply N.le_lt_trans; [apply N.ldiff_le_l | exact H0]. }
  set (x1 := N.ldiff x0 _) in *.
  assert (H2 : N.lor x1 (N.shiftl 0x8000 48) < 2 ^ 128).
  { apply lor_below; [exact H1 | reflexivity]. }
  set (x2 := N.lor x1 _) in *.
  assert (H3 : N.ldiff x2 (N.shiftl 0xf000 64) < 2 ^ 128).
  { eapply N.le_lt_trans; [apply N.ldiff_le_l | exact H2]. }
  apply lor_below; [exact H3 | reflexivity].
Qed.

Lemma hexdigit_allowed (d : N) : d < 16 -> allowed (hexdigit d) = true.
Proof. unfold allowed, hexdigit. intros H. destruct (d <? 10) eqn:E; lia. Qed.

Lemma hexdigit_inj (d e : N) : d < 16 -> e < 16 -> hexdigit d = hexdigit e -> d = e.
Proof.
  unfold hexdigit. intros Hd He.
  destruct (d <? 10) eqn:E1, (e <? 10) eqn:E2; lia.
Qed.

Lemma hex_digits_length (n : nat) (u : N) : length (hex_digits n u) = n.
Proof.
  revert u. induction n as [|n IH]; intros u; simpl; [reflexivity|].
  rewrite length_app, IH. simpl. lia.
Qed.

Lemma hex_digits_allowed (n : nat) (u : N) :
  Forall (fun c => allowed c = true) (hex_digits n u).
Proof.
  revert u. induction n as [|n IH]; intros u; simpl; [constructor|].
  apply Forall_app. split; [apply IH|].
  constructor; [|constructor].
  apply hexdigit_allowed, N.mod_lt. discriminate.
Qed.

Lemma hex_digits_inj (n : nat) (u v : N) :
  hex_digits n u = hex_digits n v -> u mod 16 ^ N.of_nat n = v mod 16 ^ N.of_nat n.
Proof.
  revert u v. induction n as [|n IH]; intros u v H.
  - simpl. rewrite !N.mod_1_r. reflexivity.
  - simpl in H. apply app_inj_tail in H as [Hhi Hlo].
    apply IH in Hhi.
    apply hexdigit_inj in Hlo; try (apply N.mod_lt; discriminate).
    rewrite Nat2N.inj_succ, N.pow_succ_r'.
    rewrite !N.Div0.mod_mul_r. congruence.
Qed.

Lemma UUID_hex_inj (u v : N) :
  u < 2 ^ 128 -> v < 2 ^ 128 -> UUID_hex u = UUID_hex v -> u = v.
Proof.
  intros Hu Hv H. apply hex_digits_inj in H.
  change (16 ^ N.of_nat 32) with (2 ^ 128) in H.
  rewrite !N.mod_small in H by assumption. exact H.
Qed.

(** ** Paths *)

Lemma path_join_plain (a b : pystr) :
  a <> [] -> endswith a [sep] = false -> startswith b [sep] = false ->
  path_join a b = a ++ sep :: b.
Proof.
  intros Ha He Hb. unfold path_join. rewrite Hb, He.
  destruct a; [contradiction | reflexivity].
Qed.

Lemma path_join_inj (root a b : pystr) :
  startswith a [sep] = false -> startswith b [sep] = false ->
  path_join root a = path_join root b -> a = b.
Proof.
  intros Ha Hb. unfold path_join. rewrite Ha, Hb.
  destruct (_ || _); intros H; apply app_inv_head in H; congruence.
Qed.

Lemma not_startswith_sep (h e : pystr) :
  Forall (fun c => allowed c = true) h -> h <> [] ->
  startswith (h ++ e) [sep] = false.
Proof.
  intros Hh Hne. destruct h as [|c h]; [contradiction|].
  inversion Hh as [|? ? Hc _]; subst.
  apply startswith_head_neq, allowed_ne_sep, Hc.
Qed.

Lemma UUID_hex_nonempty (u : N) : UUID_hex u <> [].
Proof.
  intros H. apply (f_equal (@length N)) in H.
  unfold UUID_hex in H. rewrite hex_digits_length in H. discriminate.
Qed.

Lemma not_startswith_sep_hex (u : N) (e : pystr) :
  startswith (UUID_hex u ++ e) [sep] = false.
Proof.
  apply not_startswith_sep; [apply hex_digits_allowed | apply UUID_hex_nonempty].
Qed.

(** ** Persisting an upload *)

Lemma CHUNK_SIZE_pos : (0 < CHUNK_SIZE)%nat.
Proof. unfold CHUNK_SIZE. lia. Qed.

Lemma write_file_ok (p : pystr) (d : FileData) (w : World) :
  files w !! p <> Some Dir ->
  write_file p d w = (inr tt, set_files (insert p (File d)) w).
Proof.
  intros H. unfold write_file. run.
  destruct (files w !! p) as [[|]|]; try reflexivity. contradiction.
Qed.

Lemma save_upload_file_spec (U : UnicodeData) (f : UploadFile) (dest : pystr) (w : World) :
  let ext := snd (splitext (filename f)) in
  let file_path :=
    path_join dest (UUID_hex (uuid4_int (urandom w (drawn w))) ++
                    match ext with [] => [] | _ => str_lower U ext end) in
  files w !! file_path <> Some Dir ->
  save_upload_file U f dest w =
    (inr (file_path, {| filename := filename f; payload := payload f; cursor := 0 |}),
     set_files (insert file_path (File (Bytes (drop (cursor f) (payload f)))))
       (set_drawn S w)).
Proof.
  intros ext file_path Hdir. unfold save_upload_file, uuid4, open_wb.
  unfold bind at 1. fold ext. fold file_path.
  unfold bind at 1. rewrite write_file_ok by exact Hdir.
  unfold bind at 1.
  rewrite (copy_chunks_spec _ _ _ _ []) by (apply CHUNK_SIZE_pos || apply lookup_insert_eq).
  unfold ret, upload_seek. simpl. rewrite set_files_insert_twice. reflexivity.
Qed.

(** *** The loop against the chunks of the spec *)

Lemma fixed_size_chunks_done (size : nat) (rest : list byte) :
  take size rest = [] -> fixed_size_chunks size rest = [].
Proof.
  intros H. funelim (fixed_size_chunks size rest); [reflexivity|].
  congruence.
Qed.

Lemma fixed_size_chunks_more (size : nat) (rest : list byte) (c : byte) (chunk : list byte) :
  take size rest = c :: chunk ->
  fixed_size_chunks size rest = (c :: chunk) :: fixed_size_chunks size (drop size rest).
Proof.
  intros H. funelim (fixed_size_chunks size rest); [congruence|].
  congruence.
Qed.

Lemma fixed_size_chunks_concat (size : nat) (rest : list byte) :
  (0 < size)%nat -> concat (fixed_size_chunks size rest) = rest.
Proof.
  intros Hsize. funelim (fixed_size_chunks size rest).
  - symmetry. eapply take_nil_inv; eassumption.
  - rewrite concat_cons, H0 by exact Hsize. rewrite <- H. apply take_drop.
Qed.

(** Every chunk holds at least one byte and at most [size]; every chunk
    but the last holds exactly [size]. *)
Lemma fixed_size_chunks_sizes (size : nat) (rest : list byte) (i : nat)
    (piece : list byte) :
  fixed_size_chunks size rest !! i = Some piece ->
  (1 <= length piece <= size)%nat /\
  (S i < length (fixed_size_chunks size rest) -> length piece = size)%nat.
Proof.
  revert i piece. funelim (fixed_size_chunks size rest); intros i piece Hi.
  - discriminate Hi.
  - destruct i as [|i]; simpl in Hi.
    + injection Hi as <-. rewrite <- H. rewrite length_take. split.
      * assert (L : length (take size rest) = S (length chunk)) by (rewrite H; reflexivity).
        rewrite length_take in L. lia.
      * simpl. intros Hmore.
        destruct (Nat.le_gt_cases size (length rest)) as [Hle|Hgt]; [lia|].
        rewrite drop_ge in Hmore by lia.
        rewrite fixed_size_chunks_done in Hmore by (destruct size; reflexivity).
        simpl in Hmore. lia.
    + destruct (H0 _ _ Hi) as [Hc Hfull]. split; [exact Hc|].
      simpl. intros Hmore. apply Hfull. lia.
Qed.

Lemma buffer_write_run (p : pystr) (chunk : list byte) (w : World) :
  buffer_write p chunk w = (inr tt, snd (buffer_write p chunk w)).
Proof. reflexivity. Qed.

Lemma upload_read_rest (f : UploadFile) (size : nat) :
  drop (cursor (snd (upload_read f size))) (payload (snd (upload_read f size))) =
  drop size (drop (cursor f) (payload f)).
Proof.
  unfold upload_read. cbn [snd cursor payload].
  rewrite <- drop_drop. apply drop_length_take.
Qed.

(** The loop writes the chunks of the spec, in order, and nothing else. *)
Lemma copy_chunks_writes (size : nat) (f : UploadFile) (path : pystr) (w : World) :
  copy_chunks size f path w =
    (inr {| filename := filename f; payload := payload f;
            cursor := (cursor f + length (concat (fixed_size_chunks size
                                                    (drop (cursor f) (payload f)))))%nat |},
     fold_left (fun w chunk => snd (buffer_write path chunk w))
       (fixed_size_chunks size (drop (cursor f) (payload f))) w).
Proof.
  funelim (copy_chunks size f path w).
  - clear H Heqcall. cbn [fst upload_read] in e.
    rewrite fixed_size_chunks_done by exact e.
    unfold upload_read. cbn [snd fold_left concat length]. rewrite e. reflexivity.
  - clear H1 Heqcall. cbn [fst upload_read] in H.
    rewrite buffer_write_run. cbv beta iota.
    rewrite (H0 (inr tt) _ tt), upload_read_rest.
    rewrite (fixed_size_chunks_more _ _ _ _ H).
    cbn [fold_left]. rewrite concat_cons, length_app.
    unfold upload_read. cbn [snd filename payload cursor]. rewrite H.
    rewrite Nat.add_assoc. reflexivity.
Qed.

(** The loop on a small chunk size: no byte, less than a chunk, exactly
    one chunk, several chunks. *)
Example copy_chunks_small :
  let disk := set_files (insert (lit "f") (File (Bytes []))) Sample.world in
  let run bytes :=
    let r := copy_chunks 4 (Sample.upload "u" bytes) (lit "f") disk in
    (fst r, files (snd r) !! lit "f") in
  run [] = (inr {| filename := lit "u"; payload := []; cursor := 0 |},
            Some (File (Bytes []))) /\
  run [x01; x02] =
    (inr {| filename := lit "u"; payload := [x01; x02]; cursor := 2 |},
     Some (File (Bytes [x01; x02]))) /\
  run [x01; x02; x03; x04] =
    (inr {| filename := lit "u"; payload := [x01; x02; x03; x04]; cursor := 4 |},
     Some (File (Bytes [x01; x02; x03; x04]))) /\
  run [x01; x02; x03; x04; x05; x06; x07; x08; x09] =
    (inr {| filename := lit "u";
            payload := [x01; x02; x03; x04; x05; x06; x07; x08; x09]; cursor := 9 |},
     Some (File (Bytes [x01; x02; x03; x04; x05; x06; x07; x08; x09]))).
Proof. repeat split; vm_compute; reflexivity. Qed.

Lemma save_upload_file_writes (U : UnicodeData) (f : UploadFile) (dest : pystr) (w : World) :
  let file_path := upload_path U f dest w in
  files w !! file_path <> Some Dir ->
  snd (save_upload_file U f dest w) =
    fold_left (fun w chunk => snd (buffer_write file_path chunk w))
      (fixed_size_chunks CHUNK_SIZE (drop (cursor f) (payload f)))
      (snd (open_wb file_path (snd (uuid4 w)))).
Proof.
  intros file_path Hdir. unfold save_upload_file, uuid4, open_wb.
  unfold bind at 1. cbv zeta. fold (upload_path U f dest w). fold file_path.
  unfold bind at 1. cbn [snd]. rewrite write_file_ok by exact Hdir.
  unfold bind at 1. rewrite copy_chunks_writes. reflexivity.
Qed.

(** C3: [save_upload_file] reads the upload in chunks of [CHUNK_SIZE] bytes
    (1 MiB) until a read comes back empty and appends each chunk to the
    destination, in order: what it does to the world is to write, one
    after the other, the fixed-size chunks of the payload (each of 1 MiB
    but the last, none empty).  For a payload of any size the file it
    leaves is the payload, byte for byte, and the upload's cursor is back
    at 0. *)
Theorem save_upload_file_copies (U : UnicodeData) (upload_file : UploadFile)
    (destination_folder : pystr) (w : World) :
  let file_path := upload_path U upload_file destination_folder w in
  let r := save_upload_file U upload_file destination_folder w in
  let chunks := fixed_size_chunks CHUNK_SIZE (payload upload_file) in
  cursor upload_file = 0%nat ->
  files w !! file_path <> Some Dir ->
  N.of_nat CHUNK_SIZE = 1048576 /\
  snd r = fold_left (fun w chunk => snd (buffer_write file_path chunk w)) chunks
            (snd (open_wb file_path (snd (uuid4 w)))) /\
  concat chunks = payload upload_file /\
  (forall i piece, chunks !! i = Some piece ->
     (1 <= length piece <= CHUNK_SIZE)%nat /\
     (S i < length chunks -> length piece = CHUNK_SIZE)%nat) /\
  fst r = inr (file_path, {| filename := filename upload_file;
                             payload := payload upload_file; cursor := 0 |}) /\
  files (snd r) !! file_path = Some (File (Bytes (payload upload_file))) /\
  (forall q, q <> file_path -> files (snd r) !! q = files w !! q).
Proof.
  intros file_path r chunks Hcur Hdir. subst r chunks.
  split; [unfold CHUNK_SIZE; lia|].
  split.
  { rewrite (save_upload_file_writes U upload_file destination_folder w Hdir).
    rewrite Hcur, drop_0. reflexivity. }
  split; [apply fixed_size_chunks_concat, CHUNK_SIZE_pos|].
  split; [intros i piece; apply fixed_size_chunks_sizes|].
  unfold upload_path in file_path.
  rewrite save_upload_file_spec by exact Hdir. fold file_path.
  cbn [fst snd files set_files set_drawn]. rewrite Hcur, drop_0.
  split; [reflexivity|].
  split; [apply lookup_insert_eq|].
  intros q Hq. apply lookup_insert_ne. congruence.
Qed.

Lemma save_upload_file_copies_witness :
  let upload_file := Sample.upload "scan.pdf" [x25; x50; x44; x46] in
  let file_path := upload_path Excerpt.ucd upload_file PDF_DOWNLOAD_FOLDER Sample.world in
  cursor upload_file = 0%nat /\
  files Sample.world !! file_path <> Some Dir /\
  files (snd (save_upload_file Excerpt.ucd upload_file PDF_DOWNLOAD_FOLDER Sample.world))
    !! file_path = Some (File (Bytes [x25; x50; x44; x46])).
Proof.
  intros upload_file file_path.
  assert (H1 : cursor upload_file = 0%nat) by reflexivity.
  assert (H2 : files Sample.world !! file_path <> Some Dir)
    by (unfold Sample.world, files; rewrite lookup_empty; discriminate).
  split; [exact H1|]. split; [exact H2|].
  exact (proj1 (proj2 (proj2 (proj2 (proj2 (proj2
    (save_upload_file_copies Excerpt.ucd upload_file PDF_DOWNLOAD_FOLDER
       Sample.world H1 H2))))))).
Defined.

(** The chunks themselves, on a small size. *)
Example fixed_size_chunks_small :
  fixed_size_chunks 4 [] = [] /\
  fixed_size_chunks 4 [x01; x02] = [[x01; x02]] /\
  fixed_size_chunks 4 [x01; x02; x03; x04] = [[x01; x02; x03; x04]] /\
  fixed_size_chunks 4 [x01; x02; x03; x04; x05; x06; x07; x08; x09] =
    [[x01; x02; x03; x04]; [x05; x06; x07; x08]; [x09]].
Proof. repeat split; reflexivity. Qed.

(** C6, as the spec words it, fails: the extension is not appended
    unchanged.  An upload named [scan.PDF] is stored under a name that
    ends in [.pdf]. *)
Lemma save_upload_file_lowers_extension :
  let r := save_upload_file Excerpt.ucd (Sample.upload "scan.PDF" [x25])
             PDF_DOWNLOAD_FOLDER Sample.world in
  snd (splitext (lit "scan.PDF")) = lit ".PDF" /\
  fst r = inr (lit "pdf_uploads/0123456789ab4def8123456789abcdef.pdf",
               Sample.upload "scan.PDF" [x25]) /\
  endswith (lit "pdf_uploads/0123456789ab4def8123456789abcdef.pdf") (lit ".PDF") = false.
Proof. repeat split; vm_compute; reflexivity. Qed.

Lemma distinct_identifiers_distinct_paths (root e1 e2 : pystr) (u1 u2 : N) :
  u1 < 2 ^ 128 -> u2 < 2 ^ 128 -> u1 <> u2 ->
  path_join root (UUID_hex u1 ++ e1) <> path_join root (UUID_hex u2 ++ e2).
Proof.
  intros H1 H2 Hne Heq.
  apply path_join_inj in Heq; try apply not_startswith_sep_hex.
  apply app_inj_1 in Heq as [Heq _].
  - apply Hne, UUID_hex_inj; assumption.
  - unfold UUID_hex. rewrite !hex_digits_length. reflexivity.
Qed.

(** C6, amended: for an upload whose filename carries an extension,
    [save_upload_file] names the destination by the 32 hex digits of a
    version-4 UUID (a 128-bit number) followed by the extension in lower
    case, under the given folder; two names built from distinct
    identifiers never collide under the same folder, whatever follows the
    digits. *)
Theorem save_upload_file_unique_name (U : UnicodeData) (upload_file : UploadFile)
    (destination_folder : pystr) (w : World) :
  let ext := snd (splitext (filename upload_file)) in
  let u := uuid4_int (urandom w (drawn w)) in
  let file_path := path_join destination_folder (UUID_hex u ++ str_lower U ext) in
  ext <> [] ->
  files w !! file_path <> Some Dir ->
  (u < 2 ^ 128 /\ length (UUID_hex u) = 32%nat) /\
  (exists upload_file',
      fst (save_upload_file U upload_file destination_folder w) =
      inr (file_path, upload_file')) /\
  (forall u1 u2 e1 e2, u1 < 2 ^ 128 -> u2 < 2 ^ 128 -> u1 <> u2 ->
      path_join destination_folder (UUID_hex u1 ++ e1) <>
      path_join destination_folder (UUID_hex u2 ++ e2)).
Proof.
  intros ext u file_path Hext Hdir.
  split; [split; [apply uuid4_int_below | apply hex_digits_length]|].
  split.
  - eexists. rewrite save_upload_file_spec.
    + fold ext. destruct ext; [contradiction|]. reflexivity.
    + fold ext. destruct ext; [contradiction|]. exact Hdir.
  - intros u1 u2 e1 e2. apply distinct_identifiers_distinct_paths.
Qed.

Lemma save_upload_file_unique_name_witness :
  let upload_file := Sample.upload "Scan.Pdf" [x25; x50] in
  let u := uuid4_int (urandom Sample.world (drawn Sample.world)) in
  snd (splitext (filename upload_file)) <> [] /\
  files Sample.world !! path_join PDF_DOWNLOAD_FOLDER (UUID_hex u ++ lit ".pdf")
    <> Some Dir /\
  exists upload_file',
    fst (save_upload_file Excerpt.ucd upload_file PDF_DOWNLOAD_FOLDER Sample.world) =
    inr (path_join PDF_DOWNLOAD_FOLDER (UUID_hex u ++ lit ".pdf"), upload_file').
Proof.
  intros upload_file u.
  assert (H1 : snd (splitext (filename upload_file)) <> []) by (vm_compute; discriminate).
  assert (H2 : files Sample.world !! path_join PDF_DOWNLOAD_FOLDER
                 (UUID_hex u ++ str_lower Excerpt.ucd (snd (splitext (filename upload_file))))
               <> Some Dir)
    by (unfold Sample.world, files; rewrite lookup_empty; discriminate).
  split; [exact H1|]. split; [exact H2|].
  exact (proj1 (proj2
    (save_upload_file_unique_name Excerpt.ucd upload_file PDF_DOWNLOAD_FOLDER
       Sample.world H1 H2))).
Defined.

(** ** Deferred deletion *)

Lemma delete_after_sleep_gone (p : pystr) (w : World) :
  files w !! p = None -> delete_after_sleep p w = (inr tt, w).
Proof. intros H. unfold delete_after_sleep, os_path_exists. run. rewrite H. reflexivity. Qed.

Lemma delete_after_sleep_file (p : pystr) (d : FileData) (w : World) :
  files w !! p = Some (File d) ->
  delete_after_sleep p w = (inr tt, set_files (delete p) w).
Proof.
  intros H. unfold delete_after_sleep, os_path_exists, os_remove. run.
  rewrite H. run. rewrite H. reflexivity.
Qed.

(** C2: [delete_file_later] only registers the thread and returns.  When
    the thread's sleep is over and the path is gone, whoever removed it,
    the thread ends without an exception, leaves every file as it is, and
    is not started again. *)
Theorem deferred_deletion_of_missing_path (file_path : pystr) (delay : Z)
    (w w' : World) (i : nat) :
  let t := {| target := file_path; started := clock w; delay := delay |} in
  threads w' !! i = Some t ->
  (0 <= delay)%Z ->
  (clock w + delay <= clock w')%Z ->
  files w' !! file_path = None ->
  delete_file_later file_path delay w = (inr tt, set_threads (fun ts => ts ++ [t]) w) /\
  fire i w' = Some (inr tt, set_threads (fun ts => take i ts ++ drop (S i) ts) w') /\
  step w' (set_threads (fun ts => take i ts ++ drop (S i) ts) w').
Proof.
  intros t Ht Hdelay Hwake Hgone.
  assert (Hfire : fire i w' =
            Some (inr tt, set_threads (fun ts => take i ts ++ drop (S i) ts) w')).
  { unfold fire, time_sleep. rewrite Ht. subst t. simpl.
    replace (delay <? 0)%Z with false by lia.
    replace (clock w + delay <=? clock w')%Z with true by lia.
    rewrite delete_after_sleep_gone by exact Hgone. reflexivity. }
  split; [reflexivity|]. split; [exact Hfire|].
  eapply step_fire, Hfire.
Qed.

(** Schedule the deletion of a file that exists, let somebody remove the
    file, let the delay pass, then let the thread run. *)
Lemma deferred_deletion_of_missing_path_witness :
  let file_path := lit "pdf_uploads/a.pdf" in
  let w := set_files (insert file_path (File (Bytes [x25]))) Sample.world in
  let scheduled := snd (delete_file_later file_path default_delay w) in
  let w' := set_clock (fun t => (t + 300)%Z) (set_files (delete file_path) scheduled) in
  threads w' !! 0%nat =
    Some {| target := file_path; started := clock w; delay := default_delay |} /\
  (0 <= default_delay)%Z /\
  (clock w + default_delay <= clock w')%Z /\
  files w' !! file_path = None /\
  fire 0 w' = Some (inr tt, set_threads (fun ts => take 0 ts ++ drop 1 ts) w').
Proof.
  intros file_path w scheduled w'.
  assert (H1 : threads w' !! 0%nat =
               Some {| target := file_path; started := clock w; delay := default_delay |})
    by reflexivity.
  assert (H0 : (0 <= default_delay)%Z) by (vm_compute; discriminate).
  assert (H2 : (clock w + default_delay <= clock w')%Z) by (vm_compute; discriminate).
  assert (H3 : files w' !! file_path = None) by apply lookup_delete_eq.
  split; [exact H1|]. split; [exact H0|]. split; [exact H2|]. split; [exact H3|].
  exact (proj1 (proj2
    (deferred_deletion_of_missing_path file_path default_delay w w' 0 H1 H0 H2 H3))).
Defined.

(** The same thread, had nobody removed the file, deletes it. *)
Example deferred_deletion_of_present_path :
  let file_path := lit "pdf_uploads/a.pdf" in
  let w := set_files (insert file_path (File (Bytes [x25]))) Sample.world in
  let scheduled := snd (delete_file_later file_path default_delay w) in
  let w' := set_clock (fun t => (t + 300)%Z) scheduled in
  fire 0 scheduled = None /\
  exists w'', fire 0 w' = Some (inr tt, w'') /\ files w'' !! file_path = None.
Proof.
  split; [reflexivity|]. eexists. split; [reflexivity|]. apply lookup_delete_eq.
Qed.

(** A negative delay makes [time.sleep] raise in the thread, which then
    never looks at the path. *)
Example deferred_deletion_negative_delay :
  let file_path := lit "pdf_uploads/a.pdf" in
  let w := set_files (insert file_path (File (Bytes [x25]))) Sample.world in
  let scheduled := snd (delete_file_later file_path (-1) w) in
  exists w', fire 0 scheduled =
               Some (inl (ValueError (lit "sleep length must be non-negative")), w') /\
             files w' !! file_path = Some (File (Bytes [x25])).
Proof. eexists. split; [reflexivity|]. apply lookup_insert_eq. Qed.

(** ** Lower case *)

(** Lower-casing works its way through the text from left to right. *)
Lemma do_lower_app (U : UnicodeData) (before_rev : list codepoint) (s t : pystr) :
  exists x, do_lower U before_rev (s ++ t) = x ++ do_lower U (rev s ++ before_rev) t.
Proof.
  revert before_rev. induction s as [|c s IH]; intros before_rev.
  - exists []. reflexivity.
  - destruct (IH (c :: before_rev)) as [x Hx].
    exists ((if c =? 0x3A3
             then [if final_sigma U before_rev (s ++ t) then 0x3C2 else 0x3C3]
             else ucd_lower U c) ++ x).
    simpl. rewrite <- !app_assoc. f_equal. exact Hx.
Qed.

Lemma do_lower_ascii (U : UnicodeData) (before_rev t : list codepoint) :
  ascii_lower_compatible U ->
  Forall (fun c => is_ascii c = true) t ->
  do_lower U before_rev t = map ascii_lower_char t.
Proof.
  intros HU Ht. revert before_rev.
  induction Ht as [|c r Hc _ IH]; intros before_rev; simpl; [reflexivity|].
  unfold is_ascii in Hc. replace (c =? 0x3A3) with false by lia.
  rewrite HU by lia. rewrite IH. reflexivity.
Qed.

Lemma startswith_same_length (a b p : pystr) :
  length a = length p -> startswith (a ++ b) p = true <-> a = p.
Proof.
  revert a. induction p as [|y p IH]; intros [|x a] Hlen; simpl in *; try discriminate.
  - split; reflexivity.
  - injection Hlen as Hlen. rewrite andb_true_iff, N.eqb_eq, (IH a Hlen).
    split; [intros [-> ->]; reflexivity | intros [= -> ->]; split; reflexivity].
Qed.

Lemma endswith_same_length (x y p : pystr) :
  length y = length p -> endswith (x ++ y) p = true <-> y = p.
Proof.
  intros Hlen. unfold endswith. rewrite rev_app_distr.
  rewrite startswith_same_length by (rewrite !length_rev; exact Hlen).
  split; [intros H; apply (f_equal (@rev N)) in H; rewrite !rev_involutive in H; exact H
         | intros ->; reflexivity].
Qed.

Lemma excerpt_ascii_lower_compatible : ascii_lower_compatible Excerpt.ucd.
Proof.
  intros c Hc. simpl. unfold Excerpt.lower, ascii_lower_char.
  destruct ((65 <=? c) && (c <=? 90)); [reflexivity|].
  repeat match goal with
         | |- context [c =? ?k] => replace (c =? k) with false by lia
         end.
  reflexivity.
Qed.

(** A name that ends with [.mp4] still does in lower case. *)
Lemma str_lower_keeps_mp4 (U : UnicodeData) (x : pystr) :
  ascii_lower_compatible U ->
  endswith (str_lower U (x ++ lit ".mp4")) (lit ".mp4") = true.
Proof.
  intros HU. unfold str_lower.
  destruct (do_lower_app U [] x (lit ".mp4")) as [y ->].
  rewrite (do_lower_ascii U _ (lit ".mp4") HU) by (repeat constructor).
  change (map ascii_lower_char (lit ".mp4")) with (lit ".mp4").
  apply endswith_app.
Qed.

(** ** Video download *)

Lemma download_video_raises (U : UnicodeData) (C : Collaborators)
    (url output_template : pystr) (custom_options : option (gmap pystr opt))
    (w : World) (fs : gmap pystr Node) (e : exn) :
  YoutubeDL C (ydl_opts output_template custom_options) url (files w) = (fs, inl e) ->
  download_video U C url output_template custom_options w =
    (inl e, set_files (fun _ => fs) w).
Proof. intros H. unfold download_video. run. rewrite H. reflexivity. Qed.

Lemma download_video_returns (U : UnicodeData) (C : Collaborators)
    (url output_template : pystr) (custom_options : option (gmap pystr opt))
    (w : World) (fs : gmap pystr Node) (name : pystr) :
  YoutubeDL C (ydl_opts output_template custom_options) url (files w) = (fs, inr name) ->
  download_video U C url output_template custom_options w =
    (match fs !! (if endswith (str_lower U name) (lit ".mp4") then name
                  else fst (splitext name) ++ lit ".mp4") with
     | Some _ => inr (if endswith (str_lower U name) (lit ".mp4") then name
                      else fst (splitext name) ++ lit ".mp4")
     | None => inl (FileNotFoundError (lit "Failed to download video."))
     end, set_files (fun _ => fs) w).
Proof.
  intros H. unfold download_video, os_path_exists. run. rewrite H. run.
  cbn [files set_files].
  destruct (endswith (str_lower U name) (lit ".mp4")); cbn [negb];
    destruct (fs !! _); reflexivity.
Qed.

(** C9: [download_video] returns only paths with the extension [.mp4],
    and only paths at which a file exists once the fetcher is done.  The
    extension is compared as the function itself compares it, in lower
    case.  When the fetcher reports a name with another extension, the
    extension is replaced and the final name ends with exactly [.mp4]; a
    reported name that passes the comparison, as every name that ends with
    [.mp4] does, is the final name.  When no file of the final name exists,
    the function raises [FileNotFoundError] instead of returning. *)
Theorem download_video_mp4 (U : UnicodeData) (C : Collaborators)
    (url output_template : pystr) (custom_options : option (gmap pystr opt))
    (w : World) :
  ascii_lower_compatible U ->
  (forall path w',
     download_video U C url output_template custom_options w = (inr path, w') ->
     endswith (str_lower U path) (lit ".mp4") = true /\
     files w' !! path <> None) /\
  (forall fs name,
     YoutubeDL C (ydl_opts output_template custom_options) url (files w) = (fs, inr name) ->
     let final := if endswith (str_lower U name) (lit ".mp4") then name
                  else fst (splitext name) ++ lit ".mp4" in
     (endswith (str_lower U name) (lit ".mp4") = false ->
      final = fst (splitext name) ++ lit ".mp4" /\ endswith final (lit ".mp4") = true) /\
     (endswith (str_lower U name) (lit ".mp4") = true -> final = name) /\
     (endswith name (lit ".mp4") = true ->
      endswith (str_lower U name) (lit ".mp4") = true) /\
     endswith (str_lower U final) (lit ".mp4") = true /\
     download_video U C url output_template custom_options w =
       (match fs !! final with
        | Some _ => inr final
        | None => inl (FileNotFoundError (lit "Failed to download video."))
        end, set_files (fun _ => fs) w)).
Proof.
  intros HU.
  assert (Hfinal : forall name,
            endswith (str_lower U (if endswith (str_lower U name) (lit ".mp4") then name
                                   else fst (splitext name) ++ lit ".mp4"))
              (lit ".mp4") = true).
  { intros name. destruct (endswith (str_lower U name) (lit ".mp4")) eqn:E;
      [exact E | apply str_lower_keeps_mp4, HU]. }
  split.
  - intros path w' Hrun.
    destruct (YoutubeDL C (ydl_opts output_template custom_options) url (files w))
      as [fs [e|name]] eqn:H.
    + rewrite (download_video_raises U C _ _ _ w fs e H) in Hrun. discriminate Hrun.
    + rewrite (download_video_returns U C _ _ _ w fs name H) in Hrun.
      destruct (fs !! _) as [node|] eqn:Hnode; [|discriminate Hrun].
      injection Hrun as <- <-. split; [apply Hfinal|].
      cbn [files set_files]. rewrite Hnode. discriminate.
  - intros fs name H final. split; [|split; [|split; [|split]]].
    + intros E. subst final. rewrite E. split; [reflexivity | apply endswith_app].
    + intros E. subst final. rewrite E. reflexivity.
    + intros E. apply endswith_inv in E. destruct E as [x ->].
      apply str_lower_keeps_mp4, HU.
    + apply Hfinal.
    + apply download_video_returns, H.
Qed.

Lemma download_video_mp4_witness :
  let w := set_files (insert (lit "downloads/clip.mp4") (File (Bytes [x00]))) Sample.world in
  let tmpl := lit "downloads/%(id)s_%(title)s.%(ext)s" in
  let fs := <[lit "downloads/clip.webm" := File (Bytes [x00])]> (files w) in
  ascii_lower_compatible Excerpt.ucd /\
  YoutubeDL Sample.collaborators (ydl_opts tmpl None) (lit "clip.webm") (files w) =
    (fs, inr (lit "downloads/clip.webm")) /\
  download_video Excerpt.ucd Sample.collaborators (lit "clip.webm") tmpl None w =
    (inr (lit "downloads/clip.mp4"), set_files (fun _ => fs) w).
Proof.
  intros w tmpl fs.
  assert (H : YoutubeDL Sample.collaborators (ydl_opts tmpl None) (lit "clip.webm") (files w) =
              (fs, inr (lit "downloads/clip.webm"))) by reflexivity.
  split; [exact excerpt_ascii_lower_compatible|]. split; [exact H|].
  exact (proj2 (proj2 (proj2 (proj2
    (proj2 (download_video_mp4 Excerpt.ucd Sample.collaborators (lit "clip.webm")
              tmpl None w excerpt_ascii_lower_compatible)
       fs (lit "downloads/clip.webm") H))))).
Defined.

(** Without the final file on disk the same request fails. *)
Example download_video_missing_file :
  fst (download_video Excerpt.ucd Sample.collaborators (lit "clip.webm")
         (lit "downloads/%(id)s_%(title)s.%(ext)s") None Sample.world) =
  inl (FileNotFoundError (lit "Failed to download video.")).
Proof. vm_compute. reflexivity. Qed.

(** ** What a conversion may change *)

Lemma wrote_files_refl (P : pystr -> Prop) (w : World) : wrote_files P w w.
Proof. repeat split. intros q. left. reflexivity. Qed.

Lemma wrote_files_trans (P : pystr -> Prop) (w1 w2 w3 : World) :
  wrote_files P w1 w2 -> wrote_files P w2 w3 -> wrote_files P w1 w3.
Proof.
  intros (Hc & Ht & Hu & Hd & Hf) (Hc' & Ht' & Hu' & Hd' & Hf').
  repeat split; try congruence.
  intros q. destruct (Hf' q) as [E|[Hq Hd2]].
  - rewrite E. apply Hf.
  - right. split; assumption.
Qed.

Lemma wrote_files_weaken (P Q : pystr -> Prop) (w w' : World) :
  (forall q, P q -> Q q) -> wrote_files P w w' -> wrote_files Q w w'.
Proof.
  intros HPQ (Hc & Ht & Hu & Hd & Hf). repeat split; try assumption.
  intros q. destruct (Hf q) as [E|[Hq Hd2]]; [left; exact E | right].
  split; [apply HPQ, Hq | exact Hd2].
Qed.

Lemma write_file_wrote (P : pystr -> Prop) (p : pystr) (d : FileData) (w : World) :
  P p -> wrote_files P w (snd (write_file p d w)).
Proof.
  intros HP. unfold write_file. run.
  destruct (files w !! p) as [[|]|] eqn:E; cbn [snd]; try apply wrote_files_refl.
  all: repeat split; intros q; cbn [files set_files];
    destruct (decide (p = q)) as [<-|Hne];
    [ right; split; [exact HP | eexists; apply lookup_insert_eq]
    | left; apply lookup_insert_ne, Hne ].
Qed.

(** The outcome of a write, by what is at the path. *)
Lemma write_file_cases (p : pystr) (d : FileData) (w : World) :
  (files w !! p = Some Dir /\ exists e, write_file p d w = (inl e, w)) \/
  (files w !! p <> Some Dir /\
   write_file p d w = (inr tt, set_files (insert p (File d)) w)).
Proof.
  destruct (files w !! p) as [[|]|] eqn:E.
  - right. split; [discriminate|]. apply write_file_ok. rewrite E. discriminate.
  - left. split; [reflexivity|]. unfold write_file. run. rewrite E. eexists. reflexivity.
  - right. split; [discriminate|]. apply write_file_ok. rewrite E. discriminate.
Qed.

Section Conversions.
Variable U : UnicodeData.
Variable C : Collaborators.

Lemma convert_pdf_tables_to_excel_wrote (pdf excel : pystr) (w : World) :
  wrote_files (fun q => q = excel) w (snd (convert_pdf_tables_to_excel C pdf excel w)).
Proof.
  unfold convert_pdf_tables_to_excel. run.
  destruct (pdfplumber_open C _) as [e|pages]; [apply wrote_files_refl|].
  destruct (extract_tables C pages) as [e|[|df dfs]]; try apply wrote_files_refl.
  destruct (write_sheets C 0 (df :: dfs)) as [sheets err].
  pose proof (write_file_wrote (fun q => q = excel) excel (Workbook sheets) w eq_refl) as H.
  destruct (write_file excel (Workbook sheets) w) as [[e|[]] w1]; cbn [snd] in *;
    [exact H|].
  destruct err; exact H.
Qed.

Lemma convert_pdf_to_docx_wrote (pdf word : pystr) (w : World) :
  wrote_files (fun q => q = word) w (snd (convert_pdf_to_docx C pdf word w)).
Proof.
  unfold convert_pdf_to_docx. run.
  destruct (Converter_init C _) as [e|]; [apply wrote_files_refl|].
  destruct (Converter_convert C _) as [[b|] err].
  - pose proof (write_file_wrote (fun q => q = word) word (Bytes b) w eq_refl) as H.
    destruct (write_file word (Bytes b) w) as [[e|[]] w1]; cbn [snd] in *; [exact H|].
    destruct err; exact H.
  - run. destruct err; apply wrote_files_refl.
Qed.
End Conversions.

(** ** Page images *)

Lemma uint_digits_inj (d e : Decimal.uint) : uint_digits d = uint_digits e -> d = e.
Proof.
  revert e. induction d; intros [] H; simpl in H; try discriminate;
    try reflexivity; injection H as H; f_equal; apply IHd, H.
Qed.

Lemma str_int_inj (m n : N) : str_int m = str_int n -> m = n.
Proof.
  unfold str_int. intros H. apply uint_digits_inj in H.
  rewrite <- (DecimalN.Unsigned.of_to m), <- (DecimalN.Unsigned.of_to n), H.
  reflexivity.
Qed.

Lemma uint_digits_allowed (d : Decimal.uint) :
  Forall (fun c => allowed c = true) (uint_digits d).
Proof. induction d; simpl; constructor; try assumption; reflexivity. Qed.

Lemma lit_allowed_page : Forall (fun c => allowed c = true) (lit "_page_").
Proof. repeat constructor. Qed.

Lemma lit_allowed_png : Forall (fun c => allowed c = true) (lit ".png").
Proof. repeat constructor. Qed.

Lemma page_name_allowed (base : pystr) (i : nat) :
  Forall (fun c => allowed c = true) base ->
  Forall (fun c => allowed c = true) (page_name base i).
Proof.
  intros Hb. unfold page_name, str_int. rewrite !Forall_app.
  auto using lit_allowed_page, lit_allowed_png, uint_digits_allowed.
Qed.

Lemma page_name_inj (base : pystr) (i j : nat) :
  page_name base i = page_name base j -> i = j.
Proof.
  unfold page_name. intros H.
  apply app_inv_head in H. apply app_inv_head in H. apply app_inv_tail in H.
  apply str_int_inj in H. lia.
Qed.

Lemma allowed_no_sep (s : pystr) :
  Forall (fun c => allowed c = true) s -> Forall (fun c => c <> sep) s.
Proof.
  intros H. eapply Forall_impl; [exact H|]. intros c. apply allowed_ne_sep.
Qed.

Lemma page_name_no_leading_sep (base : pystr) (i : nat) :
  Forall (fun c => allowed c = true) base ->
  startswith (page_name base i) [sep] = false.
Proof.
  intros Hb. pose proof (page_name_allowed base i Hb) as H.
  destruct (page_name base i) as [|c r] eqn:E.
  - unfold page_name in E. destruct base; discriminate.
  - inversion H; subst. apply startswith_head_neq, allowed_ne_sep. assumption.
Qed.

Section Pages.
Variables session base : pystr.
Hypothesis Hbase : Forall (fun c => allowed c = true) base.
Hypothesis Hsession : session <> [].
Hypothesis Hplain : endswith session [sep] = false.

Lemma page_image_path_plain (i : nat) :
  page_image_path session base i = session ++ sep :: page_name base i.
Proof.
  apply path_join_plain; auto using page_name_no_leading_sep.
Qed.

Lemma page_image_path_inj (i j : nat) :
  page_image_path session base i = page_image_path session base j -> i = j.
Proof.
  rewrite !page_image_path_plain. intros H. apply app_inv_head in H.
  injection H as H. apply page_name_inj in H. exact H.
Qed.

Lemma page_image_path_below (i : nat) :
  below session (page_image_path session base i) = true.
Proof.
  rewrite page_image_path_plain. unfold below.
  change (session ++ sep :: page_name base i)
    with (session ++ [sep] ++ page_name base i).
  rewrite app_assoc. apply startswith_app.
Qed.

Lemma page_image_path_basename (i : nat) :
  basename (page_image_path session base i) = page_name base i.
Proof.
  rewrite page_image_path_plain.
  apply basename_join, allowed_no_sep, page_name_allowed, Hbase.
Qed.

(** The rendering loop touches the page images and nothing else. *)
Lemma render_pages_wrote (doc : list (exn + list byte)) (k : nat) (w : World) :
  wrote_files (fun q => exists i, q = page_image_path session base i) w
    (snd (render_pages doc k session base w)).
Proof.
  revert k w. induction doc as [|page rest IH]; intros k w; simpl.
  - apply wrote_files_refl.
  - run. destruct page as [e|pix]; [apply wrote_files_refl|].
    fold (page_name base k). fold (page_image_path session base k).
    pose proof (write_file_wrote
                  (fun q => exists i, q = page_image_path session base i)
                  (page_image_path session base k) (Bytes pix) w
                  (ex_intro _ k eq_refl)) as H1.
    destruct (write_file _ (Bytes pix) w) as [[e|[]] w1]; cbn [snd] in *; [exact H1|].
    specialize (IH (S k) w1).
    destruct (render_pages rest (S k) session base w1) as [[e|paths] w2];
      cbn [snd] in *; eapply wrote_files_trans; eassumption.
Qed.

(** When every page renders and no page image is in the way as a
    directory, the loop returns the paths in page order and each path
    holds its page. *)
Lemma render_pages_ok (pngs : list (list byte)) (k : nat) (w : World) :
  (forall i, files w !! page_image_path session base i <> Some Dir) ->
  exists w',
    render_pages (map inr pngs) k session base w =
      (inr (map (page_image_path session base) (seq k (length pngs))), w') /\
    (forall i png, pngs !! i = Some png ->
       files w' !! page_image_path session base (k + i) = Some (File (Bytes png))) /\
    (forall q, (forall i, (k <= i)%nat -> q <> page_image_path session base i) ->
       files w' !! q = files w !! q).
Proof.
  revert k w. induction pngs as [|png rest IH]; intros k w Hdir; simpl.
  - exists w. split; [reflexivity|]. split; [intros i p H; discriminate H|].
    reflexivity.
  - run. fold (page_name base k). fold (page_image_path session base k).
    rewrite write_file_ok by apply Hdir.
    set (w1 := set_files _ w).
    destruct (IH (S k) w1) as (w' & Hrun & Hpages & Hother).
    { intros i. unfold w1. cbn [files set_files].
      destruct (decide (page_image_path session base k = page_image_path session base i))
        as [E|E].
      - rewrite <- E, lookup_insert_eq. discriminate.
      - rewrite lookup_insert_ne by exact E. apply Hdir. }
    exists w'. rewrite Hrun. split; [reflexivity|]. split.
    + intros [|i] p H; simpl in H.
      * injection H as ->. rewrite Nat.add_0_r, Hother.
        -- unfold w1. cbn [files set_files]. apply lookup_insert_eq.
        -- intros i Hi E. apply page_image_path_inj in E. lia.
      * replace (k + S i)%nat with (S k + i)%nat by lia. apply Hpages, H.
    + intros q Hq. rewrite Hother by (intros i Hi; apply Hq; lia).
      unfold w1. cbn [files set_files]. apply lookup_insert_ne.
      intros E. apply (Hq k); [lia | symmetry; exact E].
Qed.

(** Zipping paths that hold the page images gives the page entries. *)
Lemma zip_write_all_pages (fs : gmap pystr Node) (pngs : list (list byte)) (k : nat) :
  (forall i png, pngs !! i = Some png ->
     fs !! page_image_path session base (k + i) = Some (File (Bytes png))) ->
  zip_write_all fs (map (page_image_path session base) (seq k (length pngs))) =
    (imap (fun i png => zip_entry (page_name base (k + i)) (Bytes png)) pngs, None).
Proof.
  revert k. induction pngs as [|png rest IH]; intros k H; simpl; [reflexivity|].
  pose proof (H 0%nat png eq_refl) as H0. rewrite Nat.add_0_r in H0.
  rewrite H0, IH.
  - rewrite page_image_path_basename, Nat.add_0_r. do 2 f_equal.
    apply imap_ext. intros i p _. simpl. f_equal. f_equal. lia.
  - intros i p Hp. replace (S k + i)%nat with (k + S i)%nat by lia.
    apply H. exact Hp.
Qed.
End Pages.

(** ** Removing a tree *)

Section Rmtree.
Variable p : pystr.
Variable fs : gmap pystr Node.
Let fs' : gmap pystr Node := remove_tree p fs.

Lemma rmtree_gone_self : fs' !! p = None.
Proof. apply lookup_delete_eq. Qed.

Lemma rmtree_gone_below (q : pystr) : below p q = true -> fs' !! q = None.
Proof.
  intros H. unfold fs', remove_tree. destruct (decide (p = q)) as [<-|Hne].
  - apply lookup_delete_eq.
  - rewrite lookup_delete_ne by exact Hne.
    apply map_lookup_filter_None_2. right. intros x _. simpl. congruence.
Qed.

Lemma rmtree_other (q : pystr) : q <> p -> below p q = false -> fs' !! q = fs !! q.
Proof.
  intros Hne H. unfold fs', remove_tree. rewrite lookup_delete_ne by congruence.
  destruct (fs !! q) as [x|] eqn:E.
  - apply map_lookup_filter_Some_2; [exact E | exact H].
  - apply map_lookup_filter_None_2. left. exact E.
Qed.
End Rmtree.

Lemma shutil_rmtree_dir (p : pystr) (w : World) :
  files w !! p = Some Dir ->
  shutil_rmtree_ignore_errors p w = (inr tt, set_files (remove_tree p) w).
Proof. intros H. unfold shutil_rmtree_ignore_errors. run. rewrite H. reflexivity. Qed.

Lemma remove_if_exists_ok (p : pystr) (w : World) :
  files w !! p <> Some Dir ->
  remove_if_exists p w = (inr tt, set_files (delete p) w).
Proof.
  intros H. unfold remove_if_exists, os_path_exists, os_remove. run.
  destruct (files w !! p) as [[d|]|] eqn:E.
  - run. rewrite E. reflexivity.
  - contradiction.
  - f_equal. destruct w as [fs ? ? ? ?]. unfold set_files. simpl in *.
    rewrite delete_id by exact E. reflexivity.
Qed.

Lemma below_self (p : pystr) : below p p = false.
Proof.
  unfold below. destruct (startswith p (p ++ [47])) eqn:E; [|reflexivity].
  apply startswith_inv in E as [r Hr].
  apply (f_equal (@length N)) in Hr. rewrite !length_app in Hr. simpl in Hr. lia.
Qed.

Lemma below_suffix (p r : pystr) (c : codepoint) :
  c <> 47 -> below p (p ++ c :: r) = false.
Proof.
  intros Hc. unfold below. destruct (startswith _ _) eqn:E; [|reflexivity].
  apply startswith_inv in E as [t Ht]. rewrite <- app_assoc in Ht.
  apply app_inv_head in Ht. simpl in Ht. congruence.
Qed.

Lemma below_head (p q : pystr) (c : codepoint) (r : pystr) :
  p = c :: r -> below p q = true -> exists t, q = c :: t.
Proof.
  intros -> H. unfold below in H. apply startswith_inv in H as [t ->].
  eexists. reflexivity.
Qed.

Lemma path_join_head (folder x : pystr) (c : codepoint) (f : pystr) :
  folder = c :: f -> startswith x [sep] = false ->
  exists r, path_join folder x = c :: r.
Proof.
  intros -> Hx. unfold path_join. rewrite Hx.
  destruct (_ || _); eexists; reflexivity.
Qed.

(** ** The paths of a request *)

Section RequestPaths.
Variable U : UnicodeData.
Variable file : UploadFile.
Variable w : World.

Lemma output_name_no_leading_sep (rest : pystr) :
  startswith (base_name U file ++ rest) [sep] = false.
Proof.
  apply not_startswith_sep; [apply safe_stem_allowed | apply safe_stem_nonempty].
Qed.

Lemma pdf_path_head : exists r, pdf_path U file w = 112 :: r.
Proof.
  unfold pdf_path, upload_path. cbv zeta.
  eapply path_join_head; [reflexivity | apply not_startswith_sep_hex].
Qed.

Lemma excel_path_head : exists r, excel_path U file w = 101 :: r.
Proof.
  unfold excel_path.
  eapply path_join_head; [reflexivity | apply output_name_no_leading_sep].
Qed.

Lemma word_path_head : exists r, word_path U file w = 119 :: r.
Proof.
  unfold word_path.
  eapply path_join_head; [reflexivity | apply output_name_no_leading_sep].
Qed.

Lemma session_folder_plain :
  session_folder U file w =
  IMAGE_DOWNLOAD_FOLDER ++ sep :: base_name U file ++ lit "_" ++ unique_id w.
Proof.
  unfold session_folder.
  apply path_join_plain; [discriminate | reflexivity | apply output_name_no_leading_sep].
Qed.

Lemma zip_path_plain : zip_path U file w = session_folder U file w ++ lit ".zip".
Proof.
  rewrite session_folder_plain. unfold zip_path.
  rewrite path_join_plain;
    [| discriminate | reflexivity | apply output_name_no_leading_sep].
  rewrite <- !app_assoc. simpl. rewrite <- !app_assoc. reflexivity.
Qed.

Lemma session_folder_head : exists r, session_folder U file w = 105 :: r.
Proof. rewrite session_folder_plain. eexists. reflexivity. Qed.

Lemma session_folder_nonempty : session_folder U file w <> [].
Proof. destruct session_folder_head as [r ->]. discriminate. Qed.

Lemma session_folder_no_trailing_sep : endswith (session_folder U file w) [sep] = false.
Proof.
  rewrite session_folder_plain. unfold unique_id, UUID_hex.
  change (hex_digits 32 ?u) with (hex_digits 31 (u / 16) ++ [hexdigit (u mod 16)]).
  change (?a ++ sep :: ?b ++ ?c ++ ?d ++ [?x])
    with (a ++ (sep :: b) ++ c ++ d ++ [x]).
  rewrite !app_assoc. apply endswith_last_neq, allowed_ne_sep, hexdigit_allowed.
  apply N.mod_lt. discriminate.
Qed.

Lemma zip_path_head : exists r, zip_path U file w = 105 :: r.
Proof.
  rewrite zip_path_plain. destruct session_folder_head as [r ->].
  eexists. reflexivity.
Qed.

Lemma zip_path_not_session : zip_path U file w <> session_folder U file w.
Proof.
  rewrite zip_path_plain. intros E. apply (f_equal (@length N)) in E.
  rewrite length_app in E. simpl in E. lia.
Qed.

Lemma zip_path_not_below : below (session_folder U file w) (zip_path U file w) = false.
Proof. rewrite zip_path_plain. apply below_suffix. discriminate. Qed.

Lemma request_page_below (i : nat) :
  below (session_folder U file w)
    (page_image_path (session_folder U file w) (base_name U file) i) = true.
Proof.
  apply page_image_path_below;
    [ apply safe_stem_allowed | apply session_folder_nonempty
    | apply session_folder_no_trailing_sep ].
Qed.

Lemma zip_path_not_page (i : nat) :
  zip_path U file w <> page_image_path (session_folder U file w) (base_name U file) i.
Proof.
  intros E. pose proof zip_path_not_below as H. rewrite E in H.
  rewrite request_page_below in H. discriminate.
Qed.

Lemma session_not_page (i : nat) :
  session_folder U file w <>
  page_image_path (session_folder U file w) (base_name U file) i.
Proof.
  intros E. pose proof (below_self (session_folder U file w)) as H.
  rewrite E in H at 2.
  rewrite request_page_below in H. discriminate.
Qed.

Lemma pdf_path_not_excel : pdf_path U file w <> excel_path U file w.
Proof.
  destruct pdf_path_head as [r ->], excel_path_head as [r' ->]. discriminate.
Qed.

Lemma pdf_path_not_word : pdf_path U file w <> word_path U file w.
Proof.
  destruct pdf_path_head as [r ->], word_path_head as [r' ->]. discriminate.
Qed.

Lemma pdf_path_not_zip : pdf_path U file w <> zip_path U file w.
Proof.
  destruct pdf_path_head as [r ->], zip_path_head as [r' ->]. discriminate.
Qed.

Lemma pdf_path_not_session : pdf_path U file w <> session_folder U file w.
Proof.
  destruct pdf_path_head as [r ->], session_folder_head as [r' ->]. discriminate.
Qed.

Lemma pdf_path_not_below : below (session_folder U file w) (pdf_path U file w) = false.
Proof.
  destruct (below _ _) eqn:E; [|reflexivity].
  destruct session_folder_head as [r Hr].
  destruct (below_head _ _ _ _ Hr E) as [t Ht].
  destruct pdf_path_head as [r' Hr']. rewrite Hr' in Ht. discriminate.
Qed.

Lemma pdf_path_not_page (i : nat) :
  pdf_path U file w <>
  page_image_path (session_folder U file w) (base_name U file) i.
Proof.
  intros E. pose proof pdf_path_not_below as H. rewrite E in H.
  rewrite request_page_below in H. discriminate.
Qed.
End RequestPaths.

(** ** The PDF endpoints, step by step *)

Section Endpoints.
Variable U : UnicodeData.
Variable C : Collaborators.
Variable file : UploadFile.
Variable w : World.

Hypothesis Hvalid : endswith (str_lower U (filename file)) (lit ".pdf") = true.
Hypothesis Hpdf : files w !! pdf_path U file w <> Some Dir.

Lemma uploaded_lookup_pdf :
  files (uploaded U file w) !! pdf_path U file w =
  Some (File (Bytes (drop (cursor file) (payload file)))).
Proof. unfold uploaded. cbn [files set_files set_drawn]. apply lookup_insert_eq. Qed.

Lemma uploaded_lookup_other (q : pystr) :
  q <> pdf_path U file w -> files (uploaded U file w) !! q = files w !! q.
Proof.
  intros H. unfold uploaded. cbn [files set_files set_drawn].
  apply lookup_insert_ne. congruence.
Qed.

(** The handler up to and including the conversion. *)
Lemma pdf_to_excel_unfold :
  pdf_to_excel U C file w =
    (let (r, w3) := convert_pdf_tables_to_excel C (pdf_path U file w)
                      (excel_path U file w) (uploaded U file w) in
     match r with
     | inl e =>
         (remove_if_exists (excel_path U file w) ;;;
          delete_file_later (pdf_path U file w) default_delay ;;;
          ret (JSON_error (failure_message e))) w3
     | inr _ =>
         (delete_file_later (pdf_path U file w) default_delay ;;;
          delete_file_later (excel_path U file w) 600 ;;;
          ret (send_file U (excel_path U file w))) w3
     end).
Proof.
  unfold pdf_to_excel. rewrite Hvalid. cbn [negb].
  unfold bind at 1. rewrite save_upload_file_spec by exact Hpdf.
  cbn [fst]. unfold bind at 1, uuid4 at 1.
  unfold bind at 1, try at 1.
  change (set_drawn S (set_files _ (set_drawn S w))) with (uploaded U file w).
  fold (pdf_path U file w).
  change (path_join EXCEL_DOWNLOAD_FOLDER _) with (excel_path U file w).
  destruct (convert_pdf_tables_to_excel C _ _ _) as [[e|[]] w3]; [|reflexivity].
  destruct e; reflexivity.
Qed.

Lemma delete_file_later_run (p : pystr) (delay : Z) (w0 : World) :
  delete_file_later p delay w0 =
    (inr tt, set_threads (fun ts => ts ++ [{| target := p; started := clock w0;
                                              delay := delay |}]) w0).
Proof. reflexivity. Qed.

(** A failed conversion to a spreadsheet. *)
Lemma pdf_to_excel_failure (e : exn) (w3 : World) :
  files w !! excel_path U file w <> Some Dir ->
  convert_pdf_tables_to_excel C (pdf_path U file w) (excel_path U file w)
    (uploaded U file w) = (inl e, w3) ->
  pdf_to_excel U C file w =
    (inr (JSON_error (failure_message e)),
     set_threads (fun ts => ts ++ [upload_deletion U file w])
       (set_files (delete (excel_path U file w)) w3)) /\
  wrote_files (fun q => q = excel_path U file w) (uploaded U file w) w3.
Proof.
  intros Hexcel Hconv.
  pose proof (convert_pdf_tables_to_excel_wrote C (pdf_path U file w)
                (excel_path U file w) (uploaded U file w)) as Hw.
  rewrite Hconv in Hw. cbn [snd] in Hw. split; [|exact Hw].
  rewrite pdf_to_excel_unfold, Hconv.
  destruct Hw as (Hclock & _ & _ & _ & Hfiles).
  unfold bind at 1. rewrite remove_if_exists_ok.
  - unfold bind at 1. rewrite delete_file_later_run. unfold ret.
    cbn [clock set_files]. rewrite Hclock. reflexivity.
  - destruct (Hfiles (excel_path U file w)) as [E|[_ [d E]]]; rewrite E.
    + rewrite uploaded_lookup_other; [exact Hexcel|].
      apply not_eq_sym, pdf_path_not_excel.
    + discriminate.
Qed.

(** The handler of the document endpoint up to and including the
    conversion. *)
Lemma pdf_to_word_unfold :
  pdf_to_word U C file w =
    (let (r, w3) := convert_pdf_to_docx C (pdf_path U file w)
                      (word_path U file w) (uploaded U file w) in
     match r with
     | inl e =>
         (remove_if_exists (word_path U file w) ;;;
          delete_file_later (pdf_path U file w) default_delay ;;;
          ret (JSON_error (lit "Failed to convert PDF: " ++ str_exn e))) w3
     | inr _ =>
         (delete_file_later (pdf_path U file w) default_delay ;;;
          delete_file_later (word_path U file w) 600 ;;;
          ret (send_file U (word_path U file w))) w3
     end).
Proof.
  unfold pdf_to_word. rewrite Hvalid. cbn [negb].
  unfold bind at 1. rewrite save_upload_file_spec by exact Hpdf.
  cbn [fst]. unfold bind at 1, uuid4 at 1.
  unfold bind at 1, try at 1.
  change (set_drawn S (set_files _ (set_drawn S w))) with (uploaded U file w).
  fold (pdf_path U file w).
  change (path_join WORD_DOWNLOAD_FOLDER _) with (word_path U file w).
  destruct (convert_pdf_to_docx C _ _ _) as [[e|[]] w3]; reflexivity.
Qed.

Lemma pdf_to_word_failure (e : exn) (w3 : World) :
  files w !! word_path U file w <> Some Dir ->
  convert_pdf_to_docx C (pdf_path U file w) (word_path U file w)
    (uploaded U file w) = (inl e, w3) ->
  pdf_to_word U C file w =
    (inr (JSON_error (lit "Failed to convert PDF: " ++ str_exn e)),
     set_threads (fun ts => ts ++ [upload_deletion U file w])
       (set_files (delete (word_path U file w)) w3)) /\
  wrote_files (fun q => q = word_path U file w) (uploaded U file w) w3.
Proof.
  intros Hword Hconv.
  pose proof (convert_pdf_to_docx_wrote C (pdf_path U file w)
                (word_path U file w) (uploaded U file w)) as Hw.
  rewrite Hconv in Hw. cbn [snd] in Hw. split; [|exact Hw].
  rewrite pdf_to_word_unfold, Hconv.
  destruct Hw as (Hclock & _ & _ & _ & Hfiles).
  unfold bind at 1. rewrite remove_if_exists_ok.
  - unfold bind at 1. rewrite delete_file_later_run. unfold ret.
    cbn [clock set_files]. rewrite Hclock. reflexivity.
  - destruct (Hfiles (word_path U file w)) as [E|[_ [d E]]]; rewrite E.
    + rewrite uploaded_lookup_other; [exact Hword|].
      apply not_eq_sym, pdf_path_not_word.
    + discriminate.
Qed.
End Endpoints.

(** ** Rendering to a zip archive *)

Section ImagesZip.
Variable C : Collaborators.
Variables pdf session zip base : pystr.

Let P : pystr -> Prop :=
  fun q => q = zip \/ exists i, q = page_image_path session base i.

Lemma create_images_zip_wrote (w : World) :
  wrote_files P w (snd (create_images_zip C pdf session zip base w)).
Proof.
  unfold create_images_zip. run.
  destruct (fitz_open C _) as [e|[|page rest]]; try apply wrote_files_refl.
  pose proof (render_pages_wrote session base (page :: rest) 0 w) as H1.
  apply (wrote_files_weaken _ P) in H1; [|intros q Hq; right; exact Hq].
  destruct (render_pages (page :: rest) 0 session base w) as [[e|paths] w1];
    cbn [snd] in *; [exact H1|].
  pose proof (write_file_wrote P zip (Archive []) w1 (or_introl eq_refl)) as H2.
  destruct (write_file zip (Archive []) w1) as [[e|[]] w2]; cbn [snd] in *;
    [eapply wrote_files_trans; eassumption|].
  destruct (zip_write_all (files w2) paths) as [entries err].
  pose proof (write_file_wrote P zip (Archive entries) w2 (or_introl eq_refl)) as H3.
  destruct (write_file zip (Archive entries) w2) as [[e|[]] w3]; cbn [snd] in *.
  - eapply wrote_files_trans; [|exact H3]. eapply wrote_files_trans; eassumption.
  - destruct err; cbn [snd];
      (eapply wrote_files_trans; [|exact H3]); eapply wrote_files_trans; eassumption.
Qed.

Lemma create_images_zip_no_pages (w : World) :
  fitz_open C (files w !! pdf) = inr [] ->
  create_images_zip C pdf session zip base w =
    (inl (ValueError (lit "No pages found in PDF.")), w).
Proof. intros H. unfold create_images_zip. run. rewrite H. reflexivity. Qed.

Hypothesis Hbase : Forall (fun c => allowed c = true) base.
Hypothesis Hsession : session <> [].
Hypothesis Hplain : endswith session [sep] = false.
Hypothesis Hzip : forall i, zip <> page_image_path session base i.

(** A document whose pages all render, with nothing in the way, ends up
    as an archive of its pages in order. *)
Lemma create_images_zip_ok (w : World) (pngs : list (list byte)) :
  fitz_open C (files w !! pdf) = inr (map inr pngs) ->
  pngs <> [] ->
  (forall i, files w !! page_image_path session base i <> Some Dir) ->
  files w !! zip <> Some Dir ->
  exists w',
    create_images_zip C pdf session zip base w = (inr tt, w') /\
    files w' !! zip = Some (File (Archive (page_entries base pngs))) /\
    wrote_files P w w'.
Proof.
  intros Hopen Hne Hdir Hzipdir.
  destruct (render_pages_ok session base Hbase Hsession Hplain pngs 0 w Hdir)
    as (w1 & Hrun & Hpages & Hother).
  assert (Hz1 : files w1 !! zip <> Some Dir).
  { rewrite Hother; [exact Hzipdir|]. intros i _. apply Hzip. }
  set (w2 := set_files (insert zip (File (Archive []))) w1).
  assert (Hread : zip_write_all (files w2)
                    (map (page_image_path session base) (seq 0 (length pngs))) =
                  (page_entries base pngs, None)).
  { apply (zip_write_all_pages session base Hbase Hsession Hplain _ pngs 0).
    intros i p Hp. unfold w2. cbn [files set_files].
    rewrite lookup_insert_ne by apply Hzip. apply Hpages, Hp. }
  assert (Hz2 : files w2 !! zip <> Some Dir).
  { unfold w2. cbn [files set_files]. rewrite lookup_insert_eq. discriminate. }
  assert (Heq : create_images_zip C pdf session zip base w =
                (inr tt, set_files (insert zip (File (Archive (page_entries base pngs)))) w2)).
  { unfold create_images_zip. run. rewrite Hopen.
    destruct pngs as [|png rest]; [contradiction|].
    change (map inr (png :: rest)) with (@inr exn _ png :: map inr rest).
    cbv iota.
    change (@inr exn _ png :: map inr rest) with (map (@inr exn _) (png :: rest)).
    cbv beta. rewrite Hrun, (write_file_ok zip (Archive []) w1 Hz1).
    fold w2. rewrite Hread. cbv beta iota.
    rewrite (write_file_ok zip _ w2 Hz2). reflexivity. }
  eexists. split; [exact Heq|]. split.
  - cbn [files set_files]. apply lookup_insert_eq.
  - pose proof (create_images_zip_wrote w) as Hwrote.
    rewrite Heq in Hwrote. exact Hwrote.
Qed.
End ImagesZip.

(** ** The image endpoint, step by step *)

Section ImageEndpoint.
Variable U : UnicodeData.
Variable C : Collaborators.
Variable file : UploadFile.
Variable w : World.

Hypothesis Hvalid : endswith (str_lower U (filename file)) (lit ".pdf") = true.
Hypothesis Hpdf : files w !! pdf_path U file w <> Some Dir.
Hypothesis Hsession : forall d, files w !! session_folder U file w <> Some (File d).

Let P : pystr -> Prop :=
  fun q => q = zip_path U file w \/
           exists i, q = page_image_path (session_folder U file w) (base_name U file) i.

Lemma session_ready_run :
  os_makedirs_exist_ok (session_folder U file w) (uploaded U file w) =
    (inr tt, session_ready U file w).
Proof.
  unfold session_ready, os_makedirs_exist_ok. run.
  rewrite uploaded_lookup_other by apply not_eq_sym, pdf_path_not_session.
  destruct (files w !! session_folder U file w) as [[d|]|] eqn:E; try reflexivity.
  destruct (Hsession d eq_refl).
Qed.

Lemma session_ready_dir :
  files (session_ready U file w) !! session_folder U file w = Some Dir.
Proof.
  unfold session_ready, os_makedirs_exist_ok. run.
  destruct (files (uploaded U file w) !! session_folder U file w) as [[d|]|] eqn:E;
    cbn [snd files set_files].
  - rewrite uploaded_lookup_other in E by apply not_eq_sym, pdf_path_not_session.
    destruct (Hsession d E).
  - exact E.
  - apply lookup_insert_eq.
Qed.

Lemma session_ready_other (q : pystr) :
  q <> session_folder U file w ->
  files (session_ready U file w) !! q = files (uploaded U file w) !! q.
Proof.
  intros Hq. unfold session_ready, os_makedirs_exist_ok. run.
  destruct (files (uploaded U file w) !! session_folder U file w) as [[d|]|];
    cbn [snd files set_files]; try reflexivity.
  apply lookup_insert_ne. congruence.
Qed.

Lemma session_ready_clock : clock (session_ready U file w) = clock w.
Proof.
  unfold session_ready, os_makedirs_exist_ok. run.
  destruct (files (uploaded U file w) !! session_folder U file w) as [[d|]|];
    reflexivity.
Qed.

Lemma session_ready_threads : threads (session_ready U file w) = threads w.
Proof.
  unfold session_ready, os_makedirs_exist_ok. run.
  destruct (files (uploaded U file w) !! session_folder U file w) as [[d|]|];
    reflexivity.
Qed.

Lemma session_ready_pdf :
  files (session_ready U file w) !! pdf_path U file w =
  Some (File (Bytes (drop (cursor file) (payload file)))).
Proof.
  rewrite session_ready_other by apply pdf_path_not_session.
  apply uploaded_lookup_pdf.
Qed.

Lemma pdf_to_image_unfold :
  pdf_to_image U C file w =
    (let (r, w3) := create_images_zip C (pdf_path U file w) (session_folder U file w)
                      (zip_path U file w) (base_name U file) (session_ready U file w) in
     match r with
     | inl e =>
         (shutil_rmtree_ignore_errors (session_folder U file w) ;;;
          remove_if_exists (zip_path U file w) ;;;
          delete_file_later (pdf_path U file w) default_delay ;;;
          ret (JSON_error (failure_message e))) w3
     | inr _ =>
         (shutil_rmtree_ignore_errors (session_folder U file w) ;;;
          delete_file_later (pdf_path U file w) default_delay ;;;
          delete_file_later (zip_path U file w) 600 ;;;
          ret (send_file U (zip_path U file w))) w3
     end).
Proof.
  unfold pdf_to_image. rewrite Hvalid. cbn [negb].
  unfold bind at 1. rewrite save_upload_file_spec by exact Hpdf.
  cbn [fst]. unfold bind at 1, uuid4 at 1.
  change (set_drawn S (set_files _ (set_drawn S w))) with (uploaded U file w).
  fold (pdf_path U file w). fold (base_name U file).
  change (UUID_hex (uuid4_int (urandom _ (drawn (set_files _ (set_drawn S w))))))
    with (unique_id w).
  change (path_join IMAGE_DOWNLOAD_FOLDER (base_name U file ++ lit "_" ++ unique_id w))
    with (session_folder U file w).
  change (path_join IMAGE_DOWNLOAD_FOLDER _) with (zip_path U file w).
  unfold bind at 1. rewrite session_ready_run.
  unfold bind at 1, try at 1.
  destruct (create_images_zip C _ _ _ _ _) as [[e|[]] w3]; [|reflexivity].
  destruct e; reflexivity.
Qed.

(** What stays true of the disk while the conversion runs. *)
Lemma conversion_keeps (w3 : World) (q : pystr) :
  wrote_files P (session_ready U file w) w3 ->
  q <> zip_path U file w ->
  below (session_folder U file w) q = false ->
  files w3 !! q = files (session_ready U file w) !! q.
Proof.
  intros (_ & _ & _ & _ & Hfiles) Hzip Hbelow.
  destruct (Hfiles q) as [E|[[Hq|[i Hq]] _]]; [exact E | contradiction |].
  rewrite Hq, request_page_below in Hbelow. discriminate.
Qed.

Lemma conversion_keeps_zip_file (w3 : World) :
  files w !! zip_path U file w <> Some Dir ->
  wrote_files P (session_ready U file w) w3 ->
  files w3 !! zip_path U file w <> Some Dir.
Proof.
  intros Hzip (_ & _ & _ & _ & Hfiles).
  destruct (Hfiles (zip_path U file w)) as [E|[_ [d E]]]; rewrite E; [|discriminate].
  rewrite session_ready_other by apply zip_path_not_session.
  rewrite uploaded_lookup_other by apply not_eq_sym, pdf_path_not_zip.
  exact Hzip.
Qed.

Lemma pdf_to_image_failure (e : exn) (w3 : World) :
  files w !! zip_path U file w <> Some Dir ->
  create_images_zip C (pdf_path U file w) (session_folder U file w)
    (zip_path U file w) (base_name U file) (session_ready U file w) = (inl e, w3) ->
  pdf_to_image U C file w =
    (inr (JSON_error (failure_message e)),
     set_threads (fun ts => ts ++ [upload_deletion U file w])
       (set_files (delete (zip_path U file w))
          (set_files (remove_tree (session_folder U file w)) w3))) /\
  wrote_files P (session_ready U file w) w3.
Proof.
  intros Hzip Hconv.
  pose proof (create_images_zip_wrote C (pdf_path U file w) (session_folder U file w)
                (zip_path U file w) (base_name U file) (session_ready U file w)) as Hw.
  rewrite Hconv in Hw. cbn [snd] in Hw. fold P in Hw. split; [|exact Hw].
  rewrite pdf_to_image_unfold, Hconv.
  unfold bind at 1. rewrite shutil_rmtree_dir.
  2:{ rewrite (conversion_keeps w3 _ Hw); [apply session_ready_dir | |apply below_self].
      apply not_eq_sym, zip_path_not_session. }
  unfold bind at 1. rewrite remove_if_exists_ok.
  2:{ cbn [files set_files].
      rewrite rmtree_other by (apply zip_path_not_session || apply zip_path_not_below).
      apply conversion_keeps_zip_file; assumption. }
  unfold bind at 1. rewrite delete_file_later_run. unfold ret.
  cbn [clock set_files]. destruct Hw as (Hclock & _).
  rewrite Hclock, session_ready_clock. reflexivity.
Qed.

Lemma pdf_to_image_success (pngs : list (list byte)) :
  fitz_open C (Some (File (Bytes (drop (cursor file) (payload file))))) =
    inr (map inr pngs) ->
  pngs <> [] ->
  (forall i, files w !! page_image_path (session_folder U file w) (base_name U file) i
             <> Some Dir) ->
  files w !! zip_path U file w <> Some Dir ->
  exists w3,
    pdf_to_image U C file w =
      (inr (send_file U (zip_path U file w)),
       set_threads (fun ts => ts ++ [upload_deletion U file w;
                                     {| target := zip_path U file w;
                                        started := clock w; delay := 600 |}])
         (set_files (remove_tree (session_folder U file w)) w3)) /\
    files w3 !! zip_path U file w =
      Some (File (Archive (page_entries (base_name U file) pngs))) /\
    wrote_files P (session_ready U file w) w3.
Proof.
  intros Hopen Hne Hpages Hzip.
  destruct (create_images_zip_ok C (pdf_path U file w) (session_folder U file w)
              (zip_path U file w) (base_name U file)
              (safe_stem_allowed U (filename file))
              (session_folder_nonempty U file w)
              (session_folder_no_trailing_sep U file w)
              (zip_path_not_page U file w)
              (session_ready U file w) pngs)
    as (w3 & Hconv & Harchive & Hw).
  - rewrite session_ready_pdf. exact Hopen.
  - exact Hne.
  - intros i. rewrite session_ready_other by apply not_eq_sym, session_not_page.
    rewrite uploaded_lookup_other by apply not_eq_sym, pdf_path_not_page.
    apply Hpages.
  - rewrite session_ready_other by apply zip_path_not_session.
    rewrite uploaded_lookup_other by apply not_eq_sym, pdf_path_not_zip.
    exact Hzip.
  - fold P in Hw. exists w3. split; [|split; assumption].
    rewrite pdf_to_image_unfold, Hconv.
    unfold bind at 1. rewrite shutil_rmtree_dir.
    2:{ rewrite (conversion_keeps w3 _ Hw); [apply session_ready_dir | |apply below_self].
        apply not_eq_sym, zip_path_not_session. }
    unfold bind at 1. rewrite delete_file_later_run.
    unfold bind at 1. rewrite delete_file_later_run. unfold ret.
    cbn [clock set_files set_threads threads]. destruct Hw as (Hclock & _).
    rewrite Hclock, session_ready_clock.
    unfold set_threads. cbn [files clock threads urandom drawn].
    rewrite <- app_assoc. reflexivity.
Qed.
End ImageEndpoint.

(** ** Failed conversions *)

Section Failures.
Variable U : UnicodeData.
Variable C : Collaborators.
Variable file : UploadFile.
Variable w : World.

Hypothesis Hvalid : endswith (str_lower U (filename file)) (lit ".pdf") = true.
Hypothesis Hpdf : files w !! pdf_path U file w <> Some Dir.

Let stored : option Node := Some (File (Bytes (drop (cursor file) (payload file)))).

Lemma pdf_to_excel_cleanup (e : exn) (w3 : World) :
  files w !! excel_path U file w <> Some Dir ->
  convert_pdf_tables_to_excel C (pdf_path U file w) (excel_path U file w)
    (uploaded U file w) = (inl e, w3) ->
  let r := pdf_to_excel U C file w in
  fst r = inr (JSON_error (failure_message e)) /\
  files (snd r) !! excel_path U file w = None /\
  files (snd r) !! pdf_path U file w = stored /\
  threads (snd r) = threads w ++ [upload_deletion U file w].
Proof.
  intros Hexcel Hconv r. subst r.
  destruct (pdf_to_excel_failure U C file w Hvalid Hpdf e w3 Hexcel Hconv)
    as [-> (_ & Hthreads & _ & _ & Hfiles)].
  cbn [fst snd files threads set_files set_threads].
  split; [reflexivity|]. split; [apply lookup_delete_eq|]. split.
  - rewrite lookup_delete_ne by apply not_eq_sym, pdf_path_not_excel.
    destruct (Hfiles (pdf_path U file w)) as [E|[Hq _]].
    + rewrite E. apply uploaded_lookup_pdf.
    + destruct (pdf_path_not_excel U file w Hq).
  - rewrite Hthreads. reflexivity.
Qed.

Lemma pdf_to_word_cleanup (e : exn) (w3 : World) :
  files w !! word_path U file w <> Some Dir ->
  convert_pdf_to_docx C (pdf_path U file w) (word_path U file w)
    (uploaded U file w) = (inl e, w3) ->
  let r := pdf_to_word U C file w in
  fst r = inr (JSON_error (lit "Failed to convert PDF: " ++ str_exn e)) /\
  files (snd r) !! word_path U file w = None /\
  files (snd r) !! pdf_path U file w = stored /\
  threads (snd r) = threads w ++ [upload_deletion U file w].
Proof.
  intros Hword Hconv r. subst r.
  destruct (pdf_to_word_failure U C file w Hvalid Hpdf e w3 Hword Hconv)
    as [-> (_ & Hthreads & _ & _ & Hfiles)].
  cbn [fst snd files threads set_files set_threads].
  split; [reflexivity|]. split; [apply lookup_delete_eq|]. split.
  - rewrite lookup_delete_ne by apply not_eq_sym, pdf_path_not_word.
    destruct (Hfiles (pdf_path U file w)) as [E|[Hq _]].
    + rewrite E. apply uploaded_lookup_pdf.
    + destruct (pdf_path_not_word U file w Hq).
  - rewrite Hthreads. reflexivity.
Qed.

Lemma pdf_to_image_cleanup (e : exn) (w3 : World) :
  (forall d, files w !! session_folder U file w <> Some (File d)) ->
  files w !! zip_path U file w <> Some Dir ->
  create_images_zip C (pdf_path U file w) (session_folder U file w)
    (zip_path U file w) (base_name U file) (session_ready U file w) = (inl e, w3) ->
  let r := pdf_to_image U C file w in
  fst r = inr (JSON_error (failure_message e)) /\
  files (snd r) !! zip_path U file w = None /\
  files (snd r) !! session_folder U file w = None /\
  (forall q, below (session_folder U file w) q = true -> files (snd r) !! q = None) /\
  files (snd r) !! pdf_path U file w = stored /\
  threads (snd r) = threads w ++ [upload_deletion U file w].
Proof.
  intros Hsession Hzip Hconv r. subst r.
  destruct (pdf_to_image_failure U C file w Hvalid Hpdf Hsession e w3 Hzip Hconv)
    as [-> Hw].
  cbn [fst snd files threads set_files set_threads].
  split; [reflexivity|]. split; [apply lookup_delete_eq|]. split; [|split; [|split]].
  - rewrite lookup_delete_ne by apply zip_path_not_session. apply rmtree_gone_self.
  - intros q Hq. destruct (decide (zip_path U file w = q)) as [<-|Hne].
    + apply lookup_delete_eq.
    + rewrite lookup_delete_ne by exact Hne. apply rmtree_gone_below, Hq.
  - rewrite lookup_delete_ne by apply not_eq_sym, pdf_path_not_zip.
    rewrite rmtree_other by (apply pdf_path_not_session || apply pdf_path_not_below).
    rewrite (conversion_keeps U file w w3 _ Hw)
      by (apply pdf_path_not_zip || apply pdf_path_not_below).
    apply session_ready_pdf.
  - destruct Hw as (_ & Hthreads & _). rewrite Hthreads.
    rewrite session_ready_threads. reflexivity.
Qed.
End Failures.

(** C1: on each of the three conversion endpoints, when the upload has
    been stored and the conversion then raises, the handler answers with
    the JSON error body, whose one field is a message made of the
    exception's text; on the way it has removed the output file (and, on
    the image endpoint, the session folder with everything in it), it has
    left the stored upload on disk, and it has queued the deletion of the
    upload for 300 seconds later. *)
Theorem failed_conversion_cleans_up (U : UnicodeData) (C : Collaborators)
    (file : UploadFile) (w : World) :
  endswith (str_lower U (filename file)) (lit ".pdf") = true ->
  files w !! pdf_path U file w <> Some Dir ->
  let stored := Some (File (Bytes (drop (cursor file) (payload file)))) in
  let queued := threads w ++ [{| target := pdf_path U file w; started := clock w;
                                 delay := 300 |}] in
  (forall e w3,
     files w !! excel_path U file w <> Some Dir ->
     convert_pdf_tables_to_excel C (pdf_path U file w) (excel_path U file w)
       (uploaded U file w) = (inl e, w3) ->
     let r := pdf_to_excel U C file w in
     fst r = inr (JSON_error (failure_message e)) /\
     files (snd r) !! excel_path U file w = None /\
     files (snd r) !! pdf_path U file w = stored /\
     threads (snd r) = queued) /\
  (forall e w3,
     files w !! word_path U file w <> Some Dir ->
     convert_pdf_to_docx C (pdf_path U file w) (word_path U file w)
       (uploaded U file w) = (inl e, w3) ->
     let r := pdf_to_word U C file w in
     fst r = inr (JSON_error (lit "Failed to convert PDF: " ++ str_exn e)) /\
     files (snd r) !! word_path U file w = None /\
     files (snd r) !! pdf_path U file w = stored /\
     threads (snd r) = queued) /\
  (forall e w3,
     (forall d, files w !! session_folder U file w <> Some (File d)) ->
     files w !! zip_path U file w <> Some Dir ->
     create_images_zip C (pdf_path U file w) (session_folder U file w)
       (zip_path U file w) (base_name U file) (session_ready U file w) = (inl e, w3) ->
     let r := pdf_to_image U C file w in
     fst r = inr (JSON_error (failure_message e)) /\
     files (snd r) !! zip_path U file w = None /\
     files (snd r) !! session_folder U file w = None /\
     (forall q, below (session_folder U file w) q = true -> files (snd r) !! q = None) /\
     files (snd r) !! pdf_path U file w = stored /\
     threads (snd r) = queued).
Proof.
  intros Hvalid Hpdf stored queued. split; [|split].
  - intros e w3. apply pdf_to_excel_cleanup; assumption.
  - intros e w3. apply pdf_to_word_cleanup; assumption.
  - intros e w3. apply pdf_to_image_cleanup; assumption.
Qed.

(** A three-page upload whose second page is broken fails on all three
    endpoints: table extraction and rendering stop at the page, the
    document converter leaves a partial file behind. *)
Lemma failed_conversion_cleans_up_witness :
  (endswith (str_lower sample_U (filename broken_file)) (lit ".pdf") = true /\
   files sample_w !! pdf_path sample_U broken_file sample_w <> Some Dir /\
   files sample_w !! excel_path sample_U broken_file sample_w <> Some Dir /\
   files sample_w !! word_path sample_U broken_file sample_w <> Some Dir /\
   (forall d, files sample_w !! session_folder sample_U broken_file sample_w
              <> Some (File d)) /\
   files sample_w !! zip_path sample_U broken_file sample_w <> Some Dir /\
   fst (convert_pdf_tables_to_excel sample_C (pdf_path sample_U broken_file sample_w)
          (excel_path sample_U broken_file sample_w)
          (uploaded sample_U broken_file sample_w)) = inl broken_page /\
   fst (convert_pdf_to_docx sample_C (pdf_path sample_U broken_file sample_w)
          (word_path sample_U broken_file sample_w)
          (uploaded sample_U broken_file sample_w)) = inl broken_page /\
   fst (create_images_zip sample_C (pdf_path sample_U broken_file sample_w)
          (session_folder sample_U broken_file sample_w)
          (zip_path sample_U broken_file sample_w) (base_name sample_U broken_file)
          (session_ready sample_U broken_file sample_w)) = inl broken_page) /\
  (fst (pdf_to_excel sample_U sample_C broken_file sample_w) =
     inr (JSON_error (lit "Failed to convert PDF: broken page")) /\
   files (snd (pdf_to_excel sample_U sample_C broken_file sample_w))
     !! excel_path sample_U broken_file sample_w = None /\
   threads (snd (pdf_to_excel sample_U sample_C broken_file sample_w)) =
     [{| target := pdf_path sample_U broken_file sample_w; started := 0; delay := 300 |}]) /\
  (fst (pdf_to_word sample_U sample_C broken_file sample_w) =
     inr (JSON_error (lit "Failed to convert PDF: broken page")) /\
   files (snd (pdf_to_word sample_U sample_C broken_file sample_w))
     !! word_path sample_U broken_file sample_w = None /\
   threads (snd (pdf_to_word sample_U sample_C broken_file sample_w)) =
     [{| target := pdf_path sample_U broken_file sample_w; started := 0; delay := 300 |}]) /\
  (fst (pdf_to_image sample_U sample_C broken_file sample_w) =
     inr (JSON_error (lit "Failed to convert PDF: broken page")) /\
   files (snd (pdf_to_image sample_U sample_C broken_file sample_w))
     !! zip_path sample_U broken_file sample_w = None /\
   files (snd (pdf_to_image sample_U sample_C broken_file sample_w))
     !! session_folder sample_U broken_file sample_w = None /\
   threads (snd (pdf_to_image sample_U sample_C broken_file sample_w)) =
     [{| target := pdf_path sample_U broken_file sample_w; started := 0; delay := 300 |}]).
Proof.
  assert (H1 : endswith (str_lower sample_U (filename broken_file)) (lit ".pdf") = true)
    by (vm_compute; reflexivity).
  assert (Hempty : forall p, files sample_w !! p <> Some Dir)
    by (intros p; unfold Sample.world, files; rewrite lookup_empty; discriminate).
  assert (Hnofile : forall d, files sample_w !! session_folder sample_U broken_file sample_w
                              <> Some (File d))
    by (intros d; unfold Sample.world, files; rewrite lookup_empty; discriminate).
  assert (FE : fst (convert_pdf_tables_to_excel sample_C
                      (pdf_path sample_U broken_file sample_w)
                      (excel_path sample_U broken_file sample_w)
                      (uploaded sample_U broken_file sample_w)) = inl broken_page)
    by (vm_compute; reflexivity).
  assert (FW : fst (convert_pdf_to_docx sample_C
                      (pdf_path sample_U broken_file sample_w)
                      (word_path sample_U broken_file sample_w)
                      (uploaded sample_U broken_file sample_w)) = inl broken_page)
    by (vm_compute; reflexivity).
  assert (FI : fst (create_images_zip sample_C
                      (pdf_path sample_U broken_file sample_w)
                      (session_folder sample_U broken_file sample_w)
                      (zip_path sample_U broken_file sample_w)
                      (base_name sample_U broken_file)
                      (session_ready sample_U broken_file sample_w)) = inl broken_page)
    by (vm_compute; reflexivity).
  pose proof (surjective_pairing
                (convert_pdf_tables_to_excel sample_C
                   (pdf_path sample_U broken_file sample_w)
                   (excel_path sample_U broken_file sample_w)
                   (uploaded sample_U broken_file sample_w))) as HE.
  pose proof (surjective_pairing
                (convert_pdf_to_docx sample_C
                   (pdf_path sample_U broken_file sample_w)
                   (word_path sample_U broken_file sample_w)
                   (uploaded sample_U broken_file sample_w))) as HW.
  pose proof (surjective_pairing
                (create_images_zip sample_C
                   (pdf_path sample_U broken_file sample_w)
                   (session_folder sample_U broken_file sample_w)
                   (zip_path sample_U broken_file sample_w)
                   (base_name sample_U broken_file)
                   (session_ready sample_U broken_file sample_w))) as HI.
  rewrite FE in HE. rewrite FW in HW. rewrite FI in HI.
  pose proof (failed_conversion_cleans_up sample_U sample_C broken_file sample_w
                H1 (Hempty _)) as (TE & TW & TI).
  specialize (TE _ _ (Hempty _) HE). specialize (TW _ _ (Hempty _) HW).
  specialize (TI _ _ Hnofile (Hempty _) HI).
  split.
  { split; [exact H1|]. split; [apply Hempty|]. split; [apply Hempty|].
    split; [apply Hempty|]. split; [exact Hnofile|]. split; [apply Hempty|].
    split; [exact FE|]. split; [exact FW | exact FI]. }
  split; [|split].
  - destruct TE as (A & B & _ & D). split; [exact A|]. split; [exact B | exact D].
  - destruct TW as (A & B & _ & D). split; [exact A|]. split; [exact B | exact D].
  - destruct TI as (A & B & B' & _ & _ & D).
    split; [exact A|]. split; [exact B|]. split; [exact B' | exact D].
Defined.

(** ** Nothing to convert *)

Lemma extract_tables_nothing (C : Collaborators) (pages : list (exn + option table)) :
  Forall no_table pages -> extract_tables C pages = inr [].
Proof.
  induction 1 as [|page rest [->| ->] _ IH]; simpl; [reflexivity | exact IH | exact IH].
Qed.

Lemma convert_pdf_tables_to_excel_no_tables (C : Collaborators) (pdf excel : pystr)
    (w : World) (pages : list (exn + option table)) :
  pdfplumber_open C (files w !! pdf) = inr pages ->
  Forall no_table pages ->
  convert_pdf_tables_to_excel C pdf excel w =
    (inl (ValueError (lit "No tables found in PDF.")), w).
Proof.
  intros Hopen Hpages. unfold convert_pdf_tables_to_excel. run.
  rewrite Hopen, (extract_tables_nothing C pages Hpages). reflexivity.
Qed.

(** C7: a PDF on whose pages [extract_table()] finds nothing makes the
    table conversion raise [ValueError("No tables found in PDF.")] without
    writing a workbook, and a PDF without pages makes the image conversion
    raise [ValueError("No pages found in PDF.")] without writing an
    archive; the endpoints answer with these messages in the JSON error
    body and leave no output file. *)
Theorem nothing_to_convert_is_an_error (U : UnicodeData) (C : Collaborators)
    (file : UploadFile) (w : World) (pages : list (exn + option table)) :
  endswith (str_lower U (filename file)) (lit ".pdf") = true ->
  cursor file = 0%nat ->
  files w !! pdf_path U file w <> Some Dir ->
  (files w !! excel_path U file w <> Some Dir ->
   pdfplumber_open C (Some (File (Bytes (payload file)))) = inr pages ->
   Forall no_table pages ->
   convert_pdf_tables_to_excel C (pdf_path U file w) (excel_path U file w)
     (uploaded U file w) =
     (inl (ValueError (lit "No tables found in PDF.")), uploaded U file w) /\
   fst (pdf_to_excel U C file w) = inr (JSON_error (lit "No tables found in PDF.")) /\
   files (snd (pdf_to_excel U C file w)) !! excel_path U file w = None) /\
  ((forall d, files w !! session_folder U file w <> Some (File d)) ->
   files w !! zip_path U file w <> Some Dir ->
   fitz_open C (Some (File (Bytes (payload file)))) = inr [] ->
   create_images_zip C (pdf_path U file w) (session_folder U file w)
     (zip_path U file w) (base_name U file) (session_ready U file w) =
     (inl (ValueError (lit "No pages found in PDF.")), session_ready U file w) /\
   fst (pdf_to_image U C file w) = inr (JSON_error (lit "No pages found in PDF.")) /\
   files (snd (pdf_to_image U C file w)) !! zip_path U file w = None).
Proof.
  intros Hvalid Hcursor Hpdf. split.
  - intros Hexcel Hopen Hpages.
    assert (Hconv : convert_pdf_tables_to_excel C (pdf_path U file w)
                      (excel_path U file w) (uploaded U file w) =
                    (inl (ValueError (lit "No tables found in PDF.")), uploaded U file w)).
    { apply (convert_pdf_tables_to_excel_no_tables C _ _ _ pages); [|exact Hpages].
      rewrite uploaded_lookup_pdf, Hcursor, drop_0. exact Hopen. }
    split; [exact Hconv|].
    destruct (pdf_to_excel_cleanup U C file w Hvalid Hpdf _ _ Hexcel Hconv)
      as (Hr & Hgone & _).
    split; [exact Hr | exact Hgone].
  - intros Hsession Hzip Hopen.
    assert (Hconv : create_images_zip C (pdf_path U file w) (session_folder U file w)
                      (zip_path U file w) (base_name U file) (session_ready U file w) =
                    (inl (ValueError (lit "No pages found in PDF.")),
                     session_ready U file w)).
    { apply create_images_zip_no_pages.
      rewrite session_ready_pdf, Hcursor, drop_0. exact Hopen. }
    split; [exact Hconv|].
    destruct (pdf_to_image_cleanup U C file w Hvalid Hpdf _ _ Hsession Hzip Hconv)
      as (Hr & Hgone & _).
    split; [exact Hr | exact Hgone].
Qed.

(** An upload of no bytes is, to the test double, a PDF without pages, so
    also one without tables. *)
Lemma nothing_to_convert_is_an_error_witness :
  (endswith (str_lower sample_U (filename empty_file)) (lit ".pdf") = true /\
   cursor empty_file = 0%nat /\
   files sample_w !! pdf_path sample_U empty_file sample_w <> Some Dir /\
   files sample_w !! excel_path sample_U empty_file sample_w <> Some Dir /\
   pdfplumber_open sample_C (Some (File (Bytes (payload empty_file)))) = inr [] /\
   Forall no_table [] /\
   (forall d, files sample_w !! session_folder sample_U empty_file sample_w <> Some (File d)) /\
   files sample_w !! zip_path sample_U empty_file sample_w <> Some Dir /\
   fitz_open sample_C (Some (File (Bytes (payload empty_file)))) = inr []) /\
  fst (pdf_to_excel sample_U sample_C empty_file sample_w) = inr (JSON_error (lit "No tables found in PDF.")) /\
  files (snd (pdf_to_excel sample_U sample_C empty_file sample_w)) !! excel_path sample_U empty_file sample_w = None /\
  fst (pdf_to_image sample_U sample_C empty_file sample_w) = inr (JSON_error (lit "No pages found in PDF.")) /\
  files (snd (pdf_to_image sample_U sample_C empty_file sample_w)) !! zip_path sample_U empty_file sample_w = None.
Proof.
  assert (H1 : endswith (str_lower sample_U (filename empty_file)) (lit ".pdf") = true)
    by (vm_compute; reflexivity).
  assert (H2 : cursor empty_file = 0%nat) by reflexivity.
  assert (Hempty : forall p, files sample_w !! p <> Some Dir)
    by (intros p; unfold Sample.world, files; rewrite lookup_empty; discriminate).
  assert (Hnofile : forall d, files sample_w !! session_folder sample_U empty_file sample_w <> Some (File d))
    by (intros d; unfold Sample.world, files; rewrite lookup_empty; discriminate).
  assert (H3 : pdfplumber_open sample_C (Some (File (Bytes (payload empty_file)))) = inr [])
    by reflexivity.
  assert (H4 : Forall no_table []) by constructor.
  assert (H5 : fitz_open sample_C (Some (File (Bytes (payload empty_file)))) = inr [])
    by reflexivity.
  pose proof (nothing_to_convert_is_an_error sample_U sample_C empty_file sample_w [] H1 H2 (Hempty _)) as (TE & TI).
  destruct (TE (Hempty _) H3 H4) as (_ & E1 & E2).
  destruct (TI Hnofile (Hempty _) H5) as (_ & I1 & I2).
  split.
  { split; [exact H1|]. split; [exact H2|]. split; [apply Hempty|].
    split; [apply Hempty|]. split; [exact H3|]. split; [exact H4|].
    split; [exact Hnofile|]. split; [apply Hempty | exact H5]. }
  split; [exact E1|]. split; [exact E2|]. split; [exact I1 | exact I2].
Defined.

(** Pages without tables, as opposed to no pages. *)
Example pdf_to_excel_pages_without_tables :
  fst (pdf_to_excel Excerpt.ucd Sample.collaborators
         (Sample.upload "blank.pdf" [x00; x00; x00]) Sample.world) =
  inr (JSON_error (lit "No tables found in PDF.")).
Proof. vm_compute. reflexivity. Qed.

(** ** One image per page *)

(** C8: when the uploaded PDF has N >= 1 pages and every page renders,
    the image endpoint answers with the zip file, and the archive at that
    path holds exactly N entries, in page order, the i-th named
    [<stem>_page_<i>.png] (counting from 1) and holding the PNG of page i,
    where [<stem>] is [safe_stem] of the uploaded filename. *)
Theorem pdf_to_image_archive (U : UnicodeData) (C : Collaborators)
    (file : UploadFile) (w : World) (pngs : list (list byte)) :
  endswith (str_lower U (filename file)) (lit ".pdf") = true ->
  cursor file = 0%nat ->
  files w !! pdf_path U file w <> Some Dir ->
  (forall d, files w !! session_folder U file w <> Some (File d)) ->
  (forall q, below (session_folder U file w) q = true -> files w !! q <> Some Dir) ->
  files w !! zip_path U file w <> Some Dir ->
  fitz_open C (Some (File (Bytes (payload file)))) = inr (map inr pngs) ->
  (1 <= length pngs)%nat ->
  let stem := safe_stem U (filename file) in
  let r := pdf_to_image U C file w in
  exists entries,
    fst r = inr (send_file U (zip_path U file w)) /\
    files (snd r) !! zip_path U file w = Some (File (Archive entries)) /\
    length entries = length pngs /\
    (forall i png, pngs !! i = Some png ->
       entries !! i =
       Some (zip_entry (stem ++ lit "_page_" ++ str_int (N.of_nat i + 1) ++ lit ".png")
               (Bytes png))) /\
    files (snd r) !! session_folder U file w = None.
Proof.
  intros Hvalid Hcursor Hpdf Hsession Hbelow Hzip Hopen Hlen stem r. subst r.
  destruct (pdf_to_image_success U C file w Hvalid Hpdf Hsession pngs)
    as (w3 & -> & Harchive & Hw).
  - rewrite Hcursor, drop_0. exact Hopen.
  - intros ->. simpl in Hlen. lia.
  - intros i. apply Hbelow, request_page_below.
  - exact Hzip.
  - exists (page_entries (base_name U file) pngs).
    cbn [fst snd files set_files set_threads].
    split; [reflexivity|]. split; [|split; [|split]].
    + rewrite rmtree_other by (apply zip_path_not_session || apply zip_path_not_below).
      exact Harchive.
    + apply length_imap.
    + intros i png Hi. unfold page_entries. rewrite list_lookup_imap, Hi. reflexivity.
    + apply rmtree_gone_self.
Qed.

Lemma pdf_to_image_archive_witness :
  (endswith (str_lower sample_U (filename statement_file)) (lit ".pdf") = true /\
   cursor statement_file = 0%nat /\
   files sample_w !! pdf_path sample_U statement_file sample_w <> Some Dir /\
   (forall d, files sample_w !! session_folder sample_U statement_file sample_w <> Some (File d)) /\
   (forall q, below (session_folder sample_U statement_file sample_w) q = true -> files sample_w !! q <> Some Dir) /\
   files sample_w !! zip_path sample_U statement_file sample_w <> Some Dir /\
   fitz_open sample_C (Some (File (Bytes (payload statement_file)))) = inr (map inr statement_pages) /\
   (1 <= length statement_pages)%nat) /\
  exists entries,
    files (snd (pdf_to_image sample_U sample_C statement_file sample_w)) !! zip_path sample_U statement_file sample_w =
      Some (File (Archive entries)) /\
    length entries = 3%nat /\
    entries !! 0%nat = Some (zip_entry (lit "Releve_2024_page_1.png")
                               (Bytes [x89; x50; x4e; x47; x01])) /\
    entries !! 2%nat = Some (zip_entry (lit "Releve_2024_page_3.png")
                               (Bytes [x89; x50; x4e; x47; x03])).
Proof.
  assert (H1 : endswith (str_lower sample_U (filename statement_file)) (lit ".pdf") = true)
    by (vm_compute; reflexivity).
  assert (H2 : cursor statement_file = 0%nat) by reflexivity.
  assert (Hempty : forall p, files sample_w !! p <> Some Dir)
    by (intros p; unfold Sample.world, files; rewrite lookup_empty; discriminate).
  assert (Hnofile : forall d, files sample_w !! session_folder sample_U statement_file sample_w <> Some (File d))
    by (intros d; unfold Sample.world, files; rewrite lookup_empty; discriminate).
  assert (H3 : fitz_open sample_C (Some (File (Bytes (payload statement_file)))) = inr (map inr statement_pages))
    by (vm_compute; reflexivity).
  assert (H4 : (1 <= length statement_pages)%nat) by (simpl; lia).
  split.
  { split; [exact H1|]. split; [exact H2|]. split; [apply Hempty|].
    split; [exact Hnofile|]. split; [intros q _; apply Hempty|].
    split; [apply Hempty|]. split; [exact H3 | exact H4]. }
  destruct (pdf_to_image_archive sample_U sample_C statement_file sample_w statement_pages H1 H2 (Hempty _) Hnofile
              (fun q _ => Hempty q) (Hempty _) H3 H4)
    as (entries & _ & Hzip & Hlen & Hnames & _).
  pose proof (Hnames 0%nat _ eq_refl) as N0.
  pose proof (Hnames 2%nat _ eq_refl) as N2.
  replace (safe_stem sample_U (filename statement_file) ++ lit "_page_" ++
           str_int (N.of_nat 0 + 1) ++ lit ".png")
    with (lit "Releve_2024_page_1.png") in N0 by (vm_compute; reflexivity).
  replace (safe_stem sample_U (filename statement_file) ++ lit "_page_" ++
           str_int (N.of_nat 2 + 1) ++ lit ".png")
    with (lit "Releve_2024_page_3.png") in N2 by (vm_compute; reflexivity).
  exists entries. split; [exact Hzip|]. split; [exact Hlen|].
  split; [exact N0 | exact N2].
Defined.

(** * Further properties *)

(** ** More on text and paths *)

(** [rfind] either finds nothing or splits the text at the last
    occurrence. *)
Lemma rfind_from_cases (c : codepoint) (s : pystr) (i : nat) (last : Z) :
  (Forall (fun x => x <> c) s /\ rfind_from c s i last = last) \/
  (exists a n, s = a ++ c :: n /\ Forall (fun x => x <> c) n /\
               rfind_from c s i last = Z.of_nat (i + length a)).
Proof.
  induction s as [|x s IH] using rev_ind.
  - left. split; [constructor | reflexivity].
  - rewrite rfind_from_app. simpl. destruct (x =? c) eqn:E.
    + apply N.eqb_eq in E. subst x. right. exists s, []. repeat split; constructor.
    + apply N.eqb_neq in E. destruct IH as [[Hs ->]|(a & n & -> & Hn & ->)].
      * left. split; [|reflexivity]. apply Forall_app. split; [exact Hs|].
        repeat constructor. exact E.
      * right. exists a, (n ++ [x]). rewrite <- app_assoc. split; [reflexivity|].
        split; [|reflexivity]. apply Forall_app. split; [exact Hn|].
        repeat constructor. exact E.
Qed.

Lemma rfind_cases (c : codepoint) (s : pystr) :
  (Forall (fun x => x <> c) s /\ rfind s c = (-1)%Z) \/
  (exists a n, s = a ++ c :: n /\ Forall (fun x => x <> c) n /\
               rfind s c = Z.of_nat (length a)).
Proof. apply rfind_from_cases. Qed.

Lemma basename_plain (n : pystr) : Forall (fun x => x <> sep) n -> basename n = n.
Proof.
  intros H. unfold basename, slice_from. rewrite rfind_absent by exact H. reflexivity.
Qed.

(** The last component of a joined path is the name that was joined,
    whatever the folder. *)
Lemma basename_path_join (a n : pystr) :
  Forall (fun x => x <> sep) n -> basename (path_join a n) = n.
Proof.
  intros H. unfold path_join.
  destruct n as [|x n'] eqn:En.
  - simpl. destruct a as [|c a']; [reflexivity|]. cbn [orb].
    destruct (endswith (c :: a') [sep]) eqn:E.
    + rewrite app_nil_r. apply endswith_inv in E as [b ->].
      change (b ++ [sep]) with (b ++ sep :: []). apply basename_join. constructor.
    + apply basename_join. constructor.
  - rewrite <- En in *. clear En.
    assert (Hs : startswith n [sep] = false).
    { destruct n as [|y r]; [reflexivity|]. inversion H; subst.
      apply startswith_head_neq. assumption. }
    rewrite Hs. destruct a as [|c a'].
    + simpl. apply basename_plain, H.
    + cbn [orb]. destruct (endswith (c :: a') [sep]) eqn:E.
      * apply endswith_inv in E as [b ->]. rewrite <- app_assoc.
        apply basename_join, H.
      * apply basename_join, H.
Qed.

(** What [splitext] returns: the two parts make up the path, and the
    extension is empty or a dot followed by characters that are neither a
    dot nor a slash. *)
Lemma splitext_parts (p : pystr) :
  fst (splitext p) ++ snd (splitext p) = p /\
  Forall (fun c => c <> sep) (snd (splitext p)) /\
  (snd (splitext p) = [] \/
   exists e, snd (splitext p) = extsep :: e /\ Forall (fun c => c <> extsep) e).
Proof.
  unfold splitext. cbv zeta.
  destruct ((rfind p sep <? rfind p extsep)%Z && _) eqn:E; cbn [fst snd].
  2:{ rewrite app_nil_r. split; [reflexivity|]. split; [constructor | left; reflexivity]. }
  apply andb_true_iff in E as [Hlt _]. apply Z.ltb_lt in Hlt.
  destruct (rfind_cases extsep p) as [[_ Hdot]|(a & n & Hp & Hn & Hdot)].
  { destruct (rfind_cases sep p) as [[_ Hs]|(a' & n' & _ & _ & Hs)]; lia. }
  rewrite Hdot in *. unfold slice_to, slice_from. rewrite Nat2Z.id.
  assert (Htake : take (length a) p = a) by (rewrite Hp; apply take_app_length).
  assert (Hdrop : drop (length a) p = extsep :: n) by (rewrite Hp; apply drop_app_length).
  rewrite Htake, Hdrop.
  split; [symmetry; exact Hp|]. split; [|right; exists n; split; [reflexivity | exact Hn]].
  destruct (rfind_cases sep p) as [[Hnone _]|(a' & n' & Hp' & Hn' & Hs)].
  - rewrite Hp in Hnone. apply Forall_app in Hnone as [_ H]. exact H.
  - rewrite Hs in Hlt. rewrite <- Hdrop, Hp'.
    change (a' ++ sep :: n') with (a' ++ [sep] ++ n').
    rewrite app_assoc, drop_app_ge by (rewrite length_app; simpl; lia).
    apply Forall_drop, Hn'.
Qed.

(** Lower-casing keeps a text free of slashes. *)
Lemma do_lower_no_separator (U : UnicodeData) (before_rev s : list codepoint) :
  lower_makes_no_separator U ->
  Forall (fun c => c <> sep) s ->
  Forall (fun c => c <> sep) (do_lower U before_rev s).
Proof.
  intros HU Hs. revert before_rev.
  induction Hs as [|c r Hc _ IH]; intros before_rev; simpl; [constructor|].
  apply Forall_app. split; [|apply IH].
  destruct (c =? 0x3A3).
  - destruct (final_sigma U before_rev r); repeat constructor; discriminate.
  - apply HU, Hc.
Qed.

Lemma excerpt_lower_makes_no_separator : lower_makes_no_separator Excerpt.ucd.
Proof.
  intros c Hc. simpl. unfold Excerpt.lower, sep in *.
  destruct ((65 <=? c) && (c <=? 90)) eqn:E1; [repeat constructor; lia|].
  repeat (destruct (c =? _); [repeat constructor; discriminate|]).
  repeat constructor. exact Hc.
Qed.

(** ** Where the files of a request go *)

Lemma output_name_allowed (U : UnicodeData) (filename : pystr) (u : N) (ext : pystr) :
  Forall (fun c => allowed c = true) ext ->
  Forall (fun c => allowed c = true) (safe_stem U filename ++ lit "_" ++ UUID_hex u ++ ext).
Proof.
  intros He. rewrite !Forall_app.
  split; [apply safe_stem_allowed|]. split; [repeat constructor|].
  split; [apply hex_digits_allowed | exact He].
Qed.

Lemma output_path_plain (U : UnicodeData) (folder filename rest : pystr) :
  folder <> [] -> endswith folder [sep] = false ->
  path_join folder (safe_stem U filename ++ rest) =
  folder ++ sep :: safe_stem U filename ++ rest.
Proof.
  intros Hne Hplain. apply path_join_plain; [exact Hne | exact Hplain |].
  apply not_startswith_sep; [apply safe_stem_allowed | apply safe_stem_nonempty].
Qed.

(** X1: whatever the uploaded filename is, directories, [..] and
    characters outside ASCII included, the output paths that the three PDF
    endpoints build from it lie directly in their storage folder: each is
    the folder, one slash, and a name made of the sanitized stem, an
    underscore, the 32 hex digits and the fixed extension, in which every
    character is a letter, a digit, ['.'], ['_'] or ['-'].  The name is
    also the last component of the path. *)
Theorem output_paths_stay_in_their_folders (U : UnicodeData) (filename : pystr) (u : N) :
  let base_name := safe_stem U filename in
  let unique_id := UUID_hex u in
  let name := base_name ++ lit "_" ++ unique_id in
  Forall (fun c => allowed c = true) name /\
  path_join EXCEL_DOWNLOAD_FOLDER (base_name ++ lit "_" ++ unique_id ++ lit ".xlsx") =
    lit "excel_outputs/" ++ name ++ lit ".xlsx" /\
  path_join WORD_DOWNLOAD_FOLDER (base_name ++ lit "_" ++ unique_id ++ lit ".docx") =
    lit "word_outputs/" ++ name ++ lit ".docx" /\
  path_join IMAGE_DOWNLOAD_FOLDER (base_name ++ lit "_" ++ unique_id) =
    lit "image_outputs/" ++ name /\
  path_join IMAGE_DOWNLOAD_FOLDER (base_name ++ lit "_" ++ unique_id ++ lit ".zip") =
    lit "image_outputs/" ++ name ++ lit ".zip" /\
  basename (lit "excel_outputs/" ++ name ++ lit ".xlsx") = name ++ lit ".xlsx" /\
  basename (lit "word_outputs/" ++ name ++ lit ".docx") = name ++ lit ".docx" /\
  basename (lit "image_outputs/" ++ name ++ lit ".zip") = name ++ lit ".zip".
Proof.
  intros base_name unique_id name.
  assert (Hname : forall ext, Forall (fun c => allowed c = true) ext ->
                              Forall (fun c => c <> sep) (name ++ ext)).
  { intros ext He. apply allowed_no_sep. unfold name. rewrite <- !app_assoc.
    apply output_name_allowed, He. }
  split.
  { pose proof (output_name_allowed U filename u [] ltac:(constructor)) as H.
    rewrite app_nil_r in H. exact H. }
  unfold base_name, name.
  rewrite !output_path_plain by (discriminate || reflexivity).
  rewrite <- !app_assoc.
  do 4 (split; [reflexivity|]).
  split; [|split].
  - change (lit "excel_outputs/") with (lit "excel_outputs" ++ [sep]).
    rewrite <- !app_assoc. cbn [app]. rewrite basename_join; [reflexivity|].
    specialize (Hname (lit ".xlsx")). unfold name, base_name, unique_id in Hname.
    rewrite <- !app_assoc in Hname. apply Hname. repeat constructor.
  - change (lit "word_outputs/") with (lit "word_outputs" ++ [sep]).
    rewrite <- !app_assoc. cbn [app]. rewrite basename_join; [reflexivity|].
    specialize (Hname (lit ".docx")). unfold name, base_name, unique_id in Hname.
    rewrite <- !app_assoc in Hname. apply Hname. repeat constructor.
  - change (lit "image_outputs/") with (lit "image_outputs" ++ [sep]).
    rewrite <- !app_assoc. cbn [app]. rewrite basename_join; [reflexivity|].
    specialize (Hname (lit ".zip")). unfold name, base_name, unique_id in Hname.
    rewrite <- !app_assoc in Hname. apply Hname. repeat constructor.
Qed.

(** A name with a directory in front, characters that the sanitizer
    replaces, and an upper-case extension. *)
Example output_paths_of_a_hostile_name :
  path_join EXCEL_DOWNLOAD_FOLDER
    (safe_stem Excerpt.ucd (lit "../../etc/pass wd.PDF") ++ lit "_" ++
     UUID_hex 0x0123456789ab4def8123456789abcdef ++ lit ".xlsx") =
  lit "excel_outputs/pass_wd_0123456789ab4def8123456789abcdef.xlsx".
Proof. vm_compute. reflexivity. Qed.

(** The name under which an upload is stored holds no slash. *)
Lemma unique_name_no_separator (U : UnicodeData) (filename : pystr) (u : N) :
  lower_makes_no_separator U ->
  let ext := snd (splitext filename) in
  Forall (fun c => c <> sep)
    (UUID_hex u ++ match ext with [] => [] | _ => str_lower U ext end).
Proof.
  intros HU ext. apply Forall_app. split.
  - apply allowed_no_sep, hex_digits_allowed.
  - destruct (splitext_parts filename) as (_ & Hsep & _). fold ext in Hsep.
    destruct ext as [|c e]; [constructor|].
    apply do_lower_no_separator; assumption.
Qed.

(** X2: [save_upload_file] stores an upload directly in the destination
    folder, whatever its filename: the path it returns is the folder joined
    with a name that starts with the 32 hex digits and holds no slash, so
    that the name is the last component of the path.  (The extension is
    taken from the filename as it is, not sanitized; it cannot hold a slash
    because it starts at the last dot of the last component, and
    lower-casing brings none in.) *)
Theorem stored_upload_stays_in_its_folder (U : UnicodeData) (upload_file : UploadFile)
    (destination_folder : pystr) (w : World) :
  lower_makes_no_separator U ->
  files w !! upload_path U upload_file destination_folder w <> Some Dir ->
  exists rest upload_file',
    let unique_name := UUID_hex (uuid4_int (urandom w (drawn w))) ++ rest in
    fst (save_upload_file U upload_file destination_folder w) =
      inr (path_join destination_folder unique_name, upload_file') /\
    Forall (fun c => c <> sep) unique_name /\
    basename (path_join destination_folder unique_name) = unique_name.
Proof.
  intros HU Hdir.
  pose proof (unique_name_no_separator U (filename upload_file)
                (uuid4_int (urandom w (drawn w))) HU) as Hname.
  cbv zeta in Hname.
  eexists _, _. cbv zeta. split; [|split].
  - rewrite save_upload_file_spec by exact Hdir. reflexivity.
  - exact Hname.
  - apply basename_path_join, Hname.
Qed.

Lemma stored_upload_stays_in_its_folder_witness :
  let upload_file := Sample.upload "a/b/Scan.Final.PDF" [x25; x50] in
  lower_makes_no_separator Excerpt.ucd /\
  files Sample.world !! upload_path Excerpt.ucd upload_file PDF_DOWNLOAD_FOLDER Sample.world
    <> Some Dir /\
  exists rest upload_file',
    fst (save_upload_file Excerpt.ucd upload_file PDF_DOWNLOAD_FOLDER Sample.world) =
      inr (path_join PDF_DOWNLOAD_FOLDER
             (UUID_hex (uuid4_int (urandom Sample.world (drawn Sample.world))) ++ rest),
           upload_file').
Proof.
  intros upload_file.
  assert (H1 : files Sample.world !!
                 upload_path Excerpt.ucd upload_file PDF_DOWNLOAD_FOLDER Sample.world
               <> Some Dir)
    by (unfold Sample.world, files; rewrite lookup_empty; discriminate).
  split; [exact excerpt_lower_makes_no_separator|]. split; [exact H1|].
  destruct (stored_upload_stays_in_its_folder Excerpt.ucd upload_file PDF_DOWNLOAD_FOLDER
              Sample.world excerpt_lower_makes_no_separator H1)
    as (rest & upload_file' & Hrun & _).
  exists rest, upload_file'. exact Hrun.
Defined.

Example stored_upload_of_a_nested_name :
  fst (save_upload_file Excerpt.ucd (Sample.upload "a/b/Scan.Final.PDF" [x25; x50])
         PDF_DOWNLOAD_FOLDER Sample.world) =
  inr (lit "pdf_uploads/0123456789ab4def8123456789abcdef.pdf",
       Sample.upload "a/b/Scan.Final.PDF" [x25; x50]).
Proof. vm_compute. reflexivity. Qed.

(** ** The stem of a plain name *)

Lemma splitext_plain (stem ext : pystr) :
  Forall (fun c => c <> sep) stem ->
  Exists (fun c => c <> extsep) stem ->
  Forall (fun c => c <> sep /\ c <> extsep) ext ->
  splitext (stem ++ extsep :: ext) = (stem, extsep :: ext).
Proof.
  intros Hstem Hdots Hext. unfold splitext. cbv zeta.
  assert (Hsep : rfind (stem ++ extsep :: ext) sep = (-1)%Z).
  { apply rfind_absent, Forall_app. split; [exact Hstem|].
    constructor; [discriminate|]. eapply Forall_impl; [exact Hext|].
    intros c [H _]. exact H. }
  assert (Hdot : rfind (stem ++ extsep :: ext) extsep = Z.of_nat (length stem)).
  { apply rfind_last. eapply Forall_impl; [exact Hext|]. intros c [_ H]. exact H. }
  rewrite Hsep, Hdot. unfold slice, slice_to, slice_from.
  rewrite Nat2Z.id. change (Z.to_nat (-1 + 1)) with 0%nat.
  rewrite take_app_length, drop_app_length, drop_0.
  replace (-1 <? Z.of_nat (length stem))%Z with true by lia. cbn [andb].
  replace (existsb (fun c => negb (c =? extsep)) stem) with true; [reflexivity|].
  symmetry. apply existsb_exists. apply List.Exists_exists in Hdots as (c & Hin & Hc).
  exists c. split; [exact Hin|]. apply N.eqb_neq in Hc. rewrite Hc. reflexivity.
Qed.

(** X3: [safe_stem] looks at the last component only, and gives back the
    stem of a plain name as it is: for a stem made of allowed characters,
    not all of them dots, followed by a dot and an extension without dot or
    slash, the result is the stem, with or without directories in
    front. *)
Theorem safe_stem_of_a_plain_name (U : UnicodeData) (dir stem ext : pystr) :
  ascii_compatible U ->
  Forall (fun c => allowed c = true) stem ->
  Exists (fun c => c <> extsep) stem ->
  Forall (fun c => c <> sep /\ c <> extsep) ext ->
  safe_stem U (stem ++ extsep :: ext) = stem /\
  safe_stem U (dir ++ sep :: stem ++ extsep :: ext) = stem /\
  (forall name, Forall (fun c => c <> sep) name ->
                safe_stem U (dir ++ sep :: name) = safe_stem U name).
Proof.
  intros HU Hstem Hdots Hext.
  assert (Hnosep : Forall (fun c => c <> sep) (stem ++ extsep :: ext)).
  { apply Forall_app. split; [apply allowed_no_sep, Hstem|].
    constructor; [discriminate|]. eapply Forall_impl; [exact Hext|].
    intros c [H _]. exact H. }
  assert (Hplain : safe_stem U (stem ++ extsep :: ext) = stem).
  { unfold safe_stem. cbv zeta. rewrite basename_plain by exact Hnosep.
    rewrite splitext_plain by (auto using allowed_no_sep). cbn [fst].
    rewrite (ascii_filename_fixed U HU stem Hstem).
    destruct stem as [|c r]; [|reflexivity]. inversion Hdots. }
  assert (Hdir : forall name, Forall (fun c => c <> sep) name ->
                              safe_stem U (dir ++ sep :: name) = safe_stem U name).
  { intros name Hname. unfold safe_stem. cbv zeta.
    rewrite basename_join, basename_plain by exact Hname. reflexivity. }
  split; [exact Hplain|]. split; [|exact Hdir].
  rewrite Hdir by exact Hnosep. exact Hplain.
Qed.

Lemma safe_stem_of_a_plain_name_witness :
  ascii_compatible Excerpt.ucd /\
  Forall (fun c => allowed c = true) (lit "report.v2") /\
  Exists (fun c => c <> extsep) (lit "report.v2") /\
  Forall (fun c => c <> sep /\ c <> extsep) (lit "pdf") /\
  safe_stem Excerpt.ucd (lit "/tmp/in" ++ sep :: lit "report.v2" ++ extsep :: lit "pdf") =
    lit "report.v2".
Proof.
  assert (H1 : Forall (fun c => allowed c = true) (lit "report.v2"))
    by (repeat constructor).
  assert (H2 : Exists (fun c => c <> extsep) (lit "report.v2"))
    by (apply Exists_cons_hd; discriminate).
  assert (H3 : Forall (fun c => c <> sep /\ c <> extsep) (lit "pdf"))
    by (repeat constructor; discriminate).
  split; [exact excerpt_ascii_compatible|]. split; [exact H1|].
  split; [exact H2|]. split; [exact H3|].
  exact (proj1 (proj2 (safe_stem_of_a_plain_name Excerpt.ucd (lit "/tmp/in")
                         (lit "report.v2") (lit "pdf")
                         excerpt_ascii_compatible H1 H2 H3))).
Defined.

(** ** The check on the uploaded name *)

Lemma pdf_check_tail (U : UnicodeData) (stem tail : pystr) :
  ascii_lower_compatible U ->
  length tail = 4%nat ->
  Forall (fun c => is_ascii c = true) tail ->
  endswith (str_lower U (stem ++ tail)) (lit ".pdf") = true <->
  map ascii_lower_char tail = lit ".pdf".
Proof.
  intros HU Hlen Hascii. unfold str_lower.
  destruct (do_lower_app U [] stem tail) as [x ->].
  rewrite (do_lower_ascii U _ tail HU Hascii).
  apply endswith_same_length. rewrite length_map. exact Hlen.
Qed.

(** X4: the three PDF endpoints decide by the last four characters of the
    uploaded name, ASCII letters compared without regard to case, and by
    nothing else.  When these characters are ASCII, the check passes
    exactly when they read [.pdf] in lower case; when they do not, the
    endpoint answers ["Please upload a PDF file."] and has done nothing:
    no file stored, no identifier drawn, no deletion scheduled. *)
Theorem pdf_check_reads_the_last_four_characters (U : UnicodeData) (C : Collaborators)
    (file : UploadFile) (stem tail : pystr) (w : World) :
  ascii_lower_compatible U ->
  filename file = stem ++ tail ->
  length tail = 4%nat ->
  Forall (fun c => is_ascii c = true) tail ->
  (endswith (str_lower U (filename file)) (lit ".pdf") = true <->
   map ascii_lower_char tail = lit ".pdf") /\
  (map ascii_lower_char tail <> lit ".pdf" ->
   pdf_to_excel U C file w = (inr (JSON_error (lit "Please upload a PDF file.")), w) /\
   pdf_to_word U C file w = (inr (JSON_error (lit "Please upload a PDF file.")), w) /\
   pdf_to_image U C file w = (inr (JSON_error (lit "Please upload a PDF file.")), w)).
Proof.
  intros HU Hname Hlen Hascii.
  pose proof (pdf_check_tail U stem tail HU Hlen Hascii) as Hcheck.
  rewrite <- Hname in Hcheck. split; [exact Hcheck|].
  intros Hne.
  assert (E : endswith (str_lower U (filename file)) (lit ".pdf") = false).
  { destruct (endswith _ _); [|reflexivity]. destruct Hne. apply Hcheck. reflexivity. }
  unfold pdf_to_excel, pdf_to_word, pdf_to_image. rewrite E.
  repeat split; reflexivity.
Qed.

Lemma pdf_check_reads_the_last_four_characters_witness :
  let file := Sample.upload "report.pdf.docx" [x50; x4b] in
  ascii_lower_compatible Excerpt.ucd /\
  filename file = lit "report.pdf." ++ lit "docx" /\
  length (lit "docx") = 4%nat /\
  Forall (fun c => is_ascii c = true) (lit "docx") /\
  pdf_to_excel Excerpt.ucd Sample.collaborators file Sample.world =
    (inr (JSON_error (lit "Please upload a PDF file.")), Sample.world).
Proof.
  intros file.
  assert (H1 : filename file = lit "report.pdf." ++ lit "docx") by reflexivity.
  assert (H2 : length (lit "docx") = 4%nat) by reflexivity.
  assert (H3 : Forall (fun c => is_ascii c = true) (lit "docx")) by (repeat constructor).
  assert (H4 : map ascii_lower_char (lit "docx") <> lit ".pdf") by discriminate.
  split; [exact excerpt_ascii_lower_compatible|]. split; [exact H1|].
  split; [exact H2|]. split; [exact H3|].
  exact (proj1 (proj2 (pdf_check_reads_the_last_four_characters Excerpt.ucd
                         Sample.collaborators file (lit "report.pdf.") (lit "docx")
                         Sample.world excerpt_ascii_lower_compatible H1 H2 H3) H4)).
Defined.

(** Upper case passes. *)
Example pdf_check_accepts_upper_case :
  endswith (str_lower Excerpt.ucd (lit "R" ++ [0xC9] ++ lit "SUM" ++ [0xC9] ++ lit ".PDF"))
    (lit ".pdf") = true.
Proof. reflexivity. Qed.

(** ** A workbook of the tables *)

Section Spreadsheet.
Variable C : Collaborators.

Lemma extract_tables_found (tables : list (option table)) (dfs : list DataFrame) :
  Forall2 (fun hr df => pd_DataFrame C (snd hr) (fst hr) = inr df)
    (found_tables tables) dfs ->
  extract_tables C (map inr tables) = inr dfs.
Proof.
  revert dfs. induction tables as [|t rest IH]; intros dfs H; simpl in *.
  - inversion H. reflexivity.
  - destruct t as [[|header rows]|]; simpl in *; try (apply IH, H).
    inversion H as [|? df ? dfs' Hdf Hrest]; subst. simpl in Hdf.
    rewrite Hdf, (IH dfs' Hrest). reflexivity.
Qed.

Lemma write_sheets_ok (k : nat) (dfs : list DataFrame) :
  (forall i df, dfs !! i = Some df ->
     to_excel C df (lit "Sheet" ++ str_int (N.of_nat (k + i) + 1)) = None) ->
  write_sheets C k dfs = (imap (fun i df => sheet_of (k + i) df) dfs, None).
Proof.
  revert k. induction dfs as [|df rest IH]; intros k H; [reflexivity|].
  cbn [write_sheets imap].
  pose proof (H 0%nat df eq_refl) as H0. rewrite Nat.add_0_r in H0. rewrite H0.
  rewrite (IH (S k)).
  - rewrite Nat.add_0_r. unfold sheet_of at 2. do 2 f_equal.
    apply imap_ext. intros i d _. unfold compose. f_equal. lia.
  - intros i d Hi. replace (S k + i)%nat with (k + S i)%nat by lia. apply H. exact Hi.
Qed.

Lemma sheet_names_distinct (dfs : list DataFrame) :
  NoDup (map sheet_name (imap sheet_of dfs)).
Proof.
  apply NoDup_alt. intros i j name Hi Hj.
  rewrite list_lookup_fmap, list_lookup_imap in Hi, Hj.
  destruct (dfs !! i) as [di|]; [|discriminate].
  destruct (dfs !! j) as [dj|]; [|discriminate].
  change (Some (lit "Sheet" ++ str_int (N.of_nat i + 1)) = Some name) in Hi.
  change (Some (lit "Sheet" ++ str_int (N.of_nat j + 1)) = Some name) in Hj.
  assert (E : lit "Sheet" ++ str_int (N.of_nat i + 1) =
              lit "Sheet" ++ str_int (N.of_nat j + 1)) by congruence.
  apply app_inv_head, str_int_inj in E. lia.
Qed.

Lemma convert_pdf_tables_to_excel_ok (pdf excel : pystr) (w : World)
    (tables : list (option table)) (dfs : list DataFrame) :
  pdfplumber_open C (files w !! pdf) = inr (map inr tables) ->
  Forall2 (fun hr df => pd_DataFrame C (snd hr) (fst hr) = inr df)
    (found_tables tables) dfs ->
  dfs <> [] ->
  (forall i df, dfs !! i = Some df ->
     to_excel C df (lit "Sheet" ++ str_int (N.of_nat i + 1)) = None) ->
  files w !! excel <> Some Dir ->
  convert_pdf_tables_to_excel C pdf excel w =
    (inr tt, set_files (insert excel (File (Workbook (imap sheet_of dfs)))) w).
Proof.
  intros Hopen Hfound Hne Hsheets Hexcel. unfold convert_pdf_tables_to_excel. run.
  rewrite Hopen, (extract_tables_found tables dfs Hfound).
  destruct dfs as [|df rest]; [contradiction|].
  rewrite (write_sheets_ok 0 (df :: rest)) by exact Hsheets.
  rewrite write_file_ok by exact Hexcel. reflexivity.
Qed.

(** When the conversion returns, a workbook is at the output path and
    nothing else has changed. *)
Lemma convert_pdf_tables_to_excel_returns (pdf excel : pystr) (w w3 : World) :
  convert_pdf_tables_to_excel C pdf excel w = (inr tt, w3) ->
  exists sheets, w3 = set_files (insert excel (File (Workbook sheets))) w.
Proof.
  unfold convert_pdf_tables_to_excel. run.
  destruct (pdfplumber_open C _) as [e|pages]; [discriminate|].
  destruct (extract_tables C pages) as [e|[|df dfs]]; try discriminate.
  destruct (write_sheets C 0 (df :: dfs)) as [sheets err].
  destruct (write_file_cases excel (Workbook sheets) w) as [[_ [e ->]]|[_ ->]];
    [discriminate|].
  destruct err; [discriminate|]. intros [= <-]. exists sheets. reflexivity.
Qed.
End Spreadsheet.

(** X5: [convert_pdf_tables_to_excel] on a PDF that opens, whose pages
    all answer [extract_table()] and whose kept tables all make a
    DataFrame and a sheet without an exception.  A page without a table,
    or with an empty one, is skipped; every other page gives one sheet, in
    page order, named [Sheet1], [Sheet2], ... by its rank among the kept
    tables (not by its page number), built from the first row as the
    header and the other rows as the data.  No two sheets share a name,
    and the workbook is all that is written. *)
Theorem convert_pdf_tables_to_excel_workbook (C : Collaborators)
    (pdf_path excel_path : pystr) (w : World)
    (tables : list (option table)) (dfs : list DataFrame) :
  pdfplumber_open C (files w !! pdf_path) = inr (map inr tables) ->
  Forall2 (fun hr df => pd_DataFrame C (snd hr) (fst hr) = inr df)
    (found_tables tables) dfs ->
  dfs <> [] ->
  (forall i df, dfs !! i = Some df ->
     to_excel C df (lit "Sheet" ++ str_int (N.of_nat i + 1)) = None) ->
  files w !! excel_path <> Some Dir ->
  let sheets := imap sheet_of dfs in
  convert_pdf_tables_to_excel C pdf_path excel_path w =
    (inr tt, set_files (insert excel_path (File (Workbook sheets))) w) /\
  length sheets = length (found_tables tables) /\
  (forall i header rows, found_tables tables !! i = Some (header, rows) ->
     exists df, pd_DataFrame C rows header = inr df /\
                sheets !! i = Some {| sheet_name := lit "Sheet" ++ str_int (N.of_nat i + 1);
                                      frame := df |}) /\
  NoDup (map sheet_name sheets).
Proof.
  intros Hopen Hfound Hne Hsheets Hexcel sheets.
  split; [apply (convert_pdf_tables_to_excel_ok C _ _ _ tables); assumption|].
  split; [unfold sheets; rewrite length_imap; symmetry; eapply Forall2_length, Hfound|].
  split; [|apply sheet_names_distinct].
  intros i header rows Hi.
  destruct (Forall2_lookup_l _ _ _ _ _ Hfound Hi) as (df & Hdf & Hpd).
  exists df. split; [exact Hpd|].
  unfold sheets. rewrite list_lookup_imap, Hdf. reflexivity.
Qed.

(** A document of four pages: a table, no table, an empty table, a
    table. *)
Lemma convert_pdf_tables_to_excel_workbook_witness :
  let C := {| pdfplumber_open _ :=
                inr [inr (Some [[Some (lit "name")]; [Some (lit "Ada")]]);
                     inr None;
                     inr (Some []);
                     inr (Some [[Some (lit "city"); None]])];
              pd_DataFrame rows header := inr {| columns := header; data := rows |};
              to_excel _ _ := None;
              Converter_init := Converter_init Sample.collaborators;
              Converter_convert := Converter_convert Sample.collaborators;
              fitz_open := fitz_open Sample.collaborators;
              YoutubeDL := YoutubeDL Sample.collaborators |} in
  let tables := [Some [[Some (lit "name")]; [Some (lit "Ada")]]; None; Some [];
                 Some [[Some (lit "city"); None]]] in
  let dfs := [{| columns := [Some (lit "name")]; data := [[Some (lit "Ada")]] |};
              {| columns := [Some (lit "city"); None]; data := [] |}] in
  (pdfplumber_open C (files Sample.world !! lit "pdf_uploads/a.pdf") = inr (map inr tables) /\
   Forall2 (fun hr df => pd_DataFrame C (snd hr) (fst hr) = inr df) (found_tables tables) dfs /\
   dfs <> [] /\
   (forall i df, dfs !! i = Some df ->
      to_excel C df (lit "Sheet" ++ str_int (N.of_nat i + 1)) = None) /\
   files Sample.world !! lit "excel_outputs/a.xlsx" <> Some Dir) /\
  convert_pdf_tables_to_excel C (lit "pdf_uploads/a.pdf") (lit "excel_outputs/a.xlsx")
    Sample.world =
    (inr tt,
     set_files (insert (lit "excel_outputs/a.xlsx")
                  (File (Workbook
                     [{| sheet_name := lit "Sheet1";
                         frame := {| columns := [Some (lit "name")];
                                     data := [[Some (lit "Ada")]] |} |};
                      {| sheet_name := lit "Sheet2";
                         frame := {| columns := [Some (lit "city"); None];
                                     data := [] |} |}])))
       Sample.world).
Proof.
  intros C tables dfs.
  assert (H1 : pdfplumber_open C (files Sample.world !! lit "pdf_uploads/a.pdf") =
               inr (map inr tables)) by reflexivity.
  assert (H2 : Forall2 (fun hr df => pd_DataFrame C (snd hr) (fst hr) = inr df)
                 (found_tables tables) dfs) by (repeat constructor).
  assert (H3 : dfs <> []) by discriminate.
  assert (H4 : forall i df, dfs !! i = Some df ->
                 to_excel C df (lit "Sheet" ++ str_int (N.of_nat i + 1)) = None)
    by reflexivity.
  assert (H5 : files Sample.world !! lit "excel_outputs/a.xlsx" <> Some Dir)
    by (unfold Sample.world, files; rewrite lookup_empty; discriminate).
  split; [split; [exact H1|]; split; [exact H2|]; split; [exact H3|];
          split; [exact H4 | exact H5]|].
  exact (proj1 (convert_pdf_tables_to_excel_workbook C (lit "pdf_uploads/a.pdf")
                  (lit "excel_outputs/a.xlsx") Sample.world tables dfs H1 H2 H3 H4 H5)).
Defined.

(** ** Conversions that succeed *)

(** A file of an allowed name is sent under that name. *)
Lemma send_file_plain (U : UnicodeData) (folder name : pystr) :
  ascii_compatible U ->
  Forall (fun c => allowed c = true) name ->
  send_file U (path_join folder name) =
    FileResponse (path_join folder name) name (content_disposition name).
Proof.
  intros HU Hname. unfold send_file. cbv zeta.
  rewrite basename_path_join by apply allowed_no_sep, Hname.
  rewrite (ascii_filename_fixed U HU name Hname). reflexivity.
Qed.

Section Successes.
Variable U : UnicodeData.
Variable C : Collaborators.
Variable file : UploadFile.
Variable w : World.

Hypothesis HU : ascii_compatible U.
Hypothesis Hvalid : endswith (str_lower U (filename file)) (lit ".pdf") = true.
Hypothesis Hpdf : files w !! pdf_path U file w <> Some Dir.

Let stored : option Node := Some (File (Bytes (drop (cursor file) (payload file)))).

Lemma send_excel :
  send_file U (excel_path U file w) =
    FileResponse (excel_path U file w)
      (base_name U file ++ lit "_" ++ unique_id w ++ lit ".xlsx")
      (content_disposition (base_name U file ++ lit "_" ++ unique_id w ++ lit ".xlsx")).
Proof.
  apply send_file_plain; [exact HU|]. apply output_name_allowed. repeat constructor.
Qed.

Lemma send_word :
  send_file U (word_path U file w) =
    FileResponse (word_path U file w)
      (base_name U file ++ lit "_" ++ unique_id w ++ lit ".docx")
      (content_disposition (base_name U file ++ lit "_" ++ unique_id w ++ lit ".docx")).
Proof.
  apply send_file_plain; [exact HU|]. apply output_name_allowed. repeat constructor.
Qed.

Lemma send_zip :
  send_file U (zip_path U file w) =
    FileResponse (zip_path U file w)
      (base_name U file ++ lit "_" ++ unique_id w ++ lit ".zip")
      (content_disposition (base_name U file ++ lit "_" ++ unique_id w ++ lit ".zip")).
Proof.
  apply send_file_plain; [exact HU|]. apply output_name_allowed. repeat constructor.
Qed.

Lemma pdf_to_excel_returns (w3 : World) :
  convert_pdf_tables_to_excel C (pdf_path U file w) (excel_path U file w)
    (uploaded U file w) = (inr tt, w3) ->
  exists sheets,
    pdf_to_excel U C file w =
      (inr (send_file U (excel_path U file w)),
       set_threads (fun ts => ts ++ [deletion (pdf_path U file w) 300 w;
                                     deletion (excel_path U file w) 600 w])
         (set_files (insert (excel_path U file w) (File (Workbook sheets)))
            (uploaded U file w))).
Proof.
  intros Hconv.
  destruct (convert_pdf_tables_to_excel_returns C _ _ _ _ Hconv) as [sheets Hw3].
  exists sheets. rewrite pdf_to_excel_unfold, Hconv by assumption.
  unfold bind at 1. rewrite delete_file_later_run.
  unfold bind at 1. rewrite delete_file_later_run. unfold ret. subst w3.
  unfold deletion, set_threads. cbn [files clock threads urandom drawn set_files uploaded set_drawn].
  rewrite <- app_assoc. reflexivity.
Qed.

Lemma pdf_to_word_returns (b : list byte) :
  files w !! word_path U file w <> Some Dir ->
  Converter_init C stored = None ->
  Converter_convert C stored = (Some b, None) ->
  pdf_to_word U C file w =
    (inr (send_file U (word_path U file w)),
     set_threads (fun ts => ts ++ [deletion (pdf_path U file w) 300 w;
                                   deletion (word_path U file w) 600 w])
       (set_files (insert (word_path U file w) (File (Bytes b))) (uploaded U file w))).
Proof.
  intros Hword Hinit Hconvert.
  assert (Hconv : convert_pdf_to_docx C (pdf_path U file w) (word_path U file w)
                    (uploaded U file w) =
                  (inr tt, set_files (insert (word_path U file w) (File (Bytes b)))
                             (uploaded U file w))).
  { unfold convert_pdf_to_docx. run. rewrite uploaded_lookup_pdf. fold stored.
    rewrite Hinit, Hconvert. rewrite write_file_ok; [reflexivity|].
    rewrite uploaded_lookup_other by apply not_eq_sym, pdf_path_not_word. exact Hword. }
  rewrite pdf_to_word_unfold, Hconv by assumption.
  unfold bind at 1. rewrite delete_file_later_run.
  unfold bind at 1. rewrite delete_file_later_run. unfold ret.
  unfold deletion, set_threads. cbn [files clock threads urandom drawn set_files uploaded set_drawn].
  rewrite <- app_assoc. reflexivity.
Qed.
End Successes.

(** X6: when the table conversion returns, [pdf_to_excel] answers with
    the workbook as a download named [<stem>_<hex>.xlsx], the name being
    the last component of the output path, unchanged by the sanitizer.
    The workbook and the stored upload are on disk, every other path is as
    it was, and exactly two deletions have been queued: the upload with a
    delay of 300 seconds and the workbook with a delay of 600. *)
Theorem pdf_to_excel_success (U : UnicodeData) (C : Collaborators)
    (file : UploadFile) (w w3 : World) :
  ascii_compatible U ->
  endswith (str_lower U (filename file)) (lit ".pdf") = true ->
  files w !! pdf_path U file w <> Some Dir ->
  convert_pdf_tables_to_excel C (pdf_path U file w) (excel_path U file w)
    (uploaded U file w) = (inr tt, w3) ->
  let r := pdf_to_excel U C file w in
  let name := safe_stem U (filename file) ++ lit "_" ++ unique_id w ++ lit ".xlsx" in
  fst r = inr (FileResponse (path_join EXCEL_DOWNLOAD_FOLDER name) name
                 [(lit "Content-Disposition",
                   lit "attachment; filename=" ++ [34] ++ name ++ [34])]) /\
  (exists sheets,
     files (snd r) !! path_join EXCEL_DOWNLOAD_FOLDER name = Some (File (Workbook sheets))) /\
  files (snd r) !! pdf_path U file w =
    Some (File (Bytes (drop (cursor file) (payload file)))) /\
  (forall q, q <> pdf_path U file w -> q <> path_join EXCEL_DOWNLOAD_FOLDER name ->
             files (snd r) !! q = files w !! q) /\
  threads (snd r) =
    threads w ++ [{| target := pdf_path U file w; started := clock w; delay := 300 |};
                  {| target := path_join EXCEL_DOWNLOAD_FOLDER name;
                     started := clock w; delay := 600 |}].
Proof.
  intros HU Hvalid Hpdf Hconv r name. subst r.
  destruct (pdf_to_excel_returns U C file w Hvalid Hpdf w3 Hconv) as [sheets ->].
  rewrite (send_excel U file w HU).
  change (path_join EXCEL_DOWNLOAD_FOLDER name) with (excel_path U file w).
  cbn [fst snd files threads set_files set_threads].
  split; [reflexivity|]. split; [exists sheets; apply lookup_insert_eq|].
  split; [|split; [|reflexivity]].
  - rewrite lookup_insert_ne by apply not_eq_sym, pdf_path_not_excel.
    apply uploaded_lookup_pdf.
  - intros q Hq1 Hq2. rewrite lookup_insert_ne by congruence.
    apply uploaded_lookup_other, Hq1.
Qed.

(** X7: when the converter opens the stored upload and writes the
    document without raising, [pdf_to_word] answers with the document as a
    download named [<stem>_<hex>.docx].  The document and the stored
    upload are on disk, every other path is as it was, and the upload is
    queued for deletion after 300 seconds, the document after 600. *)
Theorem pdf_to_word_success (U : UnicodeData) (C : Collaborators)
    (file : UploadFile) (w : World) (b : list byte) :
  ascii_compatible U ->
  endswith (str_lower U (filename file)) (lit ".pdf") = true ->
  files w !! pdf_path U file w <> Some Dir ->
  let name := safe_stem U (filename file) ++ lit "_" ++ unique_id w ++ lit ".docx" in
  let stored := Some (File (Bytes (drop (cursor file) (payload file)))) in
  files w !! path_join WORD_DOWNLOAD_FOLDER name <> Some Dir ->
  Converter_init C stored = None ->
  Converter_convert C stored = (Some b, None) ->
  let r := pdf_to_word U C file w in
  fst r = inr (FileResponse (path_join WORD_DOWNLOAD_FOLDER name) name
                 [(lit "Content-Disposition",
                   lit "attachment; filename=" ++ [34] ++ name ++ [34])]) /\
  files (snd r) !! path_join WORD_DOWNLOAD_FOLDER name = Some (File (Bytes b)) /\
  files (snd r) !! pdf_path U file w = stored /\
  (forall q, q <> pdf_path U file w -> q <> path_join WORD_DOWNLOAD_FOLDER name ->
             files (snd r) !! q = files w !! q) /\
  threads (snd r) =
    threads w ++ [{| target := pdf_path U file w; started := clock w; delay := 300 |};
                  {| target := path_join WORD_DOWNLOAD_FOLDER name;
                     started := clock w; delay := 600 |}].
Proof.
  intros HU Hvalid Hpdf name stored Hword Hinit Hconvert r. subst r.
  change (path_join WORD_DOWNLOAD_FOLDER name) with (word_path U file w) in *.
  rewrite (pdf_to_word_returns U C file w Hvalid Hpdf b Hword Hinit Hconvert).
  rewrite (send_word U file w HU).
  cbn [fst snd files threads set_files set_threads].
  split; [reflexivity|]. split; [apply lookup_insert_eq|].
  split; [|split; [|reflexivity]].
  - rewrite lookup_insert_ne by apply not_eq_sym, pdf_path_not_word.
    apply uploaded_lookup_pdf.
  - intros q Hq1 Hq2. rewrite lookup_insert_ne by congruence.
    apply uploaded_lookup_other, Hq1.
Qed.

(** X8: when every page renders, [pdf_to_image] answers with the archive
    as a download named [<stem>_<hex>.zip] and leaves no page image
    behind: the session folder is gone with everything below it.  The
    stored upload is on disk, every path outside the session folder other
    than the archive and the upload is as it was, and the upload is queued
    for deletion after 300 seconds, the archive after 600. *)
Theorem pdf_to_image_success_cleans_up (U : UnicodeData) (C : Collaborators)
    (file : UploadFile) (w : World) (pngs : list (list byte)) :
  ascii_compatible U ->
  endswith (str_lower U (filename file)) (lit ".pdf") = true ->
  files w !! pdf_path U file w <> Some Dir ->
  let name := safe_stem U (filename file) ++ lit "_" ++ unique_id w in
  let session_folder := path_join IMAGE_DOWNLOAD_FOLDER name in
  let zip_path := path_join IMAGE_DOWNLOAD_FOLDER (name ++ lit ".zip") in
  let stored := Some (File (Bytes (drop (cursor file) (payload file)))) in
  (forall d, files w !! session_folder <> Some (File d)) ->
  (forall q, below session_folder q = true -> files w !! q <> Some Dir) ->
  files w !! zip_path <> Some Dir ->
  fitz_open C stored = inr (map inr pngs) ->
  pngs <> [] ->
  let r := pdf_to_image U C file w in
  fst r = inr (FileResponse zip_path (name ++ lit ".zip")
                 [(lit "Content-Disposition",
                   lit "attachment; filename=" ++ [34] ++ (name ++ lit ".zip") ++ [34])]) /\
  files (snd r) !! session_folder = None /\
  (forall q, below session_folder q = true -> files (snd r) !! q = None) /\
  files (snd r) !! pdf_path U file w = stored /\
  (forall q, q <> pdf_path U file w -> q <> zip_path -> q <> session_folder ->
             below session_folder q = false -> files (snd r) !! q = files w !! q) /\
  threads (snd r) =
    threads w ++ [{| target := pdf_path U file w; started := clock w; delay := 300 |};
                  {| target := zip_path; started := clock w; delay := 600 |}].
Proof.
  intros HU Hvalid Hpdf. cbv zeta.
  replace ((safe_stem U (filename file) ++ lit "_" ++ unique_id w) ++ lit ".zip")
    with (safe_stem U (filename file) ++ lit "_" ++ unique_id w ++ lit ".zip")
    by (rewrite <- !app_assoc; reflexivity).
  change (path_join IMAGE_DOWNLOAD_FOLDER
            (safe_stem U (filename file) ++ lit "_" ++ unique_id w ++ lit ".zip"))
    with (zip_path U file w).
  change (path_join IMAGE_DOWNLOAD_FOLDER
            (safe_stem U (filename file) ++ lit "_" ++ unique_id w))
    with (session_folder U file w).
  intros Hsession Hbelow Hzip Hopen Hne.
  destruct (pdf_to_image_success U C file w Hvalid Hpdf Hsession pngs Hopen Hne)
    as (w3 & -> & _ & Hw).
  { intros i. apply Hbelow, request_page_below. }
  { exact Hzip. }
  rewrite (send_zip U file w HU).
  cbn [fst snd files threads set_files set_threads].
  split; [reflexivity|]. split; [apply rmtree_gone_self|].
  split; [intros q Hq; apply rmtree_gone_below, Hq|].
  split; [|split].
  - rewrite rmtree_other by (apply pdf_path_not_session || apply pdf_path_not_below).
    rewrite (conversion_keeps U file w w3 _ Hw)
      by (apply pdf_path_not_zip || apply pdf_path_not_below).
    apply session_ready_pdf.
  - intros q Hq1 Hq2 Hq3 Hq4. rewrite rmtree_other by assumption.
    rewrite (conversion_keeps U file w w3 _ Hw) by assumption.
    rewrite session_ready_other by exact Hq3.
    apply uploaded_lookup_other, Hq1.
  - destruct Hw as (_ & Hthreads & _). rewrite Hthreads, session_ready_threads.
    reflexivity.
Qed.

(** The three-page statement, on the three endpoints. *)
Lemma pdf_to_excel_success_witness :
  let w3 := snd (convert_pdf_tables_to_excel sample_C
                   (pdf_path sample_U statement_file sample_w)
                   (excel_path sample_U statement_file sample_w)
                   (uploaded sample_U statement_file sample_w)) in
  (ascii_compatible sample_U /\
   endswith (str_lower sample_U (filename statement_file)) (lit ".pdf") = true /\
   files sample_w !! pdf_path sample_U statement_file sample_w <> Some Dir /\
   convert_pdf_tables_to_excel sample_C
     (pdf_path sample_U statement_file sample_w)
     (excel_path sample_U statement_file sample_w)
     (uploaded sample_U statement_file sample_w) = (inr tt, w3)) /\
  fst (pdf_to_excel sample_U sample_C statement_file sample_w) =
    inr (FileResponse
           (lit "excel_outputs/Releve_2024_1123456789ab4def8123456789abcdf0.xlsx")
           (lit "Releve_2024_1123456789ab4def8123456789abcdf0.xlsx")
           [(lit "Content-Disposition",
             lit "attachment; filename=" ++ [34] ++
             lit "Releve_2024_1123456789ab4def8123456789abcdf0.xlsx" ++ [34])]) /\
  threads (snd (pdf_to_excel sample_U sample_C statement_file sample_w)) =
    [{| target := lit "pdf_uploads/0123456789ab4def8123456789abcdef.pdf";
        started := 0; delay := 300 |};
     {| target := lit "excel_outputs/Releve_2024_1123456789ab4def8123456789abcdf0.xlsx";
        started := 0; delay := 600 |}].
Proof.
  intros w3.
  assert (H1 : endswith (str_lower sample_U (filename statement_file)) (lit ".pdf") = true)
    by (vm_compute; reflexivity).
  assert (H2 : files sample_w !! pdf_path sample_U statement_file sample_w <> Some Dir)
    by (unfold Sample.world, files; rewrite lookup_empty; discriminate).
  assert (F : fst (convert_pdf_tables_to_excel sample_C
                     (pdf_path sample_U statement_file sample_w)
                     (excel_path sample_U statement_file sample_w)
                     (uploaded sample_U statement_file sample_w)) = inr tt)
    by (vm_compute; reflexivity).
  pose proof (surjective_pairing
                (convert_pdf_tables_to_excel sample_C
                   (pdf_path sample_U statement_file sample_w)
                   (excel_path sample_U statement_file sample_w)
                   (uploaded sample_U statement_file sample_w))) as H3.
  rewrite F in H3. fold w3 in H3.
  split; [split; [exact excerpt_ascii_compatible|]; split; [exact H1|];
          split; [exact H2 | exact H3]|].
  destruct (pdf_to_excel_success sample_U sample_C statement_file sample_w w3
              excerpt_ascii_compatible H1 H2 H3) as (R & _ & _ & _ & T).
  replace (path_join EXCEL_DOWNLOAD_FOLDER
             (safe_stem sample_U (filename statement_file) ++ lit "_" ++
              unique_id sample_w ++ lit ".xlsx"))
    with (lit "excel_outputs/Releve_2024_1123456789ab4def8123456789abcdf0.xlsx")
    in R, T by (vm_compute; reflexivity).
  replace (safe_stem sample_U (filename statement_file) ++ lit "_" ++
           unique_id sample_w ++ lit ".xlsx")
    with (lit "Releve_2024_1123456789ab4def8123456789abcdf0.xlsx")
    in R by (vm_compute; reflexivity).
  replace (pdf_path sample_U statement_file sample_w)
    with (lit "pdf_uploads/0123456789ab4def8123456789abcdef.pdf")
    in T by (vm_compute; reflexivity).
  split; [exact R | exact T].
Defined.

Lemma pdf_to_word_success_witness :
  let name := safe_stem sample_U (filename statement_file) ++ lit "_" ++
              unique_id sample_w ++ lit ".docx" in
  let stored := Some (File (Bytes (drop (cursor statement_file) (payload statement_file)))) in
  (ascii_compatible sample_U /\
   endswith (str_lower sample_U (filename statement_file)) (lit ".pdf") = true /\
   files sample_w !! pdf_path sample_U statement_file sample_w <> Some Dir /\
   files sample_w !! path_join WORD_DOWNLOAD_FOLDER name <> Some Dir /\
   Converter_init sample_C stored = None /\
   Converter_convert sample_C stored = (Some [x01; x02; x03], None)) /\
  files (snd (pdf_to_word sample_U sample_C statement_file sample_w))
    !! path_join WORD_DOWNLOAD_FOLDER name = Some (File (Bytes [x01; x02; x03])).
Proof.
  intros name stored.
  assert (H1 : endswith (str_lower sample_U (filename statement_file)) (lit ".pdf") = true)
    by (vm_compute; reflexivity).
  assert (Hempty : forall p, files sample_w !! p <> Some Dir)
    by (intros p; unfold Sample.world, files; rewrite lookup_empty; discriminate).
  assert (H4 : Converter_init sample_C stored = None) by reflexivity.
  assert (H5 : Converter_convert sample_C stored = (Some [x01; x02; x03], None))
    by reflexivity.
  split; [split; [exact excerpt_ascii_compatible|]; split; [exact H1|];
          split; [apply Hempty|]; split; [apply Hempty|];
          split; [exact H4 | exact H5]|].
  exact (proj1 (proj2 (pdf_to_word_success sample_U sample_C statement_file sample_w
                         [x01; x02; x03] excerpt_ascii_compatible H1 (Hempty _)
                         (Hempty _) H4 H5))).
Defined.

Lemma pdf_to_image_success_cleans_up_witness :
  let name := safe_stem sample_U (filename statement_file) ++ lit "_" ++ unique_id sample_w in
  let session_folder := path_join IMAGE_DOWNLOAD_FOLDER name in
  let zip_path := path_join IMAGE_DOWNLOAD_FOLDER (name ++ lit ".zip") in
  let stored := Some (File (Bytes (drop (cursor statement_file) (payload statement_file)))) in
  (ascii_compatible sample_U /\
   endswith (str_lower sample_U (filename statement_file)) (lit ".pdf") = true /\
   files sample_w !! pdf_path sample_U statement_file sample_w <> Some Dir /\
   (forall d, files sample_w !! session_folder <> Some (File d)) /\
   (forall q, below session_folder q = true -> files sample_w !! q <> Some Dir) /\
   files sample_w !! zip_path <> Some Dir /\
   fitz_open sample_C stored = inr (map inr statement_pages) /\
   statement_pages <> []) /\
  files (snd (pdf_to_image sample_U sample_C statement_file sample_w)) !! session_folder = None /\
  (forall q, below session_folder q = true ->
             files (snd (pdf_to_image sample_U sample_C statement_file sample_w)) !! q = None) /\
  threads (snd (pdf_to_image sample_U sample_C statement_file sample_w)) =
    [{| target := pdf_path sample_U statement_file sample_w; started := 0; delay := 300 |};
     {| target := zip_path; started := 0; delay := 600 |}].
Proof.
  intros name session_folder zip_path stored.
  assert (H1 : endswith (str_lower sample_U (filename statement_file)) (lit ".pdf") = true)
    by (vm_compute; reflexivity).
  assert (Hempty : forall p, files sample_w !! p <> Some Dir)
    by (intros p; unfold Sample.world, files; rewrite lookup_empty; discriminate).
  assert (Hnofile : forall d, files sample_w !! session_folder <> Some (File d))
    by (intros d; unfold Sample.world, files; rewrite lookup_empty; discriminate).
  assert (H3 : fitz_open sample_C stored = inr (map inr statement_pages))
    by (vm_compute; reflexivity).
  assert (H4 : statement_pages <> []) by discriminate.
  split; [split; [exact excerpt_ascii_compatible|]; split; [exact H1|];
          split; [apply Hempty|]; split; [exact Hnofile|];
          split; [intros q _; apply Hempty|]; split; [apply Hempty|];
          split; [exact H3 | exact H4]|].
  destruct (pdf_to_image_success_cleans_up sample_U sample_C statement_file sample_w
              statement_pages excerpt_ascii_compatible H1 (Hempty _) Hnofile
              (fun q _ => Hempty q) (Hempty _) H3 H4)
    as (_ & A & B & _ & _ & T).
  split; [exact A|]. split; [exact B | exact T].
Defined.

(** ** Conversions that stop at a page *)

Section BrokenPage.
Variables session base : pystr.
Hypothesis Hbase : Forall (fun c => allowed c = true) base.
Hypothesis Hsession : session <> [].
Hypothesis Hplain : endswith session [sep] = false.

(** The rendering loop up to a page that raises: the pages before it are
    on disk, the exception goes up, and the pages after it are never
    looked at. *)
Lemma render_pages_broken (pngs : list (list byte)) (e : exn)
    (rest : list (exn + list byte)) (k : nat) (w : World) :
  (forall i, files w !! page_image_path session base i <> Some Dir) ->
  exists w',
    render_pages (map inr pngs ++ inl e :: rest) k session base w = (inl e, w') /\
    (forall i png, pngs !! i = Some png ->
       files w' !! page_image_path session base (k + i) = Some (File (Bytes png))) /\
    (forall q, (forall i, (k <= i < k + length pngs)%nat ->
                          q <> page_image_path session base i) ->
       files w' !! q = files w !! q).
Proof.
  revert k w. induction pngs as [|png more IH]; intros k w Hdir.
  - exists w. split; [reflexivity|]. split; [intros i p H; discriminate H|].
    reflexivity.
  - cbn [map app render_pages]. run.
    fold (page_name base k). fold (page_image_path session base k).
    rewrite write_file_ok by apply Hdir.
    set (w1 := set_files _ w).
    destruct (IH (S k) w1) as (w' & Hrun & Hpages & Hother).
    { intros i. unfold w1. cbn [files set_files].
      destruct (decide (page_image_path session base k = page_image_path session base i))
        as [E|E].
      - rewrite <- E, lookup_insert_eq. discriminate.
      - rewrite lookup_insert_ne by exact E. apply Hdir. }
    exists w'. rewrite Hrun. split; [reflexivity|]. split.
    + intros [|i] p H; simpl in H.
      * injection H as ->. rewrite Nat.add_0_r, Hother.
        -- unfold w1. cbn [files set_files]. apply lookup_insert_eq.
        -- intros i Hi E.
           apply (page_image_path_inj session base Hbase Hsession Hplain) in E. lia.
      * replace (k + S i)%nat with (S k + i)%nat by lia. apply Hpages, H.
    + intros q Hq. rewrite Hother by (intros i Hi; apply Hq; simpl; lia).
      unfold w1. cbn [files set_files]. apply lookup_insert_ne.
      intros E. apply (Hq k); [simpl; lia | symmetry; exact E].
Qed.
End BrokenPage.

Lemma create_images_zip_pages (C : Collaborators) (pdf session zip base : pystr)
    (w : World) (doc : list (exn + list byte)) :
  fitz_open C (files w !! pdf) = inr doc ->
  doc <> [] ->
  create_images_zip C pdf session zip base w =
    match render_pages doc 0 session base w with
    | (inl e, w') => (inl e, w')
    | (inr image_paths, w') =>
        (write_file zip (Archive []) ;;;
         fs <- gets files ;;
         let (entries, err) := zip_write_all fs image_paths in
         write_file zip (Archive entries) ;;;
         match err with
         | Some e => raise e
         | None => ret tt
         end) w'
    end.
Proof.
  intros Hopen Hne. unfold create_images_zip.
  unfold bind at 1, gets at 1. unfold bind at 1, lift at 1. rewrite Hopen.
  destruct doc as [|page rest]; [contradiction|]. reflexivity.
Qed.

(** X9: [create_images_zip] on a document whose page [k+1] is the first
    that fails to render.  The exception of that page goes up; the images
    of the [k] pages before it are on disk in the session folder by then;
    the archive is never opened, so that nothing is at the zip path that
    was not there before; and no other path is touched. *)
Theorem create_images_zip_stops_at_broken_page (C : Collaborators)
    (pdf_path session_folder zip_path base_name : pystr) (w : World)
    (pngs : list (list byte)) (e : exn) (rest : list (exn + list byte)) :
  Forall (fun c => allowed c = true) base_name ->
  session_folder <> [] ->
  endswith session_folder [sep] = false ->
  fitz_open C (files w !! pdf_path) = inr (map inr pngs ++ inl e :: rest) ->
  (forall i, files w !! path_join session_folder
                          (base_name ++ lit "_page_" ++ str_int (N.of_nat i + 1) ++ lit ".png")
             <> Some Dir) ->
  let r := create_images_zip C pdf_path session_folder zip_path base_name w in
  fst r = inl e /\
  (forall i png, pngs !! i = Some png ->
     files (snd r) !! path_join session_folder
                        (base_name ++ lit "_page_" ++ str_int (N.of_nat i + 1) ++ lit ".png") =
     Some (File (Bytes png))) /\
  (forall q, (forall i, (i < length pngs)%nat ->
                q <> path_join session_folder
                       (base_name ++ lit "_page_" ++ str_int (N.of_nat i + 1) ++ lit ".png")) ->
     files (snd r) !! q = files w !! q).
Proof.
  intros Hbase Hsession Hplain Hopen Hdir r. subst r.
  destruct (render_pages_broken session_folder base_name Hbase Hsession Hplain
              pngs e rest 0 w Hdir) as (w' & Hrun & Hpages & Hother).
  rewrite (create_images_zip_pages C _ _ _ _ _ _ Hopen), Hrun
    by (destruct pngs; discriminate).
  cbn [fst snd]. split; [reflexivity|]. split.
  - intros i png Hi. apply (Hpages i png Hi).
  - intros q Hq. apply Hother. intros i Hi. apply Hq. lia.
Qed.

Lemma create_images_zip_stops_at_broken_page_witness :
  let w := set_files (insert (lit "pdf_uploads/a.pdf") (File (Bytes [x01; xff; x02])))
             Sample.world in
  let r := create_images_zip sample_C (lit "pdf_uploads/a.pdf") (lit "image_outputs/a_1")
             (lit "image_outputs/a_1.zip") (lit "a") w in
  (Forall (fun c => allowed c = true) (lit "a") /\
   lit "image_outputs/a_1" <> [] /\
   endswith (lit "image_outputs/a_1") [sep] = false /\
   fitz_open sample_C (files w !! lit "pdf_uploads/a.pdf") =
     inr (map inr [[x89; x50; x4e; x47; x01]] ++ inl broken_page ::
          [inr [x89; x50; x4e; x47; x02]]) /\
   (forall i, files w !! path_join (lit "image_outputs/a_1")
                           (lit "a" ++ lit "_page_" ++ str_int (N.of_nat i + 1) ++ lit ".png")
              <> Some Dir)) /\
  fst r = inl broken_page /\
  files (snd r) !! lit "image_outputs/a_1/a_page_1.png" =
    Some (File (Bytes [x89; x50; x4e; x47; x01])) /\
  files (snd r) !! lit "image_outputs/a_1.zip" = None.
Proof.
  intros w r.
  assert (H1 : Forall (fun c => allowed c = true) (lit "a")) by (repeat constructor).
  assert (H2 : lit "image_outputs/a_1" <> []) by discriminate.
  assert (H3 : endswith (lit "image_outputs/a_1") [sep] = false) by reflexivity.
  assert (H4 : fitz_open sample_C (files w !! lit "pdf_uploads/a.pdf") =
               inr (map inr [[x89; x50; x4e; x47; x01]] ++ inl broken_page ::
                    [inr [x89; x50; x4e; x47; x02]])).
  { unfold w. cbn [files set_files]. rewrite lookup_insert_eq. reflexivity. }
  assert (H5 : forall i, files w !! path_join (lit "image_outputs/a_1")
                 (lit "a" ++ lit "_page_" ++ str_int (N.of_nat i + 1) ++ lit ".png")
               <> Some Dir).
  { intros i. unfold w. cbn [files set_files].
    destruct (decide (lit "pdf_uploads/a.pdf" =
                      path_join (lit "image_outputs/a_1")
                        (lit "a" ++ lit "_page_" ++ str_int (N.of_nat i + 1) ++ lit ".png")))
      as [<-|Hne].
    - rewrite lookup_insert_eq. discriminate.
    - rewrite lookup_insert_ne by exact Hne. unfold Sample.world, files.
      rewrite lookup_empty. discriminate. }
  split; [split; [exact H1|]; split; [exact H2|]; split; [exact H3|];
          split; [exact H4 | exact H5]|].
  destruct (create_images_zip_stops_at_broken_page sample_C (lit "pdf_uploads/a.pdf")
              (lit "image_outputs/a_1") (lit "image_outputs/a_1.zip") (lit "a") w
              [[x89; x50; x4e; x47; x01]] broken_page [inr [x89; x50; x4e; x47; x02]]
              H1 H2 H3 H4 H5) as (A & B & D).
  split; [exact A|]. split.
  - exact (B 0%nat _ eq_refl).
  - fold r in D. rewrite D.
    + unfold w. cbn [files set_files]. rewrite lookup_insert_ne by discriminate.
      unfold Sample.world, files. apply lookup_empty.
    + intros i Hi. destruct i as [|i]; [discriminate | simpl in Hi; lia].
Defined.

(** X10: [convert_pdf_tables_to_excel] reads every page before it opens
    the workbook.  When the PDF does not open, or a page raises in
    [extract_table()] after pages that gave their tables, the exception
    goes up and nothing has been written: the disk is as it was, the
    tables of the earlier pages are lost. *)
Theorem convert_pdf_tables_to_excel_stops_before_writing (C : Collaborators)
    (pdf_path excel_path : pystr) (w : World) (e : exn) :
  (pdfplumber_open C (files w !! pdf_path) = inl e ->
   convert_pdf_tables_to_excel C pdf_path excel_path w = (inl e, w)) /\
  (forall tables dfs rest,
     pdfplumber_open C (files w !! pdf_path) = inr (map inr tables ++ inl e :: rest) ->
     Forall2 (fun hr df => pd_DataFrame C (snd hr) (fst hr) = inr df)
       (found_tables tables) dfs ->
     convert_pdf_tables_to_excel C pdf_path excel_path w = (inl e, w)).
Proof.
  split.
  - intros Hopen. unfold convert_pdf_tables_to_excel. run. rewrite Hopen. reflexivity.
  - intros tables dfs rest Hopen Hfound.
    assert (Hex : extract_tables C (map inr tables ++ inl e :: rest) = inl e).
    { clear Hopen. revert dfs Hfound.
      induction tables as [|t more IH]; intros dfs H; [reflexivity|].
      destruct t as [[|header rows]|]; cbn [map app extract_tables found_tables flat_map] in *;
        try (apply (IH dfs), H).
      inversion H as [|? df ? dfs' Hdf Hrest]; subst. cbn [fst snd] in Hdf.
      rewrite Hdf, (IH dfs' Hrest). reflexivity. }
    unfold convert_pdf_tables_to_excel. run. rewrite Hopen, Hex. reflexivity.
Qed.

(** Three pages, the second one broken. *)
Lemma convert_pdf_tables_to_excel_stops_before_writing_witness :
  let w := set_files (insert (lit "pdf_uploads/a.pdf") (File (Bytes [x01; xff; x02])))
             Sample.world in
  let tables := [Some [[Some (lit "name")]; [Some [1]]]] in
  let dfs := [{| columns := [Some (lit "name")]; data := [[Some [1]]] |}] in
  let rest := [inr (Some [[Some (lit "name")]; [Some [2]]])] in
  (pdfplumber_open sample_C (files w !! lit "pdf_uploads/a.pdf") =
     inr (map inr tables ++ inl broken_page :: rest) /\
   Forall2 (fun hr df => pd_DataFrame sample_C (snd hr) (fst hr) = inr df)
     (found_tables tables) dfs) /\
  convert_pdf_tables_to_excel sample_C (lit "pdf_uploads/a.pdf") (lit "excel_outputs/a.xlsx") w =
    (inl broken_page, w).
Proof.
  intros w tables dfs rest.
  assert (H1 : pdfplumber_open sample_C (files w !! lit "pdf_uploads/a.pdf") =
               inr (map inr tables ++ inl broken_page :: rest)).
  { unfold w. cbn [files set_files]. rewrite lookup_insert_eq. reflexivity. }
  assert (H2 : Forall2 (fun hr df => pd_DataFrame sample_C (snd hr) (fst hr) = inr df)
                 (found_tables tables) dfs) by (repeat constructor).
  split; [split; [exact H1 | exact H2]|].
  exact (proj2 (convert_pdf_tables_to_excel_stops_before_writing sample_C
                  (lit "pdf_uploads/a.pdf") (lit "excel_outputs/a.xlsx") w broken_page)
           tables dfs rest H1 H2).
Defined.

(** ** The download endpoints *)

Lemma download_video_run (U : UnicodeData) (C : Collaborators)
    (url output_template : pystr) (custom_options : option (gmap pystr opt))
    (w : World) (fs : gmap pystr Node) (reported : exn + pystr) :
  YoutubeDL C (ydl_opts output_template custom_options) url (files w) = (fs, reported) ->
  download_video U C url output_template custom_options w =
    (match reported with
     | inl e => inl e
     | inr name =>
         match fs !! final_name U name with
         | Some _ => inr (final_name U name)
         | None => inl (FileNotFoundError (lit "Failed to download video."))
         end
     end, set_files (fun _ => fs) w).
Proof.
  intros H. unfold download_video, os_path_exists, final_name. run. rewrite H.
  destruct reported as [e|name]; [reflexivity|]. run. cbn [files set_files].
  destruct (endswith (str_lower U name) (lit ".mp4")); cbn [negb];
    destruct (fs !! _); reflexivity.
Qed.

(** What a download endpoint makes of the outcome of [download_video]. *)
Lemma download_endpoint_run (U : UnicodeData) (prefix : pystr) (m : M pystr) (w : World) :
  (r <- try m ;;
   match r with
   | inl e => ret (JSON_error (prefix ++ str_exn e))
   | inr filename =>
       delete_file_later filename default_delay ;;;
       ret (send_file U filename)
   end) w =
  match m w with
  | (inl e, w1) => (inr (JSON_error (prefix ++ str_exn e)), w1)
  | (inr filename, w1) =>
      (inr (send_file U filename),
       set_threads (fun ts => ts ++ [deletion filename 300 w1]) w1)
  end.
Proof.
  unfold bind at 1, try. destruct (m w) as [[e|filename] w1]; reflexivity.
Qed.

(** X11: what [download_youtube] answers, by what the fetcher did.  When
    the fetcher raises, the answer is the JSON error with the exception's
    text behind ["Failed to download video: "]; when the file is not on
    disk under the name that [download_video] settles on, the answer is
    the same prefix in front of [download_video]'s own message, which
    repeats it.  In both cases nothing is queued for deletion, so that
    whatever the fetcher left on disk stays there.  Otherwise the file is
    sent under the sanitized last component of its name and is queued for
    deletion after 300 seconds.  The handler never raises. *)
Theorem download_youtube_outcomes (U : UnicodeData) (C : Collaborators)
    (url : pystr) (w : World) (fs : gmap pystr Node) (reported : exn + pystr) :
  YoutubeDL C (ydl_opts (lit "downloads/%(id)s_%(title)s.%(ext)s") None) url (files w) =
    (fs, reported) ->
  let w1 := set_files (fun _ => fs) w in
  download_youtube U C url w =
    match reported with
    | inl e => (inr (JSON_error (lit "Failed to download video: " ++ str_exn e)), w1)
    | inr name =>
        match fs !! final_name U name with
        | None =>
            (inr (JSON_error (lit "Failed to download video: Failed to download video.")), w1)
        | Some _ =>
            let safe_filename := ascii_filename U (basename (final_name U name)) in
            (inr (FileResponse (final_name U name) safe_filename
                    [(lit "Content-Disposition",
                      lit "attachment; filename=" ++ [34] ++ safe_filename ++ [34])]),
             set_threads (fun ts => ts ++ [{| target := final_name U name;
                                              started := clock w; delay := 300 |}]) w1)
        end
    end.
Proof.
  intros H w1. unfold download_youtube. cbv zeta.
  rewrite download_endpoint_run.
  change (path_join DOWNLOAD_FOLDER (lit "%(id)s_%(title)s.%(ext)s"))
    with (lit "downloads/%(id)s_%(title)s.%(ext)s").
  rewrite (download_video_run U C _ _ _ w fs reported H). fold w1.
  destruct reported as [e|name]; [reflexivity|].
  destruct (fs !! final_name U name); reflexivity.
Qed.

Lemma download_youtube_outcomes_witness :
  let w := set_files (insert (lit "downloads/clip.mp4") (File (Bytes [x00]))) Sample.world in
  let fs := <[lit "downloads/clip.webm" := File (Bytes [x00])]> (files w) in
  YoutubeDL sample_C (ydl_opts (lit "downloads/%(id)s_%(title)s.%(ext)s") None)
    (lit "clip.webm") (files w) = (fs, inr (lit "downloads/clip.webm")) /\
  download_youtube sample_U sample_C (lit "clip.webm") w =
    (inr (FileResponse (lit "downloads/clip.mp4") (lit "clip.mp4")
            [(lit "Content-Disposition", lit "attachment; filename=" ++ [34] ++
                                         lit "clip.mp4" ++ [34])]),
     set_threads (fun ts => ts ++ [{| target := lit "downloads/clip.mp4";
                                      started := 0; delay := 300 |}])
       (set_files (fun _ => fs) w)).
Proof.
  intros w fs.
  assert (H : YoutubeDL sample_C (ydl_opts (lit "downloads/%(id)s_%(title)s.%(ext)s") None)
                (lit "clip.webm") (files w) = (fs, inr (lit "downloads/clip.webm")))
    by reflexivity.
  split; [exact H|].
  pose proof (download_youtube_outcomes sample_U sample_C (lit "clip.webm") w fs
                (inr (lit "downloads/clip.webm")) H) as T.
  cbv zeta beta iota in T.
  replace (final_name sample_U (lit "downloads/clip.webm"))
    with (lit "downloads/clip.mp4") in T by (vm_compute; reflexivity).
  replace (fs !! lit "downloads/clip.mp4") with (Some (File (Bytes [x00]))) in T
    by (unfold fs, w; cbn [files set_files];
        rewrite lookup_insert_ne by discriminate; rewrite lookup_insert_eq; reflexivity).
  exact T.
Defined.

(** The same request when the fetcher leaves only the [.webm] file: the
    error message says it twice, and the [.webm] file stays on disk with no
    deletion queued. *)
Example download_youtube_missing_file :
  let r := download_youtube sample_U sample_C (lit "clip.webm") Sample.world in
  fst r = inr (JSON_error (lit "Failed to download video: Failed to download video.")) /\
  files (snd r) !! lit "downloads/clip.webm" = Some (File (Bytes [x00])) /\
  threads (snd r) = [].
Proof. repeat split; vm_compute; reflexivity. Qed.

(** X12: [download_tiktok] behaves like [download_youtube] with its own
    template, its own prefix ["Failed to download TikTok video: "] and
    three more options for the fetcher: five retries for the download and
    for each fragment, and unavailable fragments skipped.  The five options
    of [download_video] are passed on unchanged beside them. *)
Theorem download_tiktok_outcomes (U : UnicodeData) (C : Collaborators)
    (url : pystr) (w : World) (fs : gmap pystr Node) (reported : exn + pystr) :
  let template := lit "downloads/tiktok_%(id)s_%(upload_date)s_%(timestamp)s.%(ext)s" in
  let options := ydl_opts template (Some tiktok_options) in
  YoutubeDL C options url (files w) = (fs, reported) ->
  let w1 := set_files (fun _ => fs) w in
  (options !! lit "retries" = Some (OInt 5) /\
   options !! lit "fragment_retries" = Some (OInt 5) /\
   options !! lit "skip_unavailable_fragments" = Some (OBool true) /\
   options !! lit "format" =
     Some (OStr (lit "bestvideo[ext=mp4]+bestaudio[ext=m4a]/best[ext=mp4]")) /\
   options !! lit "outtmpl" = Some (OStr template) /\
   options !! lit "merge_output_format" = Some (OStr (lit "mp4")) /\
   options !! lit "noplaylist" = Some (OBool true) /\
   options !! lit "quiet" = Some (OBool true)) /\
  download_tiktok U C url w =
    match reported with
    | inl e => (inr (JSON_error (lit "Failed to download TikTok video: " ++ str_exn e)), w1)
    | inr name =>
        match fs !! final_name U name with
        | None =>
            (inr (JSON_error
                    (lit "Failed to download TikTok video: Failed to download video.")), w1)
        | Some _ =>
            let safe_filename := ascii_filename U (basename (final_name U name)) in
            (inr (FileResponse (final_name U name) safe_filename
                    [(lit "Content-Disposition",
                      lit "attachment; filename=" ++ [34] ++ safe_filename ++ [34])]),
             set_threads (fun ts => ts ++ [{| target := final_name U name;
                                              started := clock w; delay := 300 |}]) w1)
        end
    end.
Proof.
  intros template options H w1.
  split; [repeat split; vm_compute; reflexivity|].
  unfold download_tiktok. cbv zeta.
  rewrite download_endpoint_run.
  change (path_join DOWNLOAD_FOLDER
            (lit "tiktok_%(id)s_%(upload_date)s_%(timestamp)s.%(ext)s")) with template.
  change (list_to_map _) with tiktok_options.
  rewrite (download_video_run U C _ _ _ w fs reported H). fold w1.
  destruct reported as [e|name]; [reflexivity|].
  destruct (fs !! final_name U name); reflexivity.
Qed.

Lemma download_tiktok_outcomes_witness :
  let template := lit "downloads/tiktok_%(id)s_%(upload_date)s_%(timestamp)s.%(ext)s" in
  YoutubeDL sample_C (ydl_opts template (Some tiktok_options)) [] (files Sample.world) =
    (files Sample.world, inl (Exception (lit "unsupported URL"))) /\
  download_tiktok sample_U sample_C [] Sample.world =
    (inr (JSON_error (lit "Failed to download TikTok video: unsupported URL")),
     set_files (fun _ => files Sample.world) Sample.world).
Proof.
  intros template.
  assert (H : YoutubeDL sample_C (ydl_opts template (Some tiktok_options)) []
                (files Sample.world) =
              (files Sample.world, inl (Exception (lit "unsupported URL"))))
    by reflexivity.
  split; [exact H|].
  exact (proj2 (download_tiktok_outcomes sample_U sample_C [] Sample.world
                  (files Sample.world) (inl (Exception (lit "unsupported URL"))) H)).
Defined.

(** ** A deletion thread, case by case *)

Lemma delete_after_sleep_dir (p : pystr) (w : World) :
  files w !! p = Some Dir -> exists e, delete_after_sleep p w = (inl e, w).
Proof.
  intros H. unfold delete_after_sleep, os_path_exists, os_remove. run.
  rewrite H. run. rewrite H. eexists. reflexivity.
Qed.

(** X13: the thread that [delete_file_later] starts, in every case.
    Before its delay has passed it cannot have done anything.  Once the
    delay has passed it removes its target when that is a file, touching no
    other path; it returns without doing anything when the target is gone;
    and it dies in [os.remove] with the disk untouched when the target is a
    directory.  With a negative delay it dies in [time.sleep] and never
    looks at the target, which then stays on disk.  In every case in which
    the thread runs, it is gone from the list afterwards. *)
Theorem deletion_thread_case_by_case (w : World) (i : nat) (t : Thread) :
  threads w !! i = Some t ->
  let w' := without_thread i w in
  ((delay t < 0)%Z -> exists e, fire i w = Some (inl e, w')) /\
  ((0 <= delay t)%Z -> (clock w < started t + delay t)%Z -> fire i w = None) /\
  ((0 <= delay t)%Z -> (started t + delay t <= clock w)%Z ->
   match files w !! target t with
   | Some (File _) => fire i w = Some (inr tt, set_files (delete (target t)) w')
   | Some Dir => exists e, fire i w = Some (inl e, w')
   | None => fire i w = Some (inr tt, w')
   end).
Proof.
  intros Ht w'. unfold fire, time_sleep. rewrite Ht. fold (without_thread i w). fold w'.
  split; [|split].
  - intros Hneg. replace (delay t <? 0)%Z with true by lia. eexists. reflexivity.
  - intros Hpos Hearly. replace (delay t <? 0)%Z with false by lia.
    replace (started t + delay t <=? clock w)%Z with false by lia. reflexivity.
  - intros Hpos Hlate. replace (delay t <? 0)%Z with false by lia.
    replace (started t + delay t <=? clock w)%Z with true by lia.
    assert (Hfiles : files w' = files w) by reflexivity.
    destruct (files w !! target t) as [[d|]|] eqn:E; rewrite <- Hfiles in E.
    + rewrite (delete_after_sleep_file _ d) by exact E. reflexivity.
    + destruct (delete_after_sleep_dir _ _ E) as [e ->]. exists e. reflexivity.
    + rewrite delete_after_sleep_gone by exact E. reflexivity.
Qed.

(** A stored upload whose deletion is queued for 300 seconds later, seen
    after 299 seconds and after 300. *)
Lemma deletion_thread_case_by_case_witness :
  let file_path := lit "pdf_uploads/a.pdf" in
  let w := set_files (insert file_path (File (Bytes [x25]))) Sample.world in
  let queued := snd (delete_file_later file_path default_delay w) in
  let early := set_clock (fun t => (t + 299)%Z) queued in
  let late := set_clock (fun t => (t + 300)%Z) queued in
  let t := {| target := file_path; started := 0; delay := 300 |} in
  (threads early !! 0%nat = Some t /\ threads late !! 0%nat = Some t /\
   (0 <= delay t)%Z /\ (clock early < started t + delay t)%Z /\
   (started t + delay t <= clock late)%Z) /\
  fire 0 early = None /\
  fire 0 late = Some (inr tt, set_files (delete file_path) (without_thread 0 late)).
Proof.
  intros file_path w queued early late t.
  assert (H1 : threads early !! 0%nat = Some t) by reflexivity.
  assert (H2 : threads late !! 0%nat = Some t) by reflexivity.
  assert (H3 : (0 <= delay t)%Z) by (vm_compute; discriminate).
  assert (H4 : (clock early < started t + delay t)%Z) by reflexivity.
  assert (H5 : (started t + delay t <= clock late)%Z) by (vm_compute; discriminate).
  split; [split; [exact H1|]; split; [exact H2|]; split; [exact H3|];
          split; [exact H4 | exact H5]|].
  split.
  - exact (proj1 (proj2 (deletion_thread_case_by_case early 0 t H1)) H3 H4).
  - pose proof (proj2 (proj2 (deletion_thread_case_by_case late 0 t H2)) H3 H5) as T.
    replace (files late !! target t) with (Some (File (Bytes [x25]))) in T
      by (symmetry; apply lookup_insert_eq).
    exact T.
Defined.

(** ** Start-up *)

Lemma os_makedirs_exist_ok_cases (p : pystr) (w : World) :
  ((exists d, files w !! p = Some (File d)) /\
   exists e, os_makedirs_exist_ok p w = (inl e, w)) \/
  ((forall d, files w !! p <> Some (File d)) /\
   os_makedirs_exist_ok p w = (inr tt, set_files (insert p Dir) w)).
Proof.
  unfold os_makedirs_exist_ok. run. destruct (files w !! p) as [[d|]|] eqn:E.
  - left. split; eexists; reflexivity.
  - right. split; [discriminate|]. rewrite set_files_insert_same by exact E. reflexivity.
  - right. split; [discriminate | reflexivity].
Qed.

Lemma os_makedirs_exist_ok_run (p : pystr) (w : World) :
  (forall d, files w !! p <> Some (File d)) ->
  os_makedirs_exist_ok p w = (inr tt, set_files (insert p Dir) w).
Proof.
  intros H. destruct (os_makedirs_exist_ok_cases p w) as [[[d Hd] _]|[_ Hrun]];
    [destruct (H d Hd) | exact Hrun].
Qed.

Ltac lookup_folder :=
  cbn [files set_files];
  repeat (rewrite lookup_insert_eq || rewrite lookup_insert_ne by discriminate).

Lemma startup_run (w : World) :
  (forall p d, In p storage_folders -> files w !! p <> Some (File d)) ->
  startup w =
    (inr tt,
     set_files (fun fs => <[IMAGE_DOWNLOAD_FOLDER := Dir]>
                            (<[WORD_DOWNLOAD_FOLDER := Dir]>
                               (<[EXCEL_DOWNLOAD_FOLDER := Dir]>
                                  (<[PDF_DOWNLOAD_FOLDER := Dir]>
                                     (<[DOWNLOAD_FOLDER := Dir]> fs))))) w).
Proof.
  intros H. unfold startup.
  unfold bind at 1. rewrite os_makedirs_exist_ok_run
    by (intros d; apply H; simpl; tauto).
  unfold bind at 1. rewrite os_makedirs_exist_ok_run
    by (intros d; lookup_folder; apply H; simpl; tauto).
  unfold bind at 1. rewrite os_makedirs_exist_ok_run
    by (intros d; lookup_folder; apply H; simpl; tauto).
  unfold bind at 1. rewrite os_makedirs_exist_ok_run
    by (intros d; lookup_folder; apply H; simpl; tauto).
  rewrite os_makedirs_exist_ok_run
    by (intros d; lookup_folder; apply H; simpl; tauto).
  reflexivity.
Qed.

(** X14: the [os.makedirs(..., exist_ok=True)] calls of the module.  When
    none of the five folder names is taken by a regular file, they all
    succeed; afterwards each of the five is a directory and every other
    path is as it was; and running them again changes nothing, so that the
    module can be imported over an existing installation.  When one of the
    names is taken by a regular file, the import fails. *)
Theorem startup_makes_the_storage_folders (w : World) :
  ((forall p d, In p storage_folders -> files w !! p <> Some (File d)) ->
   let r := startup w in
   fst r = inr tt /\
   (forall p, In p storage_folders -> files (snd r) !! p = Some Dir) /\
   (forall q, ~ In q storage_folders -> files (snd r) !! q = files w !! q) /\
   startup (snd r) = (inr tt, snd r)) /\
  (forall p d, In p storage_folders -> files w !! p = Some (File d) ->
   exists e, fst (startup w) = inl e).
Proof.
  split.
  - intros H r. subst r. rewrite (startup_run w H). cbn [fst snd].
    assert (Hdirs : forall p, In p storage_folders ->
              files (set_files (fun fs => <[IMAGE_DOWNLOAD_FOLDER := Dir]>
                            (<[WORD_DOWNLOAD_FOLDER := Dir]>
                               (<[EXCEL_DOWNLOAD_FOLDER := Dir]>
                                  (<[PDF_DOWNLOAD_FOLDER := Dir]>
                                     (<[DOWNLOAD_FOLDER := Dir]> fs))))) w) !! p = Some Dir).
    { intros p Hp. simpl in Hp.
      destruct Hp as [<-|[<-|[<-|[<-|[<-|[]]]]]]; lookup_folder; reflexivity. }
    split; [reflexivity|]. split; [exact Hdirs|]. split.
    + intros q Hq. cbn [files set_files].
      rewrite !lookup_insert_ne; [reflexivity|..];
        intros <-; apply Hq; simpl; tauto.
    + rewrite startup_run.
      * f_equal. set (w1 := set_files _ w) in *.
        destruct w1 as [fs c ts u n] eqn:Ew. unfold set_files. cbn [files clock threads urandom drawn].
        f_equal.
        assert (Hfs : forall p, In p storage_folders -> fs !! p = Some Dir).
        { intros p Hp. specialize (Hdirs p Hp). exact Hdirs. }
        rewrite (insert_id fs DOWNLOAD_FOLDER Dir) by (apply Hfs; simpl; tauto).
        rewrite (insert_id fs PDF_DOWNLOAD_FOLDER Dir) by (apply Hfs; simpl; tauto).
        rewrite (insert_id fs EXCEL_DOWNLOAD_FOLDER Dir) by (apply Hfs; simpl; tauto).
        rewrite (insert_id fs WORD_DOWNLOAD_FOLDER Dir) by (apply Hfs; simpl; tauto).
        rewrite (insert_id fs IMAGE_DOWNLOAD_FOLDER Dir) by (apply Hfs; simpl; tauto).
        reflexivity.
      * intros p d Hp. rewrite (Hdirs p Hp). discriminate.
  - intros p d Hp Hfile. unfold startup.
    unfold bind at 1.
    destruct (os_makedirs_exist_ok_cases DOWNLOAD_FOLDER w) as [[_ [e ->]]|[H1 ->]];
      [eexists; reflexivity|].
    unfold bind at 1.
    destruct (os_makedirs_exist_ok_cases PDF_DOWNLOAD_FOLDER
                (set_files (insert DOWNLOAD_FOLDER Dir) w)) as [[_ [e ->]]|[H2 ->]];
      [eexists; reflexivity|].
    unfold bind at 1.
    destruct (os_makedirs_exist_ok_cases EXCEL_DOWNLOAD_FOLDER
                (set_files (insert PDF_DOWNLOAD_FOLDER Dir)
                   (set_files (insert DOWNLOAD_FOLDER Dir) w))) as [[_ [e ->]]|[H3 ->]];
      [eexists; reflexivity|].
    unfold bind at 1.
    destruct (os_makedirs_exist_ok_cases WORD_DOWNLOAD_FOLDER
                (set_files (insert EXCEL_DOWNLOAD_FOLDER Dir)
                   (set_files (insert PDF_DOWNLOAD_FOLDER Dir)
                      (set_files (insert DOWNLOAD_FOLDER Dir) w))))
      as [[_ [e ->]]|[H4 ->]]; [eexists; reflexivity|].
    destruct (os_makedirs_exist_ok_cases IMAGE_DOWNLOAD_FOLDER
                (set_files (insert WORD_DOWNLOAD_FOLDER Dir)
                   (set_files (insert EXCEL_DOWNLOAD_FOLDER Dir)
                      (set_files (insert PDF_DOWNLOAD_FOLDER Dir)
                         (set_files (insert DOWNLOAD_FOLDER Dir) w)))))
      as [[_ [e ->]]|[H5 _]]; [eexists; reflexivity|].
    exfalso. specialize (H1 d). specialize (H2 d). specialize (H3 d).
    specialize (H4 d). specialize (H5 d).
    cbn [files set_files] in H2, H3, H4, H5.
    repeat rewrite lookup_insert_ne in H2 by discriminate.
    repeat rewrite lookup_insert_ne in H3 by discriminate.
    repeat rewrite lookup_insert_ne in H4 by discriminate.
    repeat rewrite lookup_insert_ne in H5 by discriminate.
    simpl in Hp.
    destruct Hp as [<-|[<-|[<-|[<-|[<-|[]]]]]];
      [apply H1 | apply H2 | apply H3 | apply H4 | apply H5]; exact Hfile.
Qed.

Lemma startup_makes_the_storage_folders_witness :
  let w := set_files (insert (lit "downloads/old.mp4") (File (Bytes [x00])))
             (set_files (insert (lit "downloads") Dir) Sample.world) in
  (forall p d, In p storage_folders -> files w !! p <> Some (File d)) /\
  fst (startup w) = inr tt /\
  files (snd (startup w)) !! lit "image_outputs" = Some Dir /\
  files (snd (startup w)) !! lit "downloads/old.mp4" = Some (File (Bytes [x00])).
Proof.
  intros w.
  assert (H : forall p d, In p storage_folders -> files w !! p <> Some (File d)).
  { intros p d Hp. unfold w. simpl in Hp.
    destruct Hp as [<-|[<-|[<-|[<-|[<-|[]]]]]]; lookup_folder;
      unfold Sample.world, files; rewrite ?lookup_empty; discriminate. }
  split; [exact H|].
  destruct (proj1 (startup_makes_the_storage_folders w) H) as (A & B & D & _).
  split; [exact A|]. split.
  - apply B. simpl. tauto.
  - rewrite D.
    + unfold w. cbn [files set_files]. apply lookup_insert_eq.
    + simpl. intros [E|[E|[E|[E|[E|[]]]]]]; discriminate E.
Defined.

(** ** An upload that has been read before *)

(** X15: [save_upload_file] copies from where the upload's cursor stands,
    not from the start: the stored file holds the bytes from the cursor on,
    which is nothing at all when the upload has been read to its end.  It
    then rewinds the upload to position 0 whatever the position was before,
    so that saving the upload it returns stores the whole payload. *)
Theorem save_upload_file_from_any_position (U : UnicodeData) (upload_file : UploadFile)
    (destination_folder : pystr) (w : World) :
  let file_path := upload_path U upload_file destination_folder w in
  let r := save_upload_file U upload_file destination_folder w in
  let rewound := {| filename := filename upload_file; payload := payload upload_file;
                    cursor := 0 |} in
  files w !! file_path <> Some Dir ->
  fst r = inr (file_path, rewound) /\
  files (snd r) !! file_path =
    Some (File (Bytes (drop (cursor upload_file) (payload upload_file)))) /\
  ((length (payload upload_file) <= cursor upload_file)%nat ->
   files (snd r) !! file_path = Some (File (Bytes []))) /\
  (let file_path' := upload_path U rewound destination_folder (snd r) in
   files (snd r) !! file_path' <> Some Dir ->
   files (snd (save_upload_file U rewound destination_folder (snd r))) !! file_path' =
     Some (File (Bytes (payload upload_file)))).
Proof.
  intros file_path r rewound Hdir. subst r. unfold upload_path in file_path.
  rewrite save_upload_file_spec by exact Hdir. fold file_path.
  cbn [fst snd]. split; [reflexivity|].
  assert (Hstored : files (set_files (insert file_path
                             (File (Bytes (drop (cursor upload_file) (payload upload_file)))))
                             (set_drawn S w)) !! file_path =
                    Some (File (Bytes (drop (cursor upload_file) (payload upload_file))))).
  { cbn [files set_files set_drawn]. apply lookup_insert_eq. }
  split; [exact Hstored|]. split.
  - intros Hend. rewrite Hstored, drop_ge by exact Hend. reflexivity.
  - intros Hdir'. rewrite save_upload_file_spec by exact Hdir'.
    unfold upload_path. cbn [snd files set_files set_drawn filename payload cursor].
    rewrite lookup_insert_eq. reflexivity.
Qed.

(** An upload of five bytes of which three have been read. *)
Lemma save_upload_file_from_any_position_witness :
  let upload_file := {| filename := lit "scan.pdf"; payload := [x25; x50; x44; x46; x2d];
                        cursor := 3 |} in
  files Sample.world !! upload_path sample_U upload_file PDF_DOWNLOAD_FOLDER Sample.world
    <> Some Dir /\
  fst (save_upload_file sample_U upload_file PDF_DOWNLOAD_FOLDER Sample.world) =
    inr (upload_path sample_U upload_file PDF_DOWNLOAD_FOLDER Sample.world,
         {| filename := lit "scan.pdf"; payload := [x25; x50; x44; x46; x2d]; cursor := 0 |}) /\
  files (snd (save_upload_file sample_U upload_file PDF_DOWNLOAD_FOLDER Sample.world))
    !! upload_path sample_U upload_file PDF_DOWNLOAD_FOLDER Sample.world =
    Some (File (Bytes [x46; x2d])).
Proof.
  intros upload_file.
  assert (H : files Sample.world !!
                upload_path sample_U upload_file PDF_DOWNLOAD_FOLDER Sample.world
              <> Some Dir)
    by (unfold Sample.world, files; rewrite lookup_empty; discriminate).
  split; [exact H|].
  destruct (save_upload_file_from_any_position sample_U upload_file PDF_DOWNLOAD_FOLDER
              Sample.world H) as (A & B & _).
  split; [exact A | exact B].
Defined.

(** ** Exceptions that leave the handler *)

Lemma save_upload_file_raises (U : UnicodeData) (f : UploadFile) (dest : pystr) (w : World) :
  files w !! upload_path U f dest w = Some Dir ->
  exists e, save_upload_file U f dest w = (inl e, set_drawn S w).
Proof.
  intros Hdir. unfold save_upload_file, uuid4, open_wb, write_file. cbv zeta.
  unfold bind at 1. fold (upload_path U f dest w).
  unfold bind at 1. unfold bind at 1, gets at 1.
  cbn [files set_drawn]. rewrite Hdir. eexists. reflexivity.
Qed.

(** X16: what the PDF handlers do not catch.  Storing the upload and
    making the session folder happen before the [try]: when the path drawn
    for the upload is a directory, each of the three handlers raises and
    leaves the disk and the deletion queue as they were; and when the name
    drawn for the session folder is taken by a regular file, [pdf_to_image]
    raises after the upload has been stored, and no deletion is queued for
    it. *)
Theorem errors_before_the_try_escape (U : UnicodeData) (C : Collaborators)
    (file : UploadFile) (w : World) :
  endswith (str_lower U (filename file)) (lit ".pdf") = true ->
  (files w !! pdf_path U file w = Some Dir ->
   exists e,
     pdf_to_excel U C file w = (inl e, set_drawn S w) /\
     pdf_to_word U C file w = (inl e, set_drawn S w) /\
     pdf_to_image U C file w = (inl e, set_drawn S w)) /\
  (files w !! pdf_path U file w <> Some Dir ->
   forall d, files w !! session_folder U file w = Some (File d) ->
   let r := pdf_to_image U C file w in
   (exists e, fst r = inl e) /\
   files (snd r) !! pdf_path U file w =
     Some (File (Bytes (drop (cursor file) (payload file)))) /\
   threads (snd r) = threads w).
Proof.
  intros Hvalid. split.
  - intros Hdir.
    destruct (save_upload_file_raises U file PDF_DOWNLOAD_FOLDER w Hdir) as [e He].
    exists e. unfold pdf_to_excel, pdf_to_word, pdf_to_image. rewrite Hvalid. cbn [negb].
    unfold bind at 1. rewrite He. unfold bind at 1. rewrite He.
    unfold bind at 1. rewrite He. repeat split; reflexivity.
  - intros Hpdf d Hfile r. subst r.
    assert (E : exists e, pdf_to_image U C file w = (inl e, uploaded U file w)).
    { unfold pdf_to_image. rewrite Hvalid. cbn [negb].
      unfold bind at 1. rewrite save_upload_file_spec by exact Hpdf.
      cbn [fst]. unfold bind at 1, uuid4 at 1.
      change (set_drawn S (set_files _ (set_drawn S w))) with (uploaded U file w).
      fold (pdf_path U file w). fold (base_name U file).
      change (UUID_hex (uuid4_int (urandom _ (drawn (set_files _ (set_drawn S w))))))
        with (unique_id w).
      change (path_join IMAGE_DOWNLOAD_FOLDER (base_name U file ++ lit "_" ++ unique_id w))
        with (session_folder U file w).
      unfold bind at 1, os_makedirs_exist_ok at 1. unfold bind at 1, gets at 1.
      rewrite uploaded_lookup_other by apply not_eq_sym, pdf_path_not_session.
      rewrite Hfile. eexists. reflexivity. }
    destruct E as [e ->]. cbn [fst snd].
    split; [exists e; reflexivity|]. split; [apply uploaded_lookup_pdf | reflexivity].
Qed.

(** The name of the session folder is taken by a file. *)
Lemma errors_before_the_try_escape_witness :
  let w := set_files (insert (session_folder sample_U statement_file Sample.world)
                        (File (Bytes [x00]))) Sample.world in
  (endswith (str_lower sample_U (filename statement_file)) (lit ".pdf") = true /\
   files w !! pdf_path sample_U statement_file w <> Some Dir /\
   files w !! session_folder sample_U statement_file w = Some (File (Bytes [x00]))) /\
  (exists e, fst (pdf_to_image sample_U sample_C statement_file w) = inl e) /\
  files (snd (pdf_to_image sample_U sample_C statement_file w))
    !! pdf_path sample_U statement_file w = Some (File (Bytes [x01; x02; x03])) /\
  threads (snd (pdf_to_image sample_U sample_C statement_file w)) = [].
Proof.
  intros w.
  assert (H1 : endswith (str_lower sample_U (filename statement_file)) (lit ".pdf") = true)
    by (vm_compute; reflexivity).
  assert (H2 : files w !! pdf_path sample_U statement_file w <> Some Dir).
  { pose proof (pdf_path_not_session sample_U statement_file Sample.world) as Hne.
    change (pdf_path sample_U statement_file w)
      with (pdf_path sample_U statement_file Sample.world).
    unfold w. cbn [files set_files].
    rewrite lookup_insert_ne by (apply not_eq_sym, Hne).
    unfold Sample.world, files. rewrite lookup_empty. discriminate. }
  assert (H3 : files w !! session_folder sample_U statement_file w =
               Some (File (Bytes [x00])))
    by (change (session_folder sample_U statement_file w)
          with (session_folder sample_U statement_file Sample.world);
        apply lookup_insert_eq).
  split; [split; [exact H1|]; split; [exact H2 | exact H3]|].
  exact (proj2 (errors_before_the_try_escape sample_U sample_C statement_file w H1)
           H2 _ H3).
Defined.

(** ** The name in the header *)

Lemma send_file_names_its_file (U : UnicodeData) (path : pystr) :
  names_its_file U (send_file U path).
Proof.
  unfold send_file, names_its_file, content_disposition. cbv zeta.
  split; [reflexivity|]. split; [reflexivity | apply ascii_filename_allowed].
Qed.

Lemma cleanup_then_error (p q : pystr) (delay : Z) (message : pystr) (w w' : World)
    (r : Response) :
  (remove_if_exists p ;;; delete_file_later q delay ;;; ret (JSON_error message)) w
    = (inr r, w') ->
  r = JSON_error message.
Proof.
  unfold bind at 1. destruct (remove_if_exists p w) as [[e|[]] w1]; [discriminate|].
  unfold bind, delete_file_later, ret. intros [= <- _]. reflexivity.
Qed.

(** X17: whenever one of the five handlers answers with a file, the
    download name is the sanitized last component of the path of that
    file, so that it holds only letters, digits, ['.'], ['_'] and ['-'];
    and the one header the handler sets is [Content-Disposition], with
    that name between its double quotes.  No name reported by the video
    fetcher and no uploaded filename can therefore close the quotes or
    bring in another header. *)
Theorem file_responses_name_their_file (U : UnicodeData) (C : Collaborators) :
  (forall url w r w', download_youtube U C url w = (inr r, w') -> names_its_file U r) /\
  (forall url w r w', download_tiktok U C url w = (inr r, w') -> names_its_file U r) /\
  (forall file w r w', pdf_to_excel U C file w = (inr r, w') -> names_its_file U r) /\
  (forall file w r w', pdf_to_word U C file w = (inr r, w') -> names_its_file U r) /\
  (forall file w r w', pdf_to_image U C file w = (inr r, w') -> names_its_file U r).
Proof.
  split; [|split; [|split; [|split]]].
  - intros url w r w'. unfold download_youtube. cbv zeta.
    rewrite download_endpoint_run.
    destruct (download_video U C url _ None w) as [[e|name] w1]; intros [= <- _];
      [exact I | apply send_file_names_its_file].
  - intros url w r w'. unfold download_tiktok. cbv zeta.
    rewrite download_endpoint_run.
    destruct (download_video U C url _ _ w) as [[e|name] w1]; intros [= <- _];
      [exact I | apply send_file_names_its_file].
  - intros file w r w'. unfold pdf_to_excel.
    destruct (negb _); [intros [= <- _]; exact I|].
    unfold bind at 1.
    destruct (save_upload_file U file PDF_DOWNLOAD_FOLDER w) as [[e|saved] w1];
      [discriminate|].
    unfold bind at 1, uuid4 at 1. unfold bind at 1, try at 1.
    destruct (convert_pdf_tables_to_excel C _ _ _) as [[e|[]] w3].
    + destruct e; intros H; apply cleanup_then_error in H; subst r; exact I.
    + unfold bind, delete_file_later, ret. intros [= <- _].
      apply send_file_names_its_file.
  - intros file w r w'. unfold pdf_to_word.
    destruct (negb _); [intros [= <- _]; exact I|].
    unfold bind at 1.
    destruct (save_upload_file U file PDF_DOWNLOAD_FOLDER w) as [[e|saved] w1];
      [discriminate|].
    unfold bind at 1, uuid4 at 1. unfold bind at 1, try at 1.
    destruct (convert_pdf_to_docx C _ _ _) as [[e|[]] w3].
    + intros H; apply cleanup_then_error in H; subst r; exact I.
    + unfold bind, delete_file_later, ret. intros [= <- _].
      apply send_file_names_its_file.
  - intros file w r w'. unfold pdf_to_image.
    destruct (negb _); [intros [= <- _]; exact I|].
    unfold bind at 1.
    destruct (save_upload_file U file PDF_DOWNLOAD_FOLDER w) as [[e|saved] w1];
      [discriminate|].
    unfold bind at 1, uuid4 at 1. unfold bind at 1.
    destruct (os_makedirs_exist_ok _ _) as [[e|[]] w2]; [discriminate|].
    unfold bind at 1, try at 1.
    destruct (create_images_zip C _ _ _ _ _) as [[e|[]] w3].
    + destruct e; unfold bind at 1;
        destruct (shutil_rmtree_ignore_errors _ w3) as [[e'|[]] w4];
        try discriminate; intros H; apply cleanup_then_error in H; subst r; exact I.
    + unfold bind at 1.
      destruct (shutil_rmtree_ignore_errors _ w3) as [[e'|[]] w4]; [discriminate|].
      unfold bind, delete_file_later, ret. intros [= <- _].
      apply send_file_names_its_file.
Qed.

(** A name from the fetcher with a quote, a line break and a semicolon in
    it. *)
Lemma file_responses_name_their_file_witness :
  let url := lit "a" ++ [34; 13; 10] ++ lit "; x=.mp4" in
  exists w',
    download_youtube sample_U sample_C url Sample.world =
      (inr (FileResponse (lit "downloads/a" ++ [34; 13; 10] ++ lit "; x=.mp4")
              (lit "a_____x_.mp4")
              [(lit "Content-Disposition",
                lit "attachment; filename=" ++ [34] ++ lit "a_____x_.mp4" ++ [34])]), w') /\
    names_its_file sample_U
      (FileResponse (lit "downloads/a" ++ [34; 13; 10] ++ lit "; x=.mp4")
         (lit "a_____x_.mp4")
         [(lit "Content-Disposition",
           lit "attachment; filename=" ++ [34] ++ lit "a_____x_.mp4" ++ [34])]).
Proof.
  intros url.
  pose proof (surjective_pairing (download_youtube sample_U sample_C url Sample.world)) as H.
  assert (F : fst (download_youtube sample_U sample_C url Sample.world) =
              inr (FileResponse (lit "downloads/a" ++ [34; 13; 10] ++ lit "; x=.mp4")
                     (lit "a_____x_.mp4")
                     [(lit "Content-Disposition",
                       lit "attachment; filename=" ++ [34] ++ lit "a_____x_.mp4" ++ [34])]))
    by (vm_compute; reflexivity).
  rewrite F in H.
  exists (snd (download_youtube sample_U sample_C url Sample.world)).
  split; [exact H|].
  exact (proj1 (file_responses_name_their_file sample_U sample_C) url Sample.world _ _ H).
Defined.

(** ** From the answer to the last deletion *)

Lemma files_set_clock (f : Z -> Z) (w : World) : files (set_clock f w) = files w.
Proof. reflexivity. Qed.

Lemma threads_set_clock (f : Z -> Z) (w : World) : threads (set_clock f w) = threads w.
Proof. reflexivity. Qed.

(** A thread whose sleep is over and whose target is a file removes it. *)
Lemma fire_file (w : World) (i : nat) (t : Thread) (d : FileData) :
  threads w !! i = Some t ->
  (0 <= delay t)%Z ->
  (started t + delay t <= clock w)%Z ->
  files w !! target t = Some (File d) ->
  fire i w = Some (inr tt, set_files (delete (target t)) (without_thread i w)).
Proof.
  intros Ht Hpos Hlate Hfile. unfold fire, time_sleep. rewrite Ht.
  replace (delay t <? 0)%Z with false by lia.
  replace (started t + delay t <=? clock w)%Z with true by lia.
  fold (without_thread i w).
  rewrite (delete_after_sleep_file _ d) by exact Hfile. reflexivity.
Qed.

Lemma without_last_but_one {A} (ts : list A) (a b : A) :
  take (length ts) (ts ++ [a; b]) ++ drop (S (length ts)) (ts ++ [a; b]) = ts ++ [b].
Proof.
  rewrite take_app_length. f_equal.
  change (ts ++ [a; b]) with (ts ++ [a] ++ [b]). rewrite app_assoc.
  rewrite drop_app_length'; [reflexivity|]. rewrite length_app. simpl. lia.
Qed.

Lemma without_last {A} (ts : list A) (b : A) :
  take (length ts) (ts ++ [b]) ++ drop (S (length ts)) (ts ++ [b]) = ts.
Proof.
  rewrite take_app_length, drop_ge by (rewrite length_app; simpl; lia).
  apply app_nil_r.
Qed.

(** A deletion at the end of the thread list runs once it is due. *)
Lemma one_deletion_runs (late : World) (ts : list Thread) (t : Thread) (d : FileData) :
  threads late = ts ++ [t] ->
  (0 <= delay t)%Z -> (started t + delay t <= clock late)%Z ->
  files late !! target t = Some (File d) ->
  exists w1,
    fire (length ts) late = Some (inr tt, w1) /\
    files w1 = delete (target t) (files late) /\
    threads w1 = ts.
Proof.
  intros Hts Hp Hl Hf.
  assert (H1 : threads late !! length ts = Some t).
  { rewrite Hts, lookup_app_r by lia. rewrite Nat.sub_diag. reflexivity. }
  exists (set_files (delete (target t)) (without_thread (length ts) late)).
  split; [apply (fire_file late _ t d); assumption|].
  split; [reflexivity|].
  unfold without_thread. cbn [threads set_files set_threads].
  rewrite Hts. apply without_last.
Qed.

(** Two deletions at the end of the thread list, both due, run one after
    the other. *)
Lemma two_deletions_run (late : World) (ts : list Thread) (t1 t2 : Thread)
    (d1 d2 : FileData) :
  threads late = ts ++ [t1; t2] ->
  target t1 <> target t2 ->
  (0 <= delay t1)%Z -> (started t1 + delay t1 <= clock late)%Z ->
  (0 <= delay t2)%Z -> (started t2 + delay t2 <= clock late)%Z ->
  files late !! target t1 = Some (File d1) ->
  files late !! target t2 = Some (File d2) ->
  exists w1 w2,
    fire (length ts) late = Some (inr tt, w1) /\
    fire (length ts) w1 = Some (inr tt, w2) /\
    files w2 = delete (target t2) (delete (target t1) (files late)) /\
    threads w2 = ts.
Proof.
  intros Hts Hne Hp1 Hl1 Hp2 Hl2 Hf1 Hf2.
  assert (H1 : threads late !! length ts = Some t1).
  { rewrite Hts, lookup_app_r by lia. rewrite Nat.sub_diag. reflexivity. }
  set (w1 := set_files (delete (target t1)) (without_thread (length ts) late)).
  assert (Hthreads1 : threads w1 = ts ++ [t2]).
  { unfold w1, without_thread. cbn [threads set_files set_threads].
    rewrite Hts. apply without_last_but_one. }
  destruct (one_deletion_runs w1 ts t2 d2 Hthreads1 Hp2 Hl2) as (w2 & F2 & Hfiles2 & Ht2).
  { unfold w1. cbn [files set_files without_thread set_threads].
    rewrite lookup_delete_ne by exact Hne. exact Hf2. }
  exists w1, w2.
  split; [apply (fire_file late _ t1 d1); assumption|].
  split; [exact F2|]. split; [exact Hfiles2 | exact Ht2].
Qed.

Section Afterwards.
Variable U : UnicodeData.
Variable C : Collaborators.
Variable file : UploadFile.
Variables w late : World.

Hypothesis Hvalid : endswith (str_lower U (filename file)) (lit ".pdf") = true.
Hypothesis Hpdf : files w !! pdf_path U file w <> Some Dir.

Lemma excel_request_settles (w3 : World) :
  convert_pdf_tables_to_excel C (pdf_path U file w) (excel_path U file w)
    (uploaded U file w) = (inr tt, w3) ->
  files late = files (snd (pdf_to_excel U C file w)) ->
  threads late = threads (snd (pdf_to_excel U C file w)) ->
  (clock w + 600 <= clock late)%Z ->
  exists w1 w2,
    fire (length (threads w)) late = Some (inr tt, w1) /\
    fire (length (threads w)) w1 = Some (inr tt, w2) /\
    files w2 !! pdf_path U file w = None /\
    files w2 !! excel_path U file w = None /\
    (forall q, q <> pdf_path U file w -> q <> excel_path U file w ->
               files w2 !! q = files w !! q) /\
    threads w2 = threads w.
Proof.
  intros Hconv.
  destruct (pdf_to_excel_returns U C file w Hvalid Hpdf w3 Hconv) as [sheets ->].
  cbn [snd files threads set_files set_threads]. intros Hfiles Hthreads Hclock.
  change (threads (uploaded U file w)) with (threads w) in Hthreads.
  destruct (two_deletions_run late (threads w)
              (deletion (pdf_path U file w) 300 w) (deletion (excel_path U file w) 600 w)
              (Bytes (drop (cursor file) (payload file))) (Workbook sheets))
    as (w1 & w2 & F1 & F2 & Hw2 & Ht2).
  - exact Hthreads.
  - apply pdf_path_not_excel.
  - cbn [delay deletion]. lia.
  - cbn [delay started deletion]. lia.
  - cbn [delay deletion]. lia.
  - cbn [delay started deletion]. lia.
  - rewrite Hfiles. cbn [target deletion].
    rewrite lookup_insert_ne by apply not_eq_sym, pdf_path_not_excel.
    apply uploaded_lookup_pdf.
  - rewrite Hfiles. cbn [target deletion]. apply lookup_insert_eq.
  - exists w1, w2. split; [exact F1|]. split; [exact F2|].
    rewrite Hw2, Hfiles. cbn [target deletion].
    split; [|split; [|split; [|exact Ht2]]].
    + rewrite lookup_delete_ne by apply not_eq_sym, pdf_path_not_excel.
      apply lookup_delete_eq.
    + apply lookup_delete_eq.
    + intros q Hq1 Hq2. rewrite !lookup_delete_ne, lookup_insert_ne by congruence.
      apply uploaded_lookup_other, Hq1.
Qed.

Lemma word_request_settles (b : list byte) :
  files w !! word_path U file w <> Some Dir ->
  Converter_init C (Some (File (Bytes (drop (cursor file) (payload file))))) = None ->
  Converter_convert C (Some (File (Bytes (drop (cursor file) (payload file))))) =
    (Some b, None) ->
  files late = files (snd (pdf_to_word U C file w)) ->
  threads late = threads (snd (pdf_to_word U C file w)) ->
  (clock w + 600 <= clock late)%Z ->
  exists w1 w2,
    fire (length (threads w)) late = Some (inr tt, w1) /\
    fire (length (threads w)) w1 = Some (inr tt, w2) /\
    files w2 !! pdf_path U file w = None /\
    files w2 !! word_path U file w = None /\
    (forall q, q <> pdf_path U file w -> q <> word_path U file w ->
               files w2 !! q = files w !! q) /\
    threads w2 = threads w.
Proof.
  intros Hword Hinit Hconvert.
  rewrite (pdf_to_word_returns U C file w Hvalid Hpdf b Hword Hinit Hconvert).
  cbn [snd files threads set_files set_threads]. intros Hfiles Hthreads Hclock.
  change (threads (uploaded U file w)) with (threads w) in Hthreads.
  destruct (two_deletions_run late (threads w)
              (deletion (pdf_path U file w) 300 w) (deletion (word_path U file w) 600 w)
              (Bytes (drop (cursor file) (payload file))) (Bytes b))
    as (w1 & w2 & F1 & F2 & Hw2 & Ht2).
  - exact Hthreads.
  - apply pdf_path_not_word.
  - cbn [delay deletion]. lia.
  - cbn [delay started deletion]. lia.
  - cbn [delay deletion]. lia.
  - cbn [delay started deletion]. lia.
  - rewrite Hfiles. cbn [target deletion].
    rewrite lookup_insert_ne by apply not_eq_sym, pdf_path_not_word.
    apply uploaded_lookup_pdf.
  - rewrite Hfiles. cbn [target deletion]. apply lookup_insert_eq.
  - exists w1, w2. split; [exact F1|]. split; [exact F2|].
    rewrite Hw2, Hfiles. cbn [target deletion].
    split; [|split; [|split; [|exact Ht2]]].
    + rewrite lookup_delete_ne by apply not_eq_sym, pdf_path_not_word.
      apply lookup_delete_eq.
    + apply lookup_delete_eq.
    + intros q Hq1 Hq2. rewrite !lookup_delete_ne, lookup_insert_ne by congruence.
      apply uploaded_lookup_other, Hq1.
Qed.

Lemma image_request_settles (pngs : list (list byte)) :
  (forall d, files w !! session_folder U file w <> Some (File d)) ->
  (forall i, files w !! page_image_path (session_folder U file w) (base_name U file) i
             <> Some Dir) ->
  files w !! zip_path U file w <> Some Dir ->
  fitz_open C (Some (File (Bytes (drop (cursor file) (payload file))))) =
    inr (map inr pngs) ->
  pngs <> [] ->
  files late = files (snd (pdf_to_image U C file w)) ->
  threads late = threads (snd (pdf_to_image U C file w)) ->
  (clock w + 600 <= clock late)%Z ->
  exists w1 w2,
    fire (length (threads w)) late = Some (inr tt, w1) /\
    fire (length (threads w)) w1 = Some (inr tt, w2) /\
    files w2 !! pdf_path U file w = None /\
    files w2 !! zip_path U file w = None /\
    files w2 !! session_folder U file w = None /\
    (forall q, below (session_folder U file w) q = true -> files w2 !! q = None) /\
    (forall q, q <> pdf_path U file w -> q <> zip_path U file w ->
               q <> session_folder U file w ->
               below (session_folder U file w) q = false ->
               files w2 !! q = files w !! q) /\
    threads w2 = threads w.
Proof.
  intros Hsession Hpages Hzip Hopen Hne.
  destruct (pdf_to_image_success U C file w Hvalid Hpdf Hsession pngs Hopen Hne Hpages Hzip)
    as (w3 & -> & Harchive & Hw).
  cbn [snd files threads set_files set_threads]. intros Hfiles Hthreads Hclock.
  assert (Hts : threads w3 = threads w).
  { destruct Hw as (_ & Ht & _). rewrite Ht. apply session_ready_threads. }
  rewrite Hts in Hthreads.
  assert (Hlate_pdf : files late !! pdf_path U file w =
                      Some (File (Bytes (drop (cursor file) (payload file))))).
  { rewrite Hfiles.
    rewrite rmtree_other by (apply pdf_path_not_session || apply pdf_path_not_below).
    rewrite (conversion_keeps U file w w3 _ Hw)
      by (apply pdf_path_not_zip || apply pdf_path_not_below).
    apply session_ready_pdf. }
  assert (Hlate_zip : files late !! zip_path U file w =
                      Some (File (Archive (page_entries (base_name U file) pngs)))).
  { rewrite Hfiles.
    rewrite rmtree_other by (apply zip_path_not_session || apply zip_path_not_below).
    exact Harchive. }
  destruct (two_deletions_run late (threads w)
              (upload_deletion U file w)
              {| target := zip_path U file w; started := clock w; delay := 600 |}
              (Bytes (drop (cursor file) (payload file)))
              (Archive (page_entries (base_name U file) pngs)))
    as (w1 & w2 & F1 & F2 & Hw2 & Ht2).
  - exact Hthreads.
  - apply pdf_path_not_zip.
  - cbn [delay upload_deletion]. unfold default_delay. lia.
  - cbn [delay started upload_deletion]. unfold default_delay. lia.
  - cbn [delay]. lia.
  - cbn [delay started]. lia.
  - exact Hlate_pdf.
  - exact Hlate_zip.
  - exists w1, w2. split; [exact F1|]. split; [exact F2|].
    rewrite Hw2. cbn [target upload_deletion].
    split; [|split; [|split; [|split; [|split; [|exact Ht2]]]]].
    + rewrite lookup_delete_ne by apply not_eq_sym, pdf_path_not_zip.
      apply lookup_delete_eq.
    + apply lookup_delete_eq.
    + rewrite lookup_delete_ne by apply zip_path_not_session.
      rewrite lookup_delete_ne by apply pdf_path_not_session.
      rewrite Hfiles. apply rmtree_gone_self.
    + intros q Hq.
      destruct (decide (zip_path U file w = q)) as [<-|Hz]; [apply lookup_delete_eq|].
      rewrite lookup_delete_ne by exact Hz.
      destruct (decide (pdf_path U file w = q)) as [<-|Hp]; [apply lookup_delete_eq|].
      rewrite lookup_delete_ne by exact Hp.
      rewrite Hfiles. apply rmtree_gone_below, Hq.
    + intros q Hq1 Hq2 Hq3 Hq4. rewrite !lookup_delete_ne by congruence.
      rewrite Hfiles, rmtree_other by assumption.
      rewrite (conversion_keeps U file w w3 _ Hw) by assumption.
      rewrite session_ready_other by exact Hq3.
      apply uploaded_lookup_other, Hq1.
Qed.

(** After a conversion that has raised. *)
Lemma excel_failure_settles (e : exn) (w3 : World) :
  files w !! excel_path U file w <> Some Dir ->
  convert_pdf_tables_to_excel C (pdf_path U file w) (excel_path U file w)
    (uploaded U file w) = (inl e, w3) ->
  files late = files (snd (pdf_to_excel U C file w)) ->
  threads late = threads (snd (pdf_to_excel U C file w)) ->
  (clock w + 300 <= clock late)%Z ->
  exists w1,
    fire (length (threads w)) late = Some (inr tt, w1) /\
    files w1 !! pdf_path U file w = None /\
    files w1 !! excel_path U file w = None /\
    (forall q, q <> pdf_path U file w -> q <> excel_path U file w ->
               files w1 !! q = files w !! q) /\
    threads w1 = threads w.
Proof.
  intros Hexcel Hconv.
  destruct (pdf_to_excel_failure U C file w Hvalid Hpdf e w3 Hexcel Hconv)
    as [-> (_ & Hthreads3 & _ & _ & Hfiles3)].
  cbn [snd files threads set_files set_threads]. intros Hfiles Hthreads Hclock.
  rewrite Hthreads3 in Hthreads.
  change (threads (uploaded U file w)) with (threads w) in Hthreads.
  assert (Hkeep : forall q, q <> excel_path U file w ->
                            files w3 !! q = files (uploaded U file w) !! q).
  { intros q Hq. destruct (Hfiles3 q) as [E|[Hq' _]]; [exact E | contradiction]. }
  destruct (one_deletion_runs late (threads w) (upload_deletion U file w)
              (Bytes (drop (cursor file) (payload file))))
    as (w1 & F1 & Hw1 & Ht1).
  - exact Hthreads.
  - cbn [delay upload_deletion]. unfold default_delay. lia.
  - cbn [delay started upload_deletion]. unfold default_delay. lia.
  - rewrite Hfiles. cbn [target upload_deletion].
    rewrite lookup_delete_ne by apply not_eq_sym, pdf_path_not_excel.
    rewrite Hkeep by apply pdf_path_not_excel. apply uploaded_lookup_pdf.
  - exists w1. split; [exact F1|]. rewrite Hw1, Hfiles. cbn [target upload_deletion].
    split; [apply lookup_delete_eq|]. split; [|split; [|exact Ht1]].
    + rewrite lookup_delete_ne by apply pdf_path_not_excel. apply lookup_delete_eq.
    + intros q Hq1 Hq2. rewrite !lookup_delete_ne by congruence.
      rewrite Hkeep by exact Hq2. apply uploaded_lookup_other, Hq1.
Qed.

Lemma word_failure_settles (e : exn) (w3 : World) :
  files w !! word_path U file w <> Some Dir ->
  convert_pdf_to_docx C (pdf_path U file w) (word_path U file w)
    (uploaded U file w) = (inl e, w3) ->
  files late = files (snd (pdf_to_word U C file w)) ->
  threads late = threads (snd (pdf_to_word U C file w)) ->
  (clock w + 300 <= clock late)%Z ->
  exists w1,
    fire (length (threads w)) late = Some (inr tt, w1) /\
    files w1 !! pdf_path U file w = None /\
    files w1 !! word_path U file w = None /\
    (forall q, q <> pdf_path U file w -> q <> word_path U file w ->
               files w1 !! q = files w !! q) /\
    threads w1 = threads w.
Proof.
  intros Hword Hconv.
  destruct (pdf_to_word_failure U C file w Hvalid Hpdf e w3 Hword Hconv)
    as [-> (_ & Hthreads3 & _ & _ & Hfiles3)].
  cbn [snd files threads set_files set_threads]. intros Hfiles Hthreads Hclock.
  rewrite Hthreads3 in Hthreads.
  change (threads (uploaded U file w)) with (threads w) in Hthreads.
  assert (Hkeep : forall q, q <> word_path U file w ->
                            files w3 !! q = files (uploaded U file w) !! q).
  { intros q Hq. destruct (Hfiles3 q) as [E|[Hq' _]]; [exact E | contradiction]. }
  destruct (one_deletion_runs late (threads w) (upload_deletion U file w)
              (Bytes (drop (cursor file) (payload file))))
    as (w1 & F1 & Hw1 & Ht1).
  - exact Hthreads.
  - cbn [delay upload_deletion]. unfold default_delay. lia.
  - cbn [delay started upload_deletion]. unfold default_delay. lia.
  - rewrite Hfiles. cbn [target upload_deletion].
    rewrite lookup_delete_ne by apply not_eq_sym, pdf_path_not_word.
    rewrite Hkeep by apply pdf_path_not_word. apply uploaded_lookup_pdf.
  - exists w1. split; [exact F1|]. rewrite Hw1, Hfiles. cbn [target upload_deletion].
    split; [apply lookup_delete_eq|]. split; [|split; [|exact Ht1]].
    + rewrite lookup_delete_ne by apply pdf_path_not_word. apply lookup_delete_eq.
    + intros q Hq1 Hq2. rewrite !lookup_delete_ne by congruence.
      rewrite Hkeep by exact Hq2. apply uploaded_lookup_other, Hq1.
Qed.

Lemma image_failure_settles (e : exn) (w3 : World) :
  (forall d, files w !! session_folder U file w <> Some (File d)) ->
  files w !! zip_path U file w <> Some Dir ->
  create_images_zip C (pdf_path U file w) (session_folder U file w)
    (zip_path U file w) (base_name U file) (session_ready U file w) = (inl e, w3) ->
  files late = files (snd (pdf_to_image U C file w)) ->
  threads late = threads (snd (pdf_to_image U C file w)) ->
  (clock w + 300 <= clock late)%Z ->
  exists w1,
    fire (length (threads w)) late = Some (inr tt, w1) /\
    files w1 !! pdf_path U file w = None /\
    files w1 !! zip_path U file w = None /\
    files w1 !! session_folder U file w = None /\
    (forall q, below (session_folder U file w) q = true -> files w1 !! q = None) /\
    (forall q, q <> pdf_path U file w -> q <> zip_path U file w ->
               q <> session_folder U file w ->
               below (session_folder U file w) q = false ->
               files w1 !! q = files w !! q) /\
    threads w1 = threads w.
Proof.
  intros Hsession Hzip Hconv.
  destruct (pdf_to_image_failure U C file w Hvalid Hpdf Hsession e w3 Hzip Hconv)
    as [-> Hw].
  cbn [snd files threads set_files set_threads]. intros Hfiles Hthreads Hclock.
  assert (Hts : threads w3 = threads w).
  { destruct Hw as (_ & Ht & _). rewrite Ht. apply session_ready_threads. }
  rewrite Hts in Hthreads.
  destruct (one_deletion_runs late (threads w) (upload_deletion U file w)
              (Bytes (drop (cursor file) (payload file))))
    as (w1 & F1 & Hw1 & Ht1).
  - exact Hthreads.
  - cbn [delay upload_deletion]. unfold default_delay. lia.
  - cbn [delay started upload_deletion]. unfold default_delay. lia.
  - rewrite Hfiles. cbn [target upload_deletion].
    rewrite lookup_delete_ne by apply not_eq_sym, pdf_path_not_zip.
    rewrite rmtree_other by (apply pdf_path_not_session || apply pdf_path_not_below).
    rewrite (conversion_keeps U file w w3 _ Hw)
      by (apply pdf_path_not_zip || apply pdf_path_not_below).
    apply session_ready_pdf.
  - exists w1. split; [exact F1|]. rewrite Hw1, Hfiles. cbn [target upload_deletion].
    split; [apply lookup_delete_eq|].
    split; [|split; [|split; [|split; [|exact Ht1]]]].
    + rewrite lookup_delete_ne by apply pdf_path_not_zip. apply lookup_delete_eq.
    + rewrite lookup_delete_ne by apply pdf_path_not_session.
      rewrite lookup_delete_ne by apply zip_path_not_session. apply rmtree_gone_self.
    + intros q Hq.
      destruct (decide (pdf_path U file w = q)) as [<-|Hp]; [apply lookup_delete_eq|].
      rewrite lookup_delete_ne by exact Hp.
      destruct (decide (zip_path U file w = q)) as [<-|Hz]; [apply lookup_delete_eq|].
      rewrite lookup_delete_ne by exact Hz. apply rmtree_gone_below, Hq.
    + intros q Hq1 Hq2 Hq3 Hq4. rewrite !lookup_delete_ne by congruence.
      rewrite rmtree_other by assumption.
      rewrite (conversion_keeps U file w w3 _ Hw) by assumption.
      rewrite session_ready_other by exact Hq3.
      apply uploaded_lookup_other, Hq1.
Qed.
End Afterwards.

(** X18: a request that succeeds leaves nothing behind.  On each of the
    three PDF endpoints, when the conversion has succeeded and nothing
    else touches the disk or the thread list, the two threads that the
    handler has started can both run once the clock is 600 seconds past
    the time at which they were started, and when they have, neither the
    stored upload nor the output is on disk (nor, on the image endpoint,
    the session folder or anything below it), every other path is as it
    was before the request, and the thread list is as it was. *)
Theorem successful_request_leaves_nothing_behind (U : UnicodeData) (C : Collaborators)
    (file : UploadFile) (w late : World) :
  endswith (str_lower U (filename file)) (lit ".pdf") = true ->
  files w !! pdf_path U file w <> Some Dir ->
  (clock w + 600 <= clock late)%Z ->
  (forall w3,
     convert_pdf_tables_to_excel C (pdf_path U file w) (excel_path U file w)
       (uploaded U file w) = (inr tt, w3) ->
     files late = files (snd (pdf_to_excel U C file w)) ->
     threads late = threads (snd (pdf_to_excel U C file w)) ->
     exists w1 w2,
       fire (length (threads w)) late = Some (inr tt, w1) /\
       fire (length (threads w)) w1 = Some (inr tt, w2) /\
       files w2 !! pdf_path U file w = None /\
       files w2 !! excel_path U file w = None /\
       (forall q, q <> pdf_path U file w -> q <> excel_path U file w ->
                  files w2 !! q = files w !! q) /\
       threads w2 = threads w) /\
  (forall b,
     files w !! word_path U file w <> Some Dir ->
     Converter_init C (Some (File (Bytes (drop (cursor file) (payload file))))) = None ->
     Converter_convert C (Some (File (Bytes (drop (cursor file) (payload file))))) =
       (Some b, None) ->
     files late = files (snd (pdf_to_word U C file w)) ->
     threads late = threads (snd (pdf_to_word U C file w)) ->
     exists w1 w2,
       fire (length (threads w)) late = Some (inr tt, w1) /\
       fire (length (threads w)) w1 = Some (inr tt, w2) /\
       files w2 !! pdf_path U file w = None /\
       files w2 !! word_path U file w = None /\
       (forall q, q <> pdf_path U file w -> q <> word_path U file w ->
                  files w2 !! q = files w !! q) /\
       threads w2 = threads w) /\
  (forall pngs,
     (forall d, files w !! session_folder U file w <> Some (File d)) ->
     (forall i, files w !! page_image_path (session_folder U file w) (base_name U file) i
                <> Some Dir) ->
     files w !! zip_path U file w <> Some Dir ->
     fitz_open C (Some (File (Bytes (drop (cursor file) (payload file))))) =
       inr (map inr pngs) ->
     pngs <> [] ->
     files late = files (snd (pdf_to_image U C file w)) ->
     threads late = threads (snd (pdf_to_image U C file w)) ->
     exists w1 w2,
       fire (length (threads w)) late = Some (inr tt, w1) /\
       fire (length (threads w)) w1 = Some (inr tt, w2) /\
       files w2 !! pdf_path U file w = None /\
       files w2 !! zip_path U file w = None /\
       files w2 !! session_folder U file w = None /\
       (forall q, below (session_folder U file w) q = true -> files w2 !! q = None) /\
       (forall q, q <> pdf_path U file w -> q <> zip_path U file w ->
                  q <> session_folder U file w ->
                  below (session_folder U file w) q = false ->
                  files w2 !! q = files w !! q) /\
       threads w2 = threads w).
Proof.
  intros Hvalid Hpdf Hclock. split; [|split].
  - intros w3 Hconv Hfiles Hthreads.
    apply (excel_request_settles U C file w late Hvalid Hpdf w3); assumption.
  - intros b Hword Hinit Hconvert Hfiles Hthreads.
    apply (word_request_settles U C file w late Hvalid Hpdf b); assumption.
  - intros pngs Hsession Hpages Hzip Hopen Hne Hfiles Hthreads.
    apply (image_request_settles U C file w late Hvalid Hpdf pngs); assumption.
Qed.

(** The three-page statement, ten minutes after it was converted to a
    spreadsheet. *)
Lemma successful_request_leaves_nothing_behind_witness :
  let w3 := snd (convert_pdf_tables_to_excel sample_C
                   (pdf_path sample_U statement_file sample_w)
                   (excel_path sample_U statement_file sample_w)
                   (uploaded sample_U statement_file sample_w)) in
  (endswith (str_lower sample_U (filename statement_file)) (lit ".pdf") = true /\
   files sample_w !! pdf_path sample_U statement_file sample_w <> Some Dir /\
   (clock sample_w + 600 <= clock (set_clock (fun t => (t + 600)%Z) statement_converted))%Z /\
   convert_pdf_tables_to_excel sample_C
     (pdf_path sample_U statement_file sample_w)
     (excel_path sample_U statement_file sample_w)
     (uploaded sample_U statement_file sample_w) = (inr tt, w3) /\
   files (set_clock (fun t => (t + 600)%Z) statement_converted) = files statement_converted /\
   threads (set_clock (fun t => (t + 600)%Z) statement_converted) =
     threads statement_converted) /\
  exists w1 w2,
    fire (length (threads sample_w)) (set_clock (fun t => (t + 600)%Z) statement_converted) =
      Some (inr tt, w1) /\
    fire (length (threads sample_w)) w1 = Some (inr tt, w2) /\
    files w2 !! pdf_path sample_U statement_file sample_w = None /\
    files w2 !! excel_path sample_U statement_file sample_w = None /\
    (forall q, q <> pdf_path sample_U statement_file sample_w ->
               q <> excel_path sample_U statement_file sample_w ->
               files w2 !! q = files sample_w !! q) /\
    threads w2 = threads sample_w.
Proof.
  intros w3.
  assert (H1 : endswith (str_lower sample_U (filename statement_file)) (lit ".pdf") = true)
    by (vm_compute; reflexivity).
  assert (H2 : files sample_w !! pdf_path sample_U statement_file sample_w <> Some Dir)
    by (unfold Sample.world, files; rewrite lookup_empty; discriminate).
  assert (F : fst (convert_pdf_tables_to_excel sample_C
                     (pdf_path sample_U statement_file sample_w)
                     (excel_path sample_U statement_file sample_w)
                     (uploaded sample_U statement_file sample_w)) = inr tt)
    by (vm_compute; reflexivity).
  pose proof (surjective_pairing
                (convert_pdf_tables_to_excel sample_C
                   (pdf_path sample_U statement_file sample_w)
                   (excel_path sample_U statement_file sample_w)
                   (uploaded sample_U statement_file sample_w))) as H3.
  rewrite F in H3. fold w3 in H3.
  pose proof (files_set_clock (fun t => (t + 600)%Z) statement_converted) as H4.
  pose proof (threads_set_clock (fun t => (t + 600)%Z) statement_converted) as H5.
  assert (H6 : (clock sample_w + 600 <=
                clock (set_clock (fun t => (t + 600)%Z) statement_converted))%Z).
  { destruct (pdf_to_excel_returns sample_U sample_C statement_file sample_w H1 H2 w3 H3)
      as [sheets E].
    rewrite E. cbn [snd clock set_clock set_threads set_files uploaded set_drawn]. lia. }
  split; [split; [exact H1|]; split; [exact H2|]; split; [exact H6|];
          split; [exact H3|]; split; [exact H4 | exact H5]|].
  exact (proj1 (successful_request_leaves_nothing_behind sample_U sample_C statement_file
                  sample_w _ H1 H2 H6) w3 H3 H4 H5).
Defined.

(** X19: a request that fails leaves nothing behind either.  On each of
    the three PDF endpoints, when the conversion has raised and nothing
    else touches the disk or the thread list, the one thread that the
    handler has started can run once the clock is 300 seconds past the
    time at which it was started, and when it has, neither the stored
    upload nor any output is on disk (nor, on the image endpoint, the
    session folder or anything below it), every other path is as it was
    before the request, and the thread list is as it was. *)
Theorem failed_request_leaves_nothing_behind (U : UnicodeData) (C : Collaborators)
    (file : UploadFile) (w late : World) :
  endswith (str_lower U (filename file)) (lit ".pdf") = true ->
  files w !! pdf_path U file w <> Some Dir ->
  (clock w + 300 <= clock late)%Z ->
  (forall e w3,
     files w !! excel_path U file w <> Some Dir ->
     convert_pdf_tables_to_excel C (pdf_path U file w) (excel_path U file w)
       (uploaded U file w) = (inl e, w3) ->
     files late = files (snd (pdf_to_excel U C file w)) ->
     threads late = threads (snd (pdf_to_excel U C file w)) ->
     exists w1,
       fire (length (threads w)) late = Some (inr tt, w1) /\
       files w1 !! pdf_path U file w = None /\
       files w1 !! excel_path U file w = None /\
       (forall q, q <> pdf_path U file w -> q <> excel_path U file w ->
                  files w1 !! q = files w !! q) /\
       threads w1 = threads w) /\
  (forall e w3,
     files w !! word_path U file w <> Some Dir ->
     convert_pdf_to_docx C (pdf_path U file w) (word_path U file w)
       (uploaded U file w) = (inl e, w3) ->
     files late = files (snd (pdf_to_word U C file w)) ->
     threads late = threads (snd (pdf_to_word U C file w)) ->
     exists w1,
       fire (length (threads w)) late = Some (inr tt, w1) /\
       files w1 !! pdf_path U file w = None /\
       files w1 !! word_path U file w = None /\
       (forall q, q <> pdf_path U file w -> q <> word_path U file w ->
                  files w1 !! q = files w !! q) /\
       threads w1 = threads w) /\
  (forall e w3,
     (forall d, files w !! session_folder U file w <> Some (File d)) ->
     files w !! zip_path U file w <> Some Dir ->
     create_images_zip C (pdf_path U file w) (session_folder U file w)
       (zip_path U file w) (base_name U file) (session_ready U file w) = (inl e, w3) ->
     files late = files (snd (pdf_to_image U C file w)) ->
     threads late = threads (snd (pdf_to_image U C file w)) ->
     exists w1,
       fire (length (threads w)) late = Some (inr tt, w1) /\
       files w1 !! pdf_path U file w = None /\
       files w1 !! zip_path U file w = None /\
       files w1 !! session_folder U file w = None /\
       (forall q, below (session_folder U file w) q = true -> files w1 !! q = None) /\
       (forall q, q <> pdf_path U file w -> q <> zip_path U file w ->
                  q <> session_folder U file w ->
                  below (session_folder U file w) q = false ->
                  files w1 !! q = files w !! q) /\
       threads w1 = threads w).
Proof.
  intros Hvalid Hpdf Hclock. split; [|split].
  - intros e w3 Hexcel Hconv Hfiles Hthreads.
    apply (excel_failure_settles U C file w late Hvalid Hpdf e w3); assumption.
  - intros e w3 Hword Hconv Hfiles Hthreads.
    apply (word_failure_settles U C file w late Hvalid Hpdf e w3); assumption.
  - intros e w3 Hsession Hzip Hconv Hfiles Hthreads.
    apply (image_failure_settles U C file w late Hvalid Hpdf e w3); assumption.
Qed.

(** The report with a broken page, five minutes after the image endpoint
    gave up on it. *)
Lemma failed_request_leaves_nothing_behind_witness :
  let w3 := snd (create_images_zip sample_C (pdf_path sample_U broken_file sample_w)
                   (session_folder sample_U broken_file sample_w)
                   (zip_path sample_U broken_file sample_w) (base_name sample_U broken_file)
                   (session_ready sample_U broken_file sample_w)) in
  (endswith (str_lower sample_U (filename broken_file)) (lit ".pdf") = true /\
   files sample_w !! pdf_path sample_U broken_file sample_w <> Some Dir /\
   (clock sample_w + 300 <= clock (set_clock (fun t => (t + 300)%Z) report_given_up))%Z /\
   (forall d, files sample_w !! session_folder sample_U broken_file sample_w
              <> Some (File d)) /\
   files sample_w !! zip_path sample_U broken_file sample_w <> Some Dir /\
   create_images_zip sample_C (pdf_path sample_U broken_file sample_w)
     (session_folder sample_U broken_file sample_w)
     (zip_path sample_U broken_file sample_w) (base_name sample_U broken_file)
     (session_ready sample_U broken_file sample_w) = (inl broken_page, w3) /\
   files (set_clock (fun t => (t + 300)%Z) report_given_up) = files report_given_up /\
   threads (set_clock (fun t => (t + 300)%Z) report_given_up) = threads report_given_up) /\
  exists w1,
    fire (length (threads sample_w)) (set_clock (fun t => (t + 300)%Z) report_given_up) =
      Some (inr tt, w1) /\
    files w1 !! pdf_path sample_U broken_file sample_w = None /\
    files w1 !! zip_path sample_U broken_file sample_w = None /\
    files w1 !! session_folder sample_U broken_file sample_w = None /\
    (forall q, below (session_folder sample_U broken_file sample_w) q = true ->
               files w1 !! q = None) /\
    (forall q, q <> pdf_path sample_U broken_file sample_w ->
               q <> zip_path sample_U broken_file sample_w ->
               q <> session_folder sample_U broken_file sample_w ->
               below (session_folder sample_U broken_file sample_w) q = false ->
               files w1 !! q = files sample_w !! q) /\
    threads w1 = threads sample_w.
Proof.
  intros w3.
  assert (H1 : endswith (str_lower sample_U (filename broken_file)) (lit ".pdf") = true)
    by (vm_compute; reflexivity).
  assert (Hempty : forall p, files sample_w !! p <> Some Dir)
    by (intros p; unfold Sample.world, files; rewrite lookup_empty; discriminate).
  assert (Hnofile : forall d, files sample_w !! session_folder sample_U broken_file sample_w
                              <> Some (File d))
    by (intros d; unfold Sample.world, files; rewrite lookup_empty; discriminate).
  assert (F : fst (create_images_zip sample_C (pdf_path sample_U broken_file sample_w)
                     (session_folder sample_U broken_file sample_w)
                     (zip_path sample_U broken_file sample_w)
                     (base_name sample_U broken_file)
                     (session_ready sample_U broken_file sample_w)) = inl broken_page)
    by (vm_compute; reflexivity).
  pose proof (surjective_pairing
                (create_images_zip sample_C (pdf_path sample_U broken_file sample_w)
                   (session_folder sample_U broken_file sample_w)
                   (zip_path sample_U broken_file sample_w)
                   (base_name sample_U broken_file)
                   (session_ready sample_U broken_file sample_w))) as H3.
  rewrite F in H3. fold w3 in H3.
  pose proof (files_set_clock (fun t => (t + 300)%Z) report_given_up) as H4.
  pose proof (threads_set_clock (fun t => (t + 300)%Z) report_given_up) as H5.
  assert (H6 : (clock sample_w + 300 <=
                clock (set_clock (fun t => (t + 300)%Z) report_given_up))%Z).
  { destruct (pdf_to_image_failure sample_U sample_C broken_file sample_w H1 (Hempty _)
                Hnofile broken_page w3 (Hempty _) H3) as [E (Hclock & _)].
    rewrite E. cbn [snd clock set_clock set_threads set_files].
    rewrite Hclock, session_ready_clock. lia. }
  split; [split; [exact H1|]; split; [apply Hempty|]; split; [exact H6|];
          split; [exact Hnofile|]; split; [apply Hempty|];
          split; [exact H3|]; split; [exact H4 | exact H5]|].
  exact (proj2 (proj2 (failed_request_leaves_nothing_behind sample_U sample_C broken_file
                         sample_w _ H1 (Hempty _) H6))
           broken_page w3 Hnofile (Hempty _) H3 H4 H5).
Defined.
